(** * NutraVue: the scoring and warning rules engine

    A shallow embedding of the rule engines of the repository
    (health score, daily values, diabetic warnings, population
    evaluation) and the properties its specification states about them.

    Modelling conventions.
    - A JavaScript number is an exact rational ([Q]); a field of an object
      that may be absent is an [option Q] ([None] is [undefined]).
      The infinities are outside the model, and so is [NaN] but for the
      one place where the code can produce it (a daily-value percentage).
    - A template literal is a [text]: the list of its literal pieces and
      of the numbers it interpolates, each with the formatting the source
      asks for ([toFixed(d)] or the default conversion).
    - [Array.prototype.sort] is the stable sort of ECMAScript, written
      as an insertion sort driven by the test [cmp(a, b) <= 0].
    - Time stamps ([new Date()]) are left out of the result records. *)

From Stdlib Require Import QArith Qround ZArith List String Ascii Bool.
From Stdlib Require Import Lia Lqa Permutation Sorted.
Import ListNotations.

Local Open Scope string_scope.
Local Open Scope list_scope.
Local Open Scope Q_scope.

Infix "+++" := String.append (right associativity, at level 60).

(* ================================================================== *)
(** ** JavaScript primitives *)

Definition Qgtb (x y : Q) : bool := negb (Qle_bool x y).
Definition Qltb (x y : Q) : bool := negb (Qle_bool y x).
Definition Qgeb (x y : Q) : bool := Qle_bool y x.
Definition Qleb (x y : Q) : bool := Qle_bool x y.

Notation "x >? y" := (Qgtb x y) : Q_scope.
Notation "x <? y" := (Qltb x y) : Q_scope.
Notation "x >=? y" := (Qgeb x y) : Q_scope.
Notation "x <=? y" := (Qleb x y) : Q_scope.

(** [x || d] on a possibly absent number: [undefined] and [0] are falsy. *)
Definition js_or (x : option Q) (d : Q) : Q :=
  match x with
  | Some q => if Qeq_bool q 0 then d else q
  | None => d
  end.

(** Relational operators with a possibly [undefined] left operand:
    [undefined] converts to [NaN], and every comparison with it is false. *)
Definition js_ge (x : option Q) (c : Q) : bool :=
  match x with Some q => q >=? c | None => false end.

Definition js_lt (x : option Q) (c : Q) : bool :=
  match x with Some q => q <? c | None => false end.

Definition js_gt (x : option Q) (c : Q) : bool :=
  match x with Some q => q >? c | None => false end.

Definition Math_max (a b : Q) : Q := if Qle_bool a b then b else a.
Definition Math_min (a b : Q) : Q := if Qle_bool a b then a else b.

(** [Math.round]: the nearest integer, halves towards plus infinity. *)
Definition Math_round (x : Q) : Z := Qfloor (x + 1 / 2).

(** A value that is a number or a string. *)
Inductive jsval :=
| VNum (q : Q)
| VStr (s : string).

(** Pieces of a template literal. *)
Inductive frag :=
| Lit (s : string)
| Num (q : Q)
| Fixed (q : Q) (digits : nat).

Definition text := list frag.

(** [Array.prototype.join] on strings. *)
Fixpoint join (sep : string) (l : list string) : string :=
  match l with
  | [] => ""
  | [x] => x
  | x :: rest => x +++ sep +++ join sep rest
  end.

(** [Array.prototype.join] on texts. *)
Fixpoint join_text (sep : string) (l : list text) : text :=
  match l with
  | [] => []
  | [x] => x
  | x :: rest => x ++ Lit sep :: join_text sep rest
  end.

(** [String.prototype.toLowerCase], on the ASCII letters. *)
Definition lower_ascii (c : ascii) : ascii :=
  let n := nat_of_ascii c in
  if (65 <=? n)%nat && (n <=? 90)%nat then ascii_of_nat (n + 32) else c.

Fixpoint toLowerCase (s : string) : string :=
  match s with
  | EmptyString => EmptyString
  | String c rest => String (lower_ascii c) (toLowerCase rest)
  end.

(** [String.prototype.includes]: [t] occurs in [s] at some position. *)
Fixpoint includes (s t : string) : bool :=
  String.prefix t s ||
  match s with
  | EmptyString => false
  | String _ rest => includes rest t
  end.

(** [Array.prototype.includes] on strings. *)
Definition mem_string (x : string) (l : list string) : bool :=
  existsb (String.eqb x) l.

(** [Array.prototype.sort(cmp)]; [le0 a b] is the test [cmp(a, b) <= 0].
    An element is placed in front of the first one it does not exceed,
    so equal elements keep the order they had. *)
Section ArraySort.
Context {A : Type} (le0 : A -> A -> bool).

Fixpoint sort_insert (x : A) (l : list A) : list A :=
  match l with
  | [] => [x]
  | y :: rest => if le0 x y then x :: y :: rest else y :: sort_insert x rest
  end.

Definition Array_sort (l : list A) : list A :=
  fold_right sort_insert [] l.

End ArraySort.

(* ================================================================== *)
(** ** Shared input records *)

(** Nutrition data per 100 g, as the callers supply it. *)
Record Nutrition := {
  calories : option Q;
  sugar : option Q;
  fat : option Q;
  saturatedFat : option Q;
  salt : option Q;
  protein : option Q;
  fiber : option Q;
  carbs : option Q;
  caffeine : option Q;
  iron : option Q;
  calcium : option Q
}.

(** The options object the engines destructure. *)
Record Options := {
  gender : option string;
  isDiabetic : option bool;
  diabeticType : option string;
  activityLevel : option string;
  profile : option string;
  servingSize : option Q
}.

(** [options = {}] *)
Definition no_options : Options :=
  {| gender := None; isDiabetic := None; diabeticType := None;
     activityLevel := None; profile := None; servingSize := None |}.

(* ================================================================== *)
(** ** Health score engine (calculateHealthScore) *)

Module N.
Record t := {
  calories : Q;
  sugar : Q;
  fat : Q;
  salt : Q;
  protein : Q;
  fiber : Q
}.
End N.

Module Penalty.
Record t := {
  type : string;
  value : jsval;
  penalty : Q;
  message : text
}.
End Penalty.

Module Reward.
Record t := {
  type : string;
  value : jsval;
  bonus : Q;
  message : text
}.
End Reward.

(** The three variables the scoring pass updates. *)
Module Acc.
Record t := {
  score : Q;
  penalties : list Penalty.t;
  rewards : list Reward.t
}.
End Acc.

Definition normalize (nutrition : Nutrition) : N.t :=
  {| N.calories := Math_max 0 (js_or (calories nutrition) 0);
     N.sugar := Math_max 0 (js_or (sugar nutrition) 0);
     N.fat := Math_max 0 (js_or (fat nutrition) 0);
     N.salt := Math_max 0 (js_or (salt nutrition) 0);
     N.protein := Math_max 0 (js_or (protein nutrition) 0);
     N.fiber := Math_max 0 (js_or (fiber nutrition) 0) |}.

Definition subtract (p : Penalty.t) (a : Acc.t) : Acc.t :=
  {| Acc.score := Acc.score a - Penalty.penalty p;
     Acc.penalties := Acc.penalties a ++ [p];
     Acc.rewards := Acc.rewards a |}.

Definition add (r : Reward.t) (a : Acc.t) : Acc.t :=
  {| Acc.score := Acc.score a + Reward.bonus r;
     Acc.penalties := Acc.penalties a;
     Acc.rewards := Acc.rewards a ++ [r] |}.

Definition caloriePenalty (n : N.t) : Penalty.t :=
  let calorieExcess := N.calories n - 200 in
  let caloriePenalty :=
    if calorieExcess <=? 100 then calorieExcess * 0.05
    else if calorieExcess <=? 200 then 5 + (calorieExcess - 100) * 0.08
    else 13 + (calorieExcess - 200) * 0.06 in
  let caloriePenalty := Math_min 25 caloriePenalty in
  {| Penalty.type := "calories";
     Penalty.value := VNum (N.calories n);
     Penalty.penalty := caloriePenalty;
     Penalty.message :=
       [Lit "High calorie density: "; Num (N.calories n); Lit " kcal/100g"] |}.

Definition sugarPenalty (n : N.t) (isDiabetic : bool) : Penalty.t :=
  let sugarExcess := N.sugar n - 5 in
  let sugarPenalty :=
    if sugarExcess <=? 5 then sugarExcess * 1.5
    else if sugarExcess <=? 15 then 7.5 + (sugarExcess - 5) * 1.0
    else 17.5 + (sugarExcess - 15) * 0.8 in
  let sugarPenalty := if isDiabetic then sugarPenalty * 1.5 else sugarPenalty in
  let sugarPenalty := Math_min 30 sugarPenalty in
  {| Penalty.type := "sugar";
     Penalty.value := VNum (N.sugar n);
     Penalty.penalty := sugarPenalty;
     Penalty.message :=
       [Lit "Sugar content: "; Fixed (N.sugar n) 1; Lit "g/100g"] |}.

Definition fatPenalty (n : N.t) : Penalty.t :=
  let fatExcess := N.fat n - 10 in
  let fatPenalty :=
    if fatExcess <=? 10 then fatExcess * 0.5
    else if fatExcess <=? 20 then 5 + (fatExcess - 10) * 0.6
    else 11 + (fatExcess - 20) * 0.45 in
  let fatPenalty := Math_min 20 fatPenalty in
  {| Penalty.type := "fat";
     Penalty.value := VNum (N.fat n);
     Penalty.penalty := fatPenalty;
     Penalty.message :=
       [Lit "Fat content: "; Fixed (N.fat n) 1; Lit "g/100g"] |}.

Definition saltPenalty (n : N.t) : Penalty.t :=
  let saltExcess := N.salt n - 0.3 in
  let saltPenalty :=
    if saltExcess <=? 0.5 then saltExcess * 8
    else if saltExcess <=? 1.5 then 4 + (saltExcess - 0.5) * 6
    else 10 + (saltExcess - 1.5) * 3.3 in
  let saltPenalty := Math_min 15 saltPenalty in
  {| Penalty.type := "salt";
     Penalty.value := VNum (N.salt n);
     Penalty.penalty := saltPenalty;
     Penalty.message :=
       [Lit "Salt content: "; Fixed (N.salt n) 2; Lit "g/100g"] |}.

Definition comboPenalty : Penalty.t :=
  {| Penalty.type := "combination";
     Penalty.value := VStr "sugar+fat";
     Penalty.penalty := 5;
     Penalty.message := [Lit "High sugar & fat combination"] |}.

Definition metabolicPenalty : Penalty.t :=
  {| Penalty.type := "metabolic";
     Penalty.value := VStr "calories+sugar";
     Penalty.penalty := 5;
     Penalty.message := [Lit "High metabolic impact"] |}.

Definition proteinReward (n : N.t) : Reward.t :=
  let proteinBonus :=
    if N.protein n >=? 20 then 10
    else if N.protein n >=? 15 then 8
    else if N.protein n >=? 10 then 5
    else 3 in
  {| Reward.type := "protein";
     Reward.value := VNum (N.protein n);
     Reward.bonus := proteinBonus;
     Reward.message :=
       [Lit "Good protein: "; Fixed (N.protein n) 1; Lit "g/100g"] |}.

Definition fiberReward (n : N.t) : Reward.t :=
  let fiberBonus :=
    if N.fiber n >=? 15 then 10
    else if N.fiber n >=? 10 then 8
    else if N.fiber n >=? 7 then 5
    else 3 in
  {| Reward.type := "fiber";
     Reward.value := VNum (N.fiber n);
     Reward.bonus := fiberBonus;
     Reward.message :=
       [Lit "High fiber: "; Fixed (N.fiber n) 1; Lit "g/100g"] |}.

Definition lowCalReward (n : N.t) : Reward.t :=
  {| Reward.type := "lowcal";
     Reward.value := VNum (N.calories n);
     Reward.bonus := 5;
     Reward.message := [Lit "Low calorie, good protein balance"] |}.

Definition perfectReward : Reward.t :=
  {| Reward.type := "optimal";
     Reward.value := VStr "perfect";
     Reward.bonus := 5;
     Reward.message := [Lit "Optimal nutrient balance!"] |}.

(** [if (b) { ... }] around one update of the running variables. *)
Definition when (b : bool) (f : Acc.t -> Acc.t) (a : Acc.t) : Acc.t :=
  if b then f a else a.

(** The penalty and reward blocks, in source order, from the perfect
    score down to the value handed to the clamp. *)
Definition scorePass (n : N.t) (isDiabetic : bool) : Acc.t :=
  let a := {| Acc.score := 100; Acc.penalties := []; Acc.rewards := [] |} in
  let a := when (N.calories n >? 200) (subtract (caloriePenalty n)) a in
  let a := when (N.sugar n >? 5) (subtract (sugarPenalty n isDiabetic)) a in
  let a := when (N.fat n >? 10) (subtract (fatPenalty n)) a in
  let a := when (N.salt n >? 0.3) (subtract (saltPenalty n)) a in
  let a := when ((N.sugar n >? 10) && (N.fat n >? 20))
                (subtract comboPenalty) a in
  let a := when ((N.calories n >? 400) && (N.sugar n >? 15))
                (subtract metabolicPenalty) a in
  let a := when (N.protein n >=? 8) (add (proteinReward n)) a in
  let a := when (N.fiber n >=? 5) (add (fiberReward n)) a in
  let a := when ((N.calories n <? 100) && (N.protein n >=? 5))
                (add (lowCalReward n)) a in
  let optimalProfile :=
    (N.sugar n <? 5) && (N.fat n <? 10) && (N.salt n <? 0.5)
    && (N.protein n >=? 10) && (N.fiber n >=? 5) in
  let a := when optimalProfile (add perfectReward) a in
  a.

(** [generateRecommendation]. The sort of the 55..69 band works in place
    on the caller's array, so the array is returned with the text. *)
Definition generateRecommendation (score : Z) (nutrition : N.t)
    (penalties : list Penalty.t) (rewards : list Reward.t)
    (isDiabetic : bool) : string * list Penalty.t :=
  if (score >=? 85)%Z then
    ("Excellent choice! This food has an outstanding nutritional profile. Perfect for a healthy diet.",
     penalties)
  else if (score >=? 70)%Z then
    ("Good choice! A nutritious option that fits well in a balanced diet. Enjoy in moderation.",
     penalties)
  else if (score >=? 55)%Z then
    let sorted :=
      Array_sort (fun a b => (Penalty.penalty b - Penalty.penalty a) <=? 0)
                 penalties in
    let mainIssues := join " and " (map Penalty.type (firstn 2 sorted)) in
    ("Fair choice. Watch out for " +++ mainIssues
       +++ " content. Consider healthier alternatives when possible.",
     sorted)
  else
    let criticalIssues :=
      join ", " (map Penalty.type
                   (filter (fun p => Penalty.penalty p >? 10) penalties)) in
    ("⚠️ Not recommended for regular consumption. High in " +++ criticalIssues
       +++ ". "
       +++ (if isDiabetic then "Not suitable for diabetic diet."
            else "Choose healthier alternatives."),
     penalties).

Definition generateDiabeticWarning (nutrition : N.t) (isDiabetic : bool)
    : option string :=
  if negb isDiabetic then None
  else
    let sugar := N.sugar nutrition in
    if sugar >? 15 then
      Some "🚫 CRITICAL: Very high sugar content. May cause severe blood glucose spike. Avoid completely."
    else if sugar >? 10 then
      Some "⚠️ WARNING: High sugar content. Will significantly raise blood glucose levels. Not recommended."
    else if sugar >? 5 then
      Some "⚡ CAUTION: Moderate sugar content. Monitor blood glucose if consumed. Limit portion size."
    else if (sugar <? 3) && (N.calories nutrition <? 200) then
      Some "✅ SAFE: Diabetic-friendly option. Low sugar and moderate calories."
    else None.

Module Grade.
Record t := {
  grade : string;
  label : string;
  emoji : string;
  color : string
}.
End Grade.

Definition gradeOf (score : Z) : Grade.t :=
  if (score >=? 90)%Z then
    {| Grade.grade := "A+"; Grade.label := "Excellent";
       Grade.emoji := "🌟"; Grade.color := "#10b981" |}
  else if (score >=? 80)%Z then
    {| Grade.grade := "A"; Grade.label := "Very Good";
       Grade.emoji := "✅"; Grade.color := "#22c55e" |}
  else if (score >=? 70)%Z then
    {| Grade.grade := "B"; Grade.label := "Good";
       Grade.emoji := "👍"; Grade.color := "#84cc16" |}
  else if (score >=? 60)%Z then
    {| Grade.grade := "C"; Grade.label := "Fair";
       Grade.emoji := "⚠️"; Grade.color := "#f59e0b" |}
  else if (score >=? 50)%Z then
    {| Grade.grade := "D"; Grade.label := "Poor";
       Grade.emoji := "⚠️"; Grade.color := "#f97316" |}
  else
    {| Grade.grade := "F"; Grade.label := "Very Poor";
       Grade.emoji := "❌"; Grade.color := "#ef4444" |}.

Module HealthScore.
Record t := {
  score : Z;
  grade : Grade.t;
  recommendation : string;
  diabeticWarning : option string;
  penalties : list Penalty.t;
  rewards : list Reward.t;
  nutritionProfile : N.t;
  totalPenalties : Q;
  totalRewards : Q;
  version : string
}.
End HealthScore.

Definition calculateHealthScore (nutrition : Nutrition) (options : Options)
    : HealthScore.t :=
  let n := normalize nutrition in
  let isDiabetic :=
    match isDiabetic options with Some b => b | None => false end in
  let a := scorePass n isDiabetic in
  let score := Z.max 0 (Z.min 100 (Math_round (Acc.score a))) in
  let '(recommendation, penalties) :=
    generateRecommendation score n (Acc.penalties a) (Acc.rewards a)
                           isDiabetic in
  let diabeticWarning := generateDiabeticWarning n isDiabetic in
  {| HealthScore.score := score;
     HealthScore.grade := gradeOf score;
     HealthScore.recommendation := recommendation;
     HealthScore.diabeticWarning := diabeticWarning;
     HealthScore.penalties := penalties;
     HealthScore.rewards := Acc.rewards a;
     HealthScore.nutritionProfile := n;
     HealthScore.totalPenalties :=
       fold_left (fun sum p => sum + Penalty.penalty p) penalties 0;
     HealthScore.totalRewards :=
       fold_left (fun sum r => sum + Reward.bonus r) (Acc.rewards a) 0;
     HealthScore.version := "2.0" |}.

(* ================================================================== *)
(** ** Diabetic warning system (diabetic-warnings.js) *)

Module Severity.
Record t := {
  level : string;
  color : string;
  bgColor : string;
  icon : string;
  sound : option string;
  priority : Z
}.
End Severity.

Definition CRITICAL : Severity.t :=
  {| Severity.level := "critical"; Severity.color := "#dc2626";
     Severity.bgColor := "#fee2e2"; Severity.icon := "🚫";
     Severity.sound := Some "alert"; Severity.priority := 1 |}.

Definition HIGH : Severity.t :=
  {| Severity.level := "high"; Severity.color := "#ea580c";
     Severity.bgColor := "#ffedd5"; Severity.icon := "⚠️";
     Severity.sound := Some "warning"; Severity.priority := 2 |}.

Definition MODERATE : Severity.t :=
  {| Severity.level := "moderate"; Severity.color := "#f59e0b";
     Severity.bgColor := "#fef3c7"; Severity.icon := "⚡";
     Severity.sound := Some "caution"; Severity.priority := 3 |}.

Definition LOW : Severity.t :=
  {| Severity.level := "low"; Severity.color := "#84cc16";
     Severity.bgColor := "#ecfccb"; Severity.icon := "💡";
     Severity.sound := None; Severity.priority := 4 |}.

Definition SAFE : Severity.t :=
  {| Severity.level := "safe"; Severity.color := "#10b981";
     Severity.bgColor := "#d1fae5"; Severity.icon := "✅";
     Severity.sound := None; Severity.priority := 5 |}.

(** [DIABETIC_SEVERITY[key]] *)
Definition DIABETIC_SEVERITY (key : string) : option Severity.t :=
  if String.eqb key "CRITICAL" then Some CRITICAL
  else if String.eqb key "HIGH" then Some HIGH
  else if String.eqb key "MODERATE" then Some MODERATE
  else if String.eqb key "LOW" then Some LOW
  else if String.eqb key "SAFE" then Some SAFE
  else None.

Module GLYCEMIC_IMPACT.
Definition VERY_HIGH : string := "very_high".
Definition HIGH : string := "high".
Definition MODERATE : string := "moderate".
Definition LOW : string := "low".
Definition VERY_LOW : string := "very_low".
End GLYCEMIC_IMPACT.

(** A warning object: the spread severity record and the entry's own keys. *)
Module Warning.
Record t := {
  severity : Severity.t;
  type : string;
  title : string;
  message : text;
  detail : text;
  impact : option string;
  action : string;
  glycemicImpact : option string
}.
Definition priority (w : t) : Z := Severity.priority (severity w).
End Warning.

Module DN.
Record t := {
  sugar : Q;
  calories : Q;
  fat : Q;
  salt : Q;
  protein : Q;
  fiber : Q;
  carbs : Q
}.
End DN.

Definition diabeticProfile (nutrition : Nutrition) : DN.t :=
  {| DN.sugar := js_or (sugar nutrition) 0;
     DN.calories := js_or (calories nutrition) 0;
     DN.fat := js_or (fat nutrition) 0;
     DN.salt := js_or (salt nutrition) 0;
     DN.protein := js_or (protein nutrition) 0;
     DN.fiber := js_or (fiber nutrition) 0;
     DN.carbs := js_or (carbs nutrition) (js_or (sugar nutrition) 0) |}.

Definition sugar_critical (n : DN.t) : Warning.t :=
  {| Warning.severity := CRITICAL;
     Warning.type := "sugar_critical";
     Warning.title := "CRITICAL SUGAR LEVEL";
     Warning.message :=
       [Lit "Extremely high sugar content: "; Fixed (DN.sugar n) 1;
        Lit "g per 100g"];
     Warning.detail :=
       [Lit "May cause severe blood glucose spike. Avoid completely."];
     Warning.impact := Some "Blood glucose may rise by 150-200+ mg/dL";
     Warning.action := "DO NOT CONSUME - Consult healthcare provider";
     Warning.glycemicImpact := Some GLYCEMIC_IMPACT.VERY_HIGH |}.

Definition sugar_high (n : DN.t) : Warning.t :=
  {| Warning.severity := HIGH;
     Warning.type := "sugar_high";
     Warning.title := "HIGH SUGAR WARNING";
     Warning.message :=
       [Lit "Very high sugar content: "; Fixed (DN.sugar n) 1;
        Lit "g per 100g"];
     Warning.detail :=
       [Lit "Will significantly raise blood glucose levels."];
     Warning.impact := Some "Blood glucose may rise by 100-150 mg/dL";
     Warning.action :=
       "Avoid or consume minimal amount with insulin adjustment";
     Warning.glycemicImpact := Some GLYCEMIC_IMPACT.HIGH |}.

Definition sugar_moderate (n : DN.t) : Warning.t :=
  {| Warning.severity := MODERATE;
     Warning.type := "sugar_moderate";
     Warning.title := "MODERATE SUGAR ALERT";
     Warning.message :=
       [Lit "Elevated sugar content: "; Fixed (DN.sugar n) 1;
        Lit "g per 100g"];
     Warning.detail := [Lit "Will raise blood glucose levels noticeably."];
     Warning.impact := Some "Blood glucose may rise by 50-100 mg/dL";
     Warning.action := "Limit portion size, monitor glucose closely";
     Warning.glycemicImpact := Some GLYCEMIC_IMPACT.MODERATE |}.

Definition sugar_low (n : DN.t) : Warning.t :=
  {| Warning.severity := LOW;
     Warning.type := "sugar_low";
     Warning.title := "Sugar Content Notice";
     Warning.message :=
       [Lit "Moderate sugar: "; Fixed (DN.sugar n) 1; Lit "g per 100g"];
     Warning.detail := [Lit "May cause mild blood glucose increase."];
     Warning.impact := Some "Blood glucose may rise by 20-50 mg/dL";
     Warning.action := "Consume in small portions, pair with protein/fiber";
     Warning.glycemicImpact := Some GLYCEMIC_IMPACT.LOW |}.

Definition sugar_safe (n : DN.t) : Warning.t :=
  {| Warning.severity := SAFE;
     Warning.type := "sugar_safe";
     Warning.title := "Low Sugar - Diabetic Friendly";
     Warning.message :=
       [Lit "Low sugar content: "; Fixed (DN.sugar n) 1; Lit "g per 100g"];
     Warning.detail := [Lit "Minimal impact on blood glucose levels."];
     Warning.impact := Some "Blood glucose rise: <20 mg/dL";
     Warning.action := "Safe for consumption in normal portions";
     Warning.glycemicImpact := Some GLYCEMIC_IMPACT.VERY_LOW |}.

Definition carb_high (n : DN.t) : Warning.t :=
  {| Warning.severity := HIGH;
     Warning.type := "carb_high";
     Warning.title := "High Carbohydrate Content";
     Warning.message :=
       [Lit "Carbohydrates: "; Fixed (DN.carbs n) 1; Lit "g per 100g"];
     Warning.detail :=
       [Lit "High carb foods require careful glucose monitoring."];
     Warning.impact := None;
     Warning.action := "Calculate insulin dose if on insulin therapy";
     Warning.glycemicImpact := None |}.

Definition combination_danger : Warning.t :=
  {| Warning.severity := CRITICAL;
     Warning.type := "combination_danger";
     Warning.title := "DANGEROUS COMBINATION";
     Warning.message := [Lit "High fat + high sugar detected"];
     Warning.detail :=
       [Lit "This combination delays glucose absorption and causes prolonged elevated blood sugar."];
     Warning.impact := Some "Extended blood glucose elevation (4-6 hours)";
     Warning.action := "Avoid completely - Very high risk for diabetics";
     Warning.glycemicImpact := None |}.

Definition calorie_high (n : DN.t) : Warning.t :=
  {| Warning.severity := MODERATE;
     Warning.type := "calorie_high";
     Warning.title := "Very High Calorie Density";
     Warning.message :=
       [Num (DN.calories n); Lit " kcal per 100g - Ultra-processed food"];
     Warning.detail :=
       [Lit "High calorie density may affect insulin sensitivity."];
     Warning.impact := None;
     Warning.action := "Consume very small portions if at all";
     Warning.glycemicImpact := None |}.

Definition salt_high (n : DN.t) : Warning.t :=
  {| Warning.severity := MODERATE;
     Warning.type := "salt_high";
     Warning.title := "High Salt Content";
     Warning.message := [Lit "Salt: "; Fixed (DN.salt n) 2; Lit "g per 100g"];
     Warning.detail :=
       [Lit "Diabetics have higher risk of hypertension. High salt intake increases cardiovascular risk."];
     Warning.impact := None;
     Warning.action := "Choose low-sodium alternatives";
     Warning.glycemicImpact := None |}.

Definition fiber_good (n : DN.t) : Warning.t :=
  {| Warning.severity := SAFE;
     Warning.type := "fiber_good";
     Warning.title := "✨ High Fiber Benefit";
     Warning.message :=
       [Lit "Excellent fiber content: "; Fixed (DN.fiber n) 1;
        Lit "g per 100g"];
     Warning.detail :=
       [Lit "Fiber helps slow glucose absorption and improve blood sugar control."];
     Warning.impact := None;
     Warning.action := "Great choice for diabetic diet!";
     Warning.glycemicImpact := None |}.

Definition protein_good (n : DN.t) : Warning.t :=
  {| Warning.severity := SAFE;
     Warning.type := "protein_good";
     Warning.title := "✨ High Protein Benefit";
     Warning.message :=
       [Lit "Good protein content: "; Fixed (DN.protein n) 1;
        Lit "g per 100g"];
     Warning.detail := [Lit "Protein helps stabilize blood sugar levels."];
     Warning.impact := None;
     Warning.action := "Excellent choice for blood sugar management";
     Warning.glycemicImpact := None |}.

Definition ideal_diabetic : Warning.t :=
  {| Warning.severity := SAFE;
     Warning.type := "ideal_diabetic";
     Warning.title := "🌟 IDEAL DIABETIC FOOD";
     Warning.message :=
       [Lit "Perfect nutritional profile for diabetes management"];
     Warning.detail :=
       [Lit "Low sugar, moderate calories, good fiber content."];
     Warning.impact := None;
     Warning.action := "Highly recommended for regular consumption";
     Warning.glycemicImpact := None |}.

Definition type1_specific (n : DN.t) : Warning.t :=
  {| Warning.severity := HIGH;
     Warning.type := "type1_specific";
     Warning.title := "Type 1 Diabetes Alert";
     Warning.message := [Lit "Requires precise insulin calculation"];
     Warning.detail :=
       [Lit "Estimated carbs: "; Fixed (DN.carbs n) 0;
        Lit "g - Consult carb counting guide"];
     Warning.impact := None;
     Warning.action := "Calculate bolus insulin dose before consuming";
     Warning.glycemicImpact := None |}.

(** [if (b) { warnings.push(w) }] *)
Definition push_when (b : bool) (w : Warning.t) (warnings : list Warning.t)
    : list Warning.t :=
  if b then warnings ++ [w] else warnings.

(** The sugar band chain: at most one of its branches pushes. *)
Definition push_sugar_band (n : DN.t) (warnings : list Warning.t)
    : list Warning.t :=
  if DN.sugar n >? 20 then warnings ++ [sugar_critical n]
  else if DN.sugar n >? 15 then warnings ++ [sugar_high n]
  else if DN.sugar n >? 10 then warnings ++ [sugar_moderate n]
  else if DN.sugar n >? 5 then warnings ++ [sugar_low n]
  else if DN.sugar n <=? 3 then warnings ++ [sugar_safe n]
  else warnings.

(** The entries in the order the source pushes them, before the sort. *)
Definition collectDiabeticWarnings (n : DN.t) (diabeticType : string)
    : list Warning.t :=
  let warnings := [] in
  let warnings := push_sugar_band n warnings in
  let warnings := push_when (DN.carbs n >? 50) (carb_high n) warnings in
  let warnings :=
    push_when ((DN.fat n >? 20) && (DN.sugar n >? 10))
              combination_danger warnings in
  let warnings := push_when (DN.calories n >? 500) (calorie_high n) warnings in
  let warnings := push_when (DN.salt n >? 1.5) (salt_high n) warnings in
  let warnings :=
    push_when ((DN.fiber n >=? 8) && (DN.sugar n <? 5))
              (fiber_good n) warnings in
  let warnings :=
    push_when ((DN.protein n >=? 15) && (DN.sugar n <? 5))
              (protein_good n) warnings in
  let warnings :=
    push_when ((DN.sugar n <? 3) && (DN.calories n <? 200)
               && (DN.fiber n >=? 5))
              ideal_diabetic warnings in
  let warnings :=
    push_when (String.eqb diabeticType "type1" && (DN.sugar n >? 10))
              (type1_specific n) warnings in
  warnings.

Definition generateDiabeticWarnings (nutrition : Nutrition)
    (options : Options) : list Warning.t :=
  let isDiabetic :=
    match isDiabetic options with Some b => b | None => false end in
  let diabeticType :=
    match diabeticType options with Some t => t | None => "type2" end in
  if negb isDiabetic then []
  else
    let n := diabeticProfile nutrition in
    let warnings := collectDiabeticWarnings n diabeticType in
    Array_sort
      (fun a b => (Warning.priority a - Warning.priority b <=? 0)%Z)
      warnings.

(** [String.prototype.toUpperCase], on the ASCII letters. *)
Definition upper_ascii (c : ascii) : ascii :=
  let n := nat_of_ascii c in
  if (97 <=? n)%nat && (n <=? 122)%nat then ascii_of_nat (n - 32) else c.

Fixpoint toUpperCase (s : string) : string :=
  match s with
  | EmptyString => EmptyString
  | String c rest => String (upper_ascii c) (toUpperCase rest)
  end.

Module Risk.
Record t := {
  risk : string;
  score : Z;
  recommendation : option string;
  severity : option Severity.t
}.
End Risk.

(** [assessDiabeticRisk(nutrition, isDiabetic = false)]; an absent second
    argument is [None]. *)
Definition assessDiabeticRisk (nutrition : Nutrition)
    (isDiabetic : option bool) : Risk.t :=
  let isDiabetic := match isDiabetic with Some b => b | None => false end in
  if negb isDiabetic then
    {| Risk.risk := "not_applicable"; Risk.score := 0;
       Risk.recommendation := None; Risk.severity := None |}
  else
    let sugar := js_or (sugar nutrition) 0 in
    let fat := js_or (fat nutrition) 0 in
    let riskScore := 0%Z in
    let riskScore :=
      if sugar >? 20 then (riskScore + 50)%Z
      else if sugar >? 15 then (riskScore + 35)%Z
      else if sugar >? 10 then (riskScore + 20)%Z
      else if sugar >? 5 then (riskScore + 10)%Z
      else riskScore in
    let riskScore :=
      if fat >? 30 then (riskScore + 20)%Z
      else if fat >? 20 then (riskScore + 10)%Z
      else riskScore in
    let riskScore :=
      if (sugar >? 10) && (fat >? 20) then (riskScore + 20)%Z
      else riskScore in
    let '(risk, recommendation) :=
      if (riskScore >=? 70)%Z then
        ("critical", "Avoid completely - High risk of severe glucose spike")
      else if (riskScore >=? 40)%Z then
        ("high", "Not recommended - Significant glucose impact expected")
      else if (riskScore >=? 20)%Z then
        ("moderate", "Consume cautiously - Monitor glucose closely")
      else if (riskScore >=? 10)%Z then
        ("low", "Acceptable in small portions")
      else
        ("safe", "Safe for diabetic consumption") in
    {| Risk.risk := risk;
       Risk.score := riskScore;
       Risk.recommendation := Some recommendation;
       Risk.severity :=
         Some (match DIABETIC_SEVERITY (toUpperCase risk) with
               | Some s => s
               | None => LOW
               end) |}.

(* ================================================================== *)
(** ** Daily value calculator (daily-value-calculator.js) *)

Module DV.
Record t := {
  calories : Q;
  sugar : Q;
  fat : Q;
  saturatedFat : Q;
  salt : Q;
  sodium : Q;
  protein : Q;
  fiber : Q;
  carbs : Q;
  cholesterol : Q
}.
End DV.

Definition DV_male : DV.t :=
  {| DV.calories := 2500; DV.sugar := 36; DV.fat := 78;
     DV.saturatedFat := 24; DV.salt := 6; DV.sodium := 2400;
     DV.protein := 56; DV.fiber := 38; DV.carbs := 340;
     DV.cholesterol := 300 |}.

Definition DV_female : DV.t :=
  {| DV.calories := 2000; DV.sugar := 25; DV.fat := 70;
     DV.saturatedFat := 20; DV.salt := 6; DV.sodium := 2400;
     DV.protein := 46; DV.fiber := 25; DV.carbs := 275;
     DV.cholesterol := 300 |}.

Definition DV_pregnant : DV.t :=
  {| DV.calories := 2200; DV.sugar := 25; DV.fat := 73;
     DV.saturatedFat := 22; DV.salt := 6; DV.sodium := 2400;
     DV.protein := 71; DV.fiber := 28; DV.carbs := 302;
     DV.cholesterol := 300 |}.

Definition DV_athlete_male : DV.t :=
  {| DV.calories := 3500; DV.sugar := 50; DV.fat := 117;
     DV.saturatedFat := 35; DV.salt := 8; DV.sodium := 3200;
     DV.protein := 140; DV.fiber := 45; DV.carbs := 480;
     DV.cholesterol := 300 |}.

Definition DV_athlete_female : DV.t :=
  {| DV.calories := 2800; DV.sugar := 40; DV.fat := 93;
     DV.saturatedFat := 28; DV.salt := 7; DV.sodium := 2800;
     DV.protein := 112; DV.fiber := 35; DV.carbs := 385;
     DV.cholesterol := 300 |}.

(** What a key of [DAILY_VALUES] holds: a table of targets, or (under
    [athlete]) one more level keyed by gender. *)
Inductive dvEntry :=
| Table (t : DV.t)
| Nested (male female : DV.t).

(** [DAILY_VALUES[key]], among the table's own keys (the members every
    object inherits are not looked up). *)
Definition DAILY_VALUES (key : string) : option dvEntry :=
  if String.eqb key "male" then Some (Table DV_male)
  else if String.eqb key "female" then Some (Table DV_female)
  else if String.eqb key "pregnant" then Some (Table DV_pregnant)
  else if String.eqb key "athlete"
  then Some (Nested DV_athlete_male DV_athlete_female)
  else None.

(** [DAILY_VALUES.athlete[key]] *)
Definition DAILY_VALUES_athlete (key : string) : option dvEntry :=
  if String.eqb key "male" then Some (Table DV_athlete_male)
  else if String.eqb key "female" then Some (Table DV_athlete_female)
  else None.

(** What [dvReference[nutrient]] evaluates to. *)
Inductive dvField :=
| FNum (q : Q)
| FObject
| FUndefined.

Definition table_get (t : DV.t) (nutrient : string) : dvField :=
  if String.eqb nutrient "calories" then FNum (DV.calories t)
  else if String.eqb nutrient "sugar" then FNum (DV.sugar t)
  else if String.eqb nutrient "fat" then FNum (DV.fat t)
  else if String.eqb nutrient "saturatedFat" then FNum (DV.saturatedFat t)
  else if String.eqb nutrient "salt" then FNum (DV.salt t)
  else if String.eqb nutrient "sodium" then FNum (DV.sodium t)
  else if String.eqb nutrient "protein" then FNum (DV.protein t)
  else if String.eqb nutrient "fiber" then FNum (DV.fiber t)
  else if String.eqb nutrient "carbs" then FNum (DV.carbs t)
  else if String.eqb nutrient "cholesterol" then FNum (DV.cholesterol t)
  else FUndefined.

Definition entry_get (e : dvEntry) (nutrient : string) : dvField :=
  match e with
  | Table t => table_get t nutrient
  | Nested _ _ =>
      if String.eqb nutrient "male" || String.eqb nutrient "female"
      then FObject else FUndefined
  end.

Module Category.
Record t := {
  name : string;
  color : string;
  icon : string;
  description : string
}.
End Category.

(** [percentage] is [None] when the source computes [NaN]. *)
Definition pct_ge (percentage : option Z) (c : Z) : bool :=
  match percentage with Some p => (p >=? c)%Z | None => false end.

Definition positiveNutrients : list string := ["protein"; "fiber"].

Definition categorizeDailyValue (percentage : option Z) (nutrient : string)
    : Category.t :=
  let isPositive := mem_string nutrient positiveNutrients in
  if isPositive then
    if pct_ge percentage 40 then
      {| Category.name := "Excellent"; Category.color := "#10b981";
         Category.icon := "⭐"; Category.description := "Outstanding source" |}
    else if pct_ge percentage 20 then
      {| Category.name := "High"; Category.color := "#22c55e";
         Category.icon := "✅"; Category.description := "Good source" |}
    else if pct_ge percentage 10 then
      {| Category.name := "Moderate"; Category.color := "#84cc16";
         Category.icon := "👍"; Category.description := "Contains some" |}
    else
      {| Category.name := "Low"; Category.color := "#f59e0b";
         Category.icon := "⚡"; Category.description := "Low source" |}
  else
    if pct_ge percentage 50 then
      {| Category.name := "Very High"; Category.color := "#ef4444";
         Category.icon := "🚫"; Category.description := "Excessive amount" |}
    else if pct_ge percentage 30 then
      {| Category.name := "High"; Category.color := "#f97316";
         Category.icon := "⚠️"; Category.description := "High amount" |}
    else if pct_ge percentage 15 then
      {| Category.name := "Moderate"; Category.color := "#f59e0b";
         Category.icon := "⚡"; Category.description := "Moderate amount" |}
    else if pct_ge percentage 5 then
      {| Category.name := "Low"; Category.color := "#84cc16";
         Category.icon := "👍"; Category.description := "Low amount" |}
    else
      {| Category.name := "Very Low"; Category.color := "#10b981";
         Category.icon := "✅"; Category.description := "Minimal amount" |}.

Definition generateDVRecommendation (percentage : option Z)
    (nutrient : string) (category : string) : string :=
  let isPositive := mem_string nutrient positiveNutrients in
  if isPositive then
    if pct_ge percentage 40 then
      "Excellent " +++ nutrient +++ " content! Great for daily intake."
    else if pct_ge percentage 20 then
      "Good source of " +++ nutrient +++ ". Contributes well to daily needs."
    else if pct_ge percentage 10 then
      "Provides some " +++ nutrient
        +++ ". Consider supplementing from other sources."
    else
      "Low in " +++ nutrient
        +++ ". Look for additional sources throughout the day."
  else
    if pct_ge percentage 50 then
      "Very high in " +++ nutrient +++ ". Consume sparingly or avoid."
    else if pct_ge percentage 30 then
      "High in " +++ nutrient
        +++ ". Limit consumption and balance with other foods."
    else if pct_ge percentage 15 then
      "Moderate " +++ nutrient +++ " content. Monitor total daily intake."
    else
      "Low in " +++ nutrient +++ ". Good for frequent consumption.".

Module DailyValue.
Record t := {
  value : Q;
  percentage : option Z;
  target : dvField;
  category : string;
  color : string;
  icon : string;
  description : string;
  recommendation : string
}.
End DailyValue.

Definition calculateDailyValue (value : Q) (nutrient : string)
    (options : Options) : DailyValue.t :=
  let gender := match gender options with Some g => g | None => "male" end in
  let profile :=
    match profile options with Some p => p | None => "standard" end in
  let dvReference :=
    if String.eqb profile "athlete" then
      match DAILY_VALUES_athlete gender with
      | Some e => e
      | None => Table DV_athlete_male
      end
    else if String.eqb profile "pregnant" then Table DV_pregnant
    else
      match DAILY_VALUES gender with
      | Some e => e
      | None => Table DV_male
      end in
  let targetDV :=
    match entry_get dvReference nutrient with
    | FNum q => if Qeq_bool q 0 then FNum 100 else FNum q
    | FObject => FObject
    | FUndefined => FNum 100
    end in
  let percentage :=
    match targetDV with
    | FNum t => Some (Math_round ((value / t) * 100))
    | _ => None
    end in
  let category := categorizeDailyValue percentage nutrient in
  {| DailyValue.value := value;
     DailyValue.percentage := percentage;
     DailyValue.target := targetDV;
     DailyValue.category := Category.name category;
     DailyValue.color := Category.color category;
     DailyValue.icon := Category.icon category;
     DailyValue.description := Category.description category;
     DailyValue.recommendation :=
       generateDVRecommendation percentage nutrient
                                (Category.name category) |}.

(** Rank of a category name on the scale of the beneficial nutrients. *)
Definition beneficial_rank (category : string) : nat :=
  if String.eqb category "Excellent" then 3
  else if String.eqb category "High" then 2
  else if String.eqb category "Moderate" then 1
  else 0.

(** Severity rank of a category name on the scale of the limit nutrients. *)
Definition severity_rank (category : string) : nat :=
  if String.eqb category "Very High" then 4
  else if String.eqb category "High" then 3
  else if String.eqb category "Moderate" then 2
  else if String.eqb category "Low" then 1
  else 0.

(* ================================================================== *)
(** ** Population rules (Rule.js) *)

Module Tier.
Record t := {
  safe : Q;
  moderate : Q;
  avoid : Q;
  reason : string
}.
End Tier.

(** [requiredNutrients] / [essentialNutrients]: the keys the evaluator
    reads; a table that lacks one has [None] there. *)
Module Required.
Record t := {
  protein : option Q;
  fiber : option Q;
  iron : option Q;
  calcium : option Q
}.
End Required.

(** The product record handed to the evaluator. *)
Record Product := {
  ingredients : option string;
  name : option string;
  allergens : option (list string);
  nova : option Q
}.

(** What the dispatch of step 9 hands to a trigger closure. *)
Inductive TriggerArg :=
| ArgProduct (product : Product)
| ArgAllergens (allergens : list string)
| ArgIngredients (ingredients : string)
| ArgNutrition (nutrition : Nutrition).

Module WarningConfig.
Record t := {
  trigger : option (TriggerArg -> bool);
  message : string
}.
End WarningConfig.

(** The keys of a limits table that the evaluator reads. *)
Module Limits.
Record t := {
  sugar : Tier.t;
  salt : Tier.t;
  caffeine : option Tier.t;
  saturatedFat : option Tier.t;
  fat : option Tier.t;
  requiredNutrients : option Required.t;
  essentialNutrients : option Required.t;
  avoidIngredients : option (list string);
  strictlyAvoided : option (list string);
  cautionIngredients : option (list string);
  warnings : option (list (string * WarningConfig.t))
}.
End Limits.

Definition PREGNANT_LIMITS : Limits.t :=
  {| Limits.sugar :=
       {| Tier.safe := 3; Tier.moderate := 5; Tier.avoid := 10;
          Tier.reason := "Excess sugar increases gestational diabetes risk" |};
     Limits.salt :=
       {| Tier.safe := 0.2; Tier.moderate := 0.3; Tier.avoid := 0.5;
          Tier.reason :=
            "High salt can cause swelling and high blood pressure" |};
     Limits.caffeine :=
       Some {| Tier.safe := 0; Tier.moderate := 20; Tier.avoid := 50;
               Tier.reason :=
                 "Caffeine crosses placenta, limit to 200mg/day total" |};
     Limits.saturatedFat :=
       Some {| Tier.safe := 3; Tier.moderate := 5; Tier.avoid := 8;
               Tier.reason :=
                 "High saturated fat affects cardiovascular health" |};
     Limits.fat := None;
     Limits.requiredNutrients :=
       Some {| Required.protein := Some 5; Required.fiber := Some 3;
               Required.iron := Some 0.002; Required.calcium := Some 0.1 |};
     Limits.essentialNutrients := None;
     Limits.avoidIngredients :=
       Some ["aspartame"; "sucralose"; "saccharin"; "acesulfame";
             "msg"; "monosodium glutamate"; "sodium benzoate";
             "raw milk"; "unpasteurized"; "raw egg";
             "retinol"; "retinyl palmitate"; "liver";
             "alcohol"; "ethanol"; "wine"; "beer";
             "shark"; "swordfish"; "king mackerel"; "tilefish"];
     Limits.strictlyAvoided := None;
     Limits.cautionIngredients := None;
     Limits.warnings :=
       Some [
         ("highlyProcessed",
          {| WarningConfig.trigger := Some (fun arg =>
               match arg with
               | ArgProduct product => js_or (nova product) 0 >=? 4
               | _ => false
               end);
             WarningConfig.message :=
               "Ultra-processed foods may lack essential nutrients" |});
         ("lowProtein",
          {| WarningConfig.trigger := Some (fun arg =>
               match arg with
               | ArgNutrition nutrition => js_lt (protein nutrition) 2
               | _ => false
               end);
             WarningConfig.message :=
               "Low protein content - ensure adequate protein from other sources" |});
         ("highCalories",
          {| WarningConfig.trigger := Some (fun arg =>
               match arg with
               | ArgNutrition nutrition => js_gt (calories nutrition) 400
               | _ => false
               end);
             WarningConfig.message :=
               "Very high calorie density - monitor portion sizes" |});
         ("artificialAdditives",
          {| WarningConfig.trigger := Some (fun arg =>
               match arg with
               | ArgIngredients ingredients =>
                   if String.eqb ingredients "" then false
                   else
                     let artificial :=
                       ["e102"; "e110"; "e122"; "e129"; "e951"; "e952"] in
                     existsb (fun code =>
                                includes (toLowerCase ingredients) code)
                             artificial
               | _ => false
               end);
             WarningConfig.message :=
               "Contains artificial additives - choose natural alternatives when possible" |})
       ] |}.

Definition CHILD_LIMITS : Limits.t :=
  {| Limits.sugar :=
       {| Tier.safe := 2; Tier.moderate := 3; Tier.avoid := 5;
          Tier.reason :=
            "Excess sugar causes tooth decay and unhealthy eating habits" |};
     Limits.salt :=
       {| Tier.safe := 0.1; Tier.moderate := 0.2; Tier.avoid := 0.3;
          Tier.reason := "Young kidneys cannot process excess sodium" |};
     Limits.caffeine := None;
     Limits.saturatedFat :=
       Some {| Tier.safe := 2; Tier.moderate := 3; Tier.avoid := 5;
               Tier.reason :=
                 "High saturated fat affects heart health development" |};
     Limits.fat :=
       Some {| Tier.safe := 8; Tier.moderate := 10; Tier.avoid := 15;
               Tier.reason := "Excess fat can lead to childhood obesity" |};
     Limits.requiredNutrients := None;
     Limits.essentialNutrients :=
       Some {| Required.protein := Some 3; Required.fiber := None;
               Required.iron := Some 0.001; Required.calcium := Some 0.15 |};
     Limits.avoidIngredients := None;
     Limits.strictlyAvoided :=
       Some ["caffeine"; "coffee"; "tea"; "energy drink";
             "artificial sweetener"; "diet"; "zero sugar";
             "alcohol"; "raw honey";
             "whole nuts"; "popcorn";
             "high fructose corn syrup"];
     Limits.cautionIngredients :=
       Some ["chocolate"; "cocoa";
             "artificial color"; "artificial flavour";
             "preservative"; "e-number";
             "hydrogenated"; "partially hydrogenated";
             "palm oil"; "corn syrup"];
     Limits.warnings :=
       Some [
         ("choking",
          {| WarningConfig.trigger := Some (fun arg =>
               match arg with
               | ArgProduct product =>
                   let name :=
                     toLowerCase
                       (match name product with Some s => s | None => "" end) in
                   let chokingRisk :=
                     ["whole nut"; "popcorn"; "hard candy"; "gum";
                      "marshmallow"] in
                   existsb (fun item => includes name item) chokingRisk
               | _ => false
               end);
             WarningConfig.message :=
               "⚠️ CHOKING HAZARD - Not safe for children under 4 years" |});
         ("allergen",
          {| WarningConfig.trigger := Some (fun arg =>
               match arg with
               | ArgAllergens allergens =>
                   let highRisk :=
                     ["peanuts"; "tree nuts"; "shellfish"; "fish"] in
                   existsb (fun a => mem_string a highRisk) allergens
               | _ => false
               end);
             WarningConfig.message :=
               "Contains common allergens - introduce carefully and monitor for reactions" |});
         ("lowNutrients",
          {| WarningConfig.trigger := Some (fun arg =>
               match arg with
               | ArgNutrition nutrition =>
                   js_lt (protein nutrition) 2 && js_lt (fiber nutrition) 1
               | _ => false
               end);
             WarningConfig.message :=
               "Low nutritional value - not ideal for growing children" |});
         ("ultraProcessed",
          {| WarningConfig.trigger := Some (fun arg =>
               match arg with
               | ArgProduct product => js_or (nova product) 0 >=? 4
               | _ => false
               end);
             WarningConfig.message :=
               "Ultra-processed food - choose whole foods when possible" |})
       ] |}.

Module Metadata.
Record t := {
  displayName : string;
  disclaimer : string
}.
End Metadata.

(** [POPULATION_METADATA[targetGroup]] *)
Definition POPULATION_METADATA (targetGroup : string) : option Metadata.t :=
  if String.eqb targetGroup "pregnant" then
    Some {| Metadata.displayName := "🤰 Pregnant Women";
            Metadata.disclaimer :=
              "This information is for awareness only, not medical advice. Consult your healthcare provider for personalized dietary guidance during pregnancy." |}
  else if String.eqb targetGroup "child" then
    Some {| Metadata.displayName := "👶 Children Under 6";
            Metadata.disclaimer :=
              "This information is for awareness only, not medical advice. Consult your pediatrician for specific dietary advice for your child." |}
  else None.

(* ================================================================== *)
(** ** Population food evaluator (Evaluator.js) *)

Module NutrientResult.
Record t := {
  severity : Z;
  warning : option text;
  positive : option text
}.
End NutrientResult.

Definition evaluateNutrient (value : Q) (limits : Tier.t)
    (nutrientName : string) : NutrientResult.t :=
  if value <=? Tier.safe limits then
    {| NutrientResult.severity := 0;
       NutrientResult.warning := None;
       NutrientResult.positive :=
         Some [Lit "Low "; Lit nutrientName; Lit " ("; Fixed value 1;
               Lit "g) - excellent"] |}
  else if value <=? Tier.moderate limits then
    {| NutrientResult.severity := 20;
       NutrientResult.warning :=
         Some [Lit "Moderate "; Lit nutrientName; Lit " ("; Fixed value 1;
               Lit "g) - "; Lit (Tier.reason limits)];
       NutrientResult.positive := None |}
  else
    {| NutrientResult.severity := 40;
       NutrientResult.warning :=
         Some [Lit "High "; Lit nutrientName; Lit " ("; Fixed value 1;
               Lit "g) - "; Lit (Tier.reason limits)];
       NutrientResult.positive := None |}.

Module StrictCheck.
Record t := {
  isViolated : bool;
  message : text;
  explanation : text
}.
End StrictCheck.

(** The loop of [checkStrictlyAvoided] over the avoid list: the first
    term found decides. *)
Fixpoint scanAvoided (ingredients productName : string)
    (targetGroup : string) (avoidList : list string) : StrictCheck.t :=
  match avoidList with
  | [] =>
      {| StrictCheck.isViolated := false;
         StrictCheck.message := [Lit ""];
         StrictCheck.explanation := [Lit ""] |}
  | avoided :: rest =>
      let searchTerm := toLowerCase avoided in
      if includes ingredients searchTerm || includes productName searchTerm
      then
        {| StrictCheck.isViolated := true;
           StrictCheck.message :=
             [Lit "Contains "; Lit avoided;
              Lit " - strictly not recommended for ";
              Lit (if String.eqb targetGroup "pregnant"
                   then "pregnancy" else "young children")];
           StrictCheck.explanation :=
             [Lit "This product contains ingredients that should be avoided by ";
              Lit (if String.eqb targetGroup "pregnant"
                   then "pregnant women" else "children under 6");
              Lit " due to safety concerns."] |}
      else scanAvoided ingredients productName targetGroup rest
  end.

Definition checkStrictlyAvoided (productData : Product)
    (targetGroup : string) (limits : Limits.t) : StrictCheck.t :=
  let avoidList :=
    match String.eqb targetGroup "pregnant", Limits.avoidIngredients limits with
    | true, Some l => l
    | _, _ =>
        match String.eqb targetGroup "child", Limits.strictlyAvoided limits with
        | true, Some l => l
        | _, _ => []
        end
    end in
  let ingredients :=
    toLowerCase
      (match ingredients productData with Some s => s | None => "" end) in
  let productName :=
    toLowerCase (match name productData with Some s => s | None => "" end) in
  scanAvoided ingredients productName targetGroup avoidList.

Definition checkEssentialNutrients (nutrition : Nutrition)
    (required : Required.t) : list text :=
  let positives := [] in
  let positives :=
    match protein nutrition, Required.protein required with
    | Some p, Some r =>
        if p >=? r
        then positives ++ [[Lit "Good protein source ("; Fixed p 1; Lit "g)"]]
        else positives
    | _, _ => positives
    end in
  let positives :=
    match fiber nutrition with
    | Some f =>
        if negb (Qeq_bool f 0) && (f >=? js_or (Required.fiber required) 3)
        then positives ++ [[Lit "High fiber ("; Fixed f 1; Lit "g)"]]
        else positives
    | None => positives
    end in
  let positives :=
    match iron nutrition with
    | Some i =>
        if negb (Qeq_bool i 0) && (i >=? js_or (Required.iron required) 0.001)
        then positives ++ [[Lit "Contains iron - important for development"]]
        else positives
    | None => positives
    end in
  let positives :=
    match calcium nutrition with
    | Some c =>
        if negb (Qeq_bool c 0) && (c >=? js_or (Required.calcium required) 0.1)
        then positives ++ [[Lit "Good calcium source - supports bone health"]]
        else positives
    | None => positives
    end in
  positives.

Definition checkCautionIngredients (ingredients : string)
    (cautionList : list string) : list string :=
  let ingredientsLower := toLowerCase ingredients in
  filter (fun item => includes ingredientsLower (toLowerCase item))
         cautionList.

Definition detectCaffeineFromIngredients (ingredients : option string) : Q :=
  match ingredients with
  | None => 0
  | Some s =>
      if String.eqb s "" then 0
      else
        let ingredientsLower := toLowerCase s in
        if includes ingredientsLower "coffee" then 80
        else if includes ingredientsLower "espresso" then 120
        else if includes ingredientsLower "tea"
                || includes ingredientsLower "green tea" then 30
        else if includes ingredientsLower "chocolate"
                || includes ingredientsLower "cocoa" then 10
        else if includes ingredientsLower "energy" then 100
        else 0
  end.

Definition generateExplanation (category : string) (targetGroup : string)
    (warnings positives : list text) : text :=
  let groupName :=
    if String.eqb targetGroup "pregnant" then "pregnancy"
    else "young children" in
  if String.eqb category "good" then
    let text := [Lit "This product appears suitable for "; Lit groupName;
                 Lit ". "] in
    let text :=
      if (0 <? List.length positives)%nat
      then text ++ [Lit "Positive aspects: "]
                ++ join_text "; " (firstn 2 positives) ++ [Lit ". "]
      else text in
    let text :=
      match warnings with
      | w :: _ => text ++ [Lit "Minor considerations: "] ++ w
      | [] => text
      end in
    text
  else if String.eqb category "moderate" then
    let text := [Lit "This product can be consumed occasionally by ";
                 Lit groupName;
                 Lit ", but should not be a regular choice. "] in
    let text :=
      if (0 <? List.length warnings)%nat
      then text ++ [Lit "Concerns: "]
                ++ join_text "; " (firstn 2 warnings) ++ [Lit ". "]
      else text in
    text ++ [Lit "Monitor portion sizes and frequency."]
  else
    let text := [Lit "This product is not recommended for "; Lit groupName;
                 Lit ". "] in
    let text :=
      if (0 <? List.length warnings)%nat
      then text ++ [Lit "Main concerns: "]
                ++ join_text "; " (firstn 3 warnings) ++ [Lit ". "]
      else text in
    text ++ [Lit "Choose alternative products better suited for this population."].

(** The evaluation result; [evaluationDate] is left out. The emoji
    literals are those of [SUITABILITY_CATEGORIES]. *)
Module Evaluation.
Record t := {
  suitability : string;
  emoji : string;
  color : string;
  warnings : list text;
  positives : list text;
  explanation : text;
  severityScore : option Z;
  targetGroup : string;
  displayName : option string;
  disclaimer : string
}.
End Evaluation.

Definition createInsufficientDataResult (targetGroup : string)
    : Evaluation.t :=
  {| Evaluation.suitability := "Insufficient Data";
     Evaluation.emoji := "❓";
     Evaluation.color := "#9ca3af";
     Evaluation.warnings :=
       [[Lit "Not enough nutrition information to evaluate safety"]];
     Evaluation.positives := [];
     Evaluation.explanation :=
       [Lit "This product lacks sufficient nutrition data for a proper safety assessment."];
     Evaluation.severityScore := None;
     Evaluation.targetGroup := targetGroup;
     Evaluation.displayName := None;
     Evaluation.disclaimer :=
       "Unable to evaluate - insufficient product data" |}.

Definition createAvoidResult (targetGroup : string) (warnings : list text)
    (explanation : text) : Evaluation.t :=
  {| Evaluation.suitability := "Avoid";
     Evaluation.emoji := "🚫";
     Evaluation.color := "#ef4444";
     Evaluation.warnings := warnings;
     Evaluation.positives := [];
     Evaluation.explanation := explanation;
     Evaluation.severityScore := Some 100%Z;
     Evaluation.targetGroup := targetGroup;
     Evaluation.displayName := None;
     Evaluation.disclaimer :=
       "This information is for awareness only, not medical advice." |}.

(** The three variables the evaluation updates. *)
Module Eval.
Record t := {
  warnings : list text;
  positives : list text;
  severityScore : Z
}.
End Eval.

(** Steps 2 to 5: one nutrient against its limits; [withPositive] tells
    whether the source also pushes the positive note. *)
Definition assessNutrient (value : Q) (limits : Tier.t)
    (nutrientName : string) (withPositive : bool) (e : Eval.t) : Eval.t :=
  let result := evaluateNutrient value limits nutrientName in
  {| Eval.severityScore :=
       (Eval.severityScore e + NutrientResult.severity result)%Z;
     Eval.warnings :=
       match NutrientResult.warning result with
       | Some w => Eval.warnings e ++ [w]
       | None => Eval.warnings e
       end;
     Eval.positives :=
       match NutrientResult.positive result with
       | Some p => if withPositive then Eval.positives e ++ [p]
                   else Eval.positives e
       | None => Eval.positives e
       end |}.

Definition pushPositives (ps : list text) (e : Eval.t) : Eval.t :=
  {| Eval.severityScore := Eval.severityScore e;
     Eval.warnings := Eval.warnings e;
     Eval.positives := Eval.positives e ++ ps |}.

Definition pushWarning (w : text) (increment : Z) (e : Eval.t) : Eval.t :=
  {| Eval.severityScore := (Eval.severityScore e + increment)%Z;
     Eval.warnings := Eval.warnings e ++ [w];
     Eval.positives := Eval.positives e |}.

(** Step 9, one entry of [limits.warnings]: the argument is chosen by key. *)
Definition checkTrigger (nutrition : Nutrition) (productData : Product)
    (entry : string * WarningConfig.t) (e : Eval.t) : Eval.t :=
  let '(key, config) := entry in
  let triggered :=
    match WarningConfig.trigger config with
    | Some trigger =>
        if String.eqb key "highlyProcessed" || String.eqb key "ultraProcessed"
        then trigger (ArgProduct productData)
        else if String.eqb key "allergen"
        then trigger (ArgAllergens
                        (match allergens productData with
                         | Some l => l
                         | None => []
                         end))
        else if String.eqb key "choking"
        then trigger (ArgProduct productData)
        else if String.eqb key "artificialAdditives"
        then trigger (ArgIngredients
                        (match ingredients productData with
                         | Some s => s
                         | None => ""
                         end))
        else trigger (ArgNutrition nutrition)
    | None => false
    end in
  if triggered && negb (String.eqb (WarningConfig.message config) "")
  then pushWarning [Lit (WarningConfig.message config)] 15 e
  else e.

(** The part of [evaluateFoodForPopulation] that follows the critical
    safety check: the nutrient evaluation (2 to 6), the positive
    attributes (7, 8), the additional warnings (9, 10) and the verdict. *)
Definition evaluateAgainstLimits (nutrition : Nutrition)
    (targetGroup : string) (productData : Product) (limits : Limits.t)
    : Evaluation.t :=
  let e := {| Eval.warnings := []; Eval.positives := [];
              Eval.severityScore := 0 |} in
  let e := assessNutrient (js_or (sugar nutrition) 0) (Limits.sugar limits)
                          "sugar" true e in
  let e := assessNutrient (js_or (salt nutrition) 0) (Limits.salt limits)
                          "salt" true e in
  let e :=
    match Limits.saturatedFat limits with
    | Some l => assessNutrient (js_or (saturatedFat nutrition) 0) l
                               "saturated fat" false e
    | None => e
    end in
  let e :=
    match String.eqb targetGroup "child", Limits.fat limits with
    | true, Some l => assessNutrient (js_or (fat nutrition) 0) l "fat" false e
    | _, _ => e
    end in
  let e :=
    match String.eqb targetGroup "pregnant", Limits.caffeine limits with
    | true, Some l =>
        let caffeineAmount :=
          js_or (caffeine nutrition)
                (detectCaffeineFromIngredients (ingredients productData)) in
        if caffeineAmount >? Tier.moderate l
        then pushWarning
               [Lit "Contains caffeine ("; Num caffeineAmount;
                Lit "mg) - not recommended during pregnancy"] 50 e
        else e
    | _, _ => e
    end in
  let e :=
    match String.eqb targetGroup "pregnant", Limits.requiredNutrients limits with
    | true, Some r => pushPositives (checkEssentialNutrients nutrition r) e
    | _, _ => e
    end in
  let e :=
    match String.eqb targetGroup "child", Limits.essentialNutrients limits with
    | true, Some r => pushPositives (checkEssentialNutrients nutrition r) e
    | _, _ => e
    end in
  let e :=
    match fiber nutrition with
    | Some f =>
        if f >=? 3
        then pushPositives
               [[Lit "Good fiber content ("; Fixed f 1;
                 Lit "g) - supports digestive health"]] e
        else e
    | None => e
    end in
  let e :=
    match Limits.warnings limits with
    | Some entries =>
        fold_left (fun e entry => checkTrigger nutrition productData entry e)
                  entries e
    | None => e
    end in
  let e :=
    match String.eqb targetGroup "child",
          Limits.cautionIngredients limits,
          ingredients productData with
    | true, Some cautionList, Some ingredientsText =>
        if String.eqb ingredientsText "" then e
        else
          let cautionFound :=
            checkCautionIngredients ingredientsText cautionList in
          if (0 <? List.length cautionFound)%nat
          then pushWarning
                 [Lit "Contains: "; Lit (join ", " cautionFound);
                  Lit " - limit consumption"] 10 e
          else e
    | _, _, _ => e
    end in
  let severityScore := Eval.severityScore e in
  let warnings := Eval.warnings e in
  let positives := Eval.positives e in
  let '(suitability, emoji, color, explanation) :=
    if (severityScore >=? 80)%Z then
      ("Avoid", "🚫", "#ef4444",
       generateExplanation "avoid" targetGroup warnings positives)
    else if (severityScore >=? 40)%Z then
      ("Moderate", "⚠️", "#f59e0b",
       generateExplanation "moderate" targetGroup warnings positives)
    else
      ("Good Choice", "✅", "#10b981",
       generateExplanation "good" targetGroup warnings positives) in
  let metadata := POPULATION_METADATA targetGroup in
  {| Evaluation.suitability := suitability;
     Evaluation.emoji := emoji;
     Evaluation.color := color;
     Evaluation.warnings := warnings;
     Evaluation.positives := positives;
     Evaluation.explanation := explanation;
     Evaluation.severityScore := Some severityScore;
     Evaluation.targetGroup := targetGroup;
     Evaluation.displayName :=
       Some (match metadata with
             | Some m => Metadata.displayName m
             | None => targetGroup
             end);
     Evaluation.disclaimer :=
       match metadata with
       | Some m => Metadata.disclaimer m
       | None => "This information is for awareness only, not medical advice."
       end |}.

(** [nutrition] is [None] when the caller passes no object. *)
Definition evaluateFoodForPopulation (nutrition : option Nutrition)
    (targetGroup : string) (productData : Product) : Evaluation.t :=
  match nutrition with
  | None => createInsufficientDataResult targetGroup
  | Some nutrition =>
      if negb (mem_string targetGroup ["pregnant"; "child"])
      then createInsufficientDataResult targetGroup
      else
        let limits :=
          if String.eqb targetGroup "pregnant" then PREGNANT_LIMITS
          else CHILD_LIMITS in
        let strictCheck :=
          checkStrictlyAvoided productData targetGroup limits in
        if StrictCheck.isViolated strictCheck then
          createAvoidResult targetGroup [StrictCheck.message strictCheck]
                            (StrictCheck.explanation strictCheck)
        else evaluateAgainstLimits nutrition targetGroup productData limits
  end.

(* ================================================================== *)
(** ** Notions the specification uses *)

(** Total magnitude of a list of penalties, and of a list of rewards. *)
Definition sum_penalty (l : list Penalty.t) : Q :=
  fold_right (fun p s => Penalty.penalty p + s) 0 l.

Definition sum_bonus (l : list Reward.t) : Q :=
  fold_right (fun r s => Reward.bonus r + s) 0 l.

(** The running score is the perfect score less the penalties pushed so
    far plus the rewards pushed so far. *)
Definition balanced (a : Acc.t) : Prop :=
  Acc.score a == 100 - sum_penalty (Acc.penalties a) + sum_bonus (Acc.rewards a).

(** The sugar penalty in the words of the specification: on the excess
    over 5 g, rate 1.5 on the first 5 g, 1.0 on the next 10 g and 0.8
    beyond; times 1.5 for a diabetic; capped at 30. *)
Definition sugar_tiers_spec (excess : Q) : Q :=
  1.5 * Math_min excess 5
  + 1.0 * Math_min (Math_max (excess - 5) 0) 10
  + 0.8 * Math_max (excess - 15) 0.

Definition sugar_penalty_spec (sugar : Q) (diabetic : bool) : Q :=
  Math_min 30 ((if diabetic then 1.5 else 1) * sugar_tiers_spec (sugar - 5)).

Definition has_type (ty : string) (p : Penalty.t) : bool :=
  String.eqb (Penalty.type p) ty.

(** The comparator of the recommendation's sort, [b.penalty - a.penalty]. *)
Definition by_penalty_desc (a b : Penalty.t) : bool :=
  (Penalty.penalty b - Penalty.penalty a) <=? 0.

(** The comparator of the warning sort, [a.priority - b.priority]. *)
Definition by_priority (a b : Warning.t) : bool :=
  (Warning.priority a - Warning.priority b <=? 0)%Z.

(** A text cites a name when the name occurs in it. *)
Definition cites (text name : string) : Prop := includes text name = true.

(** The two largest-magnitude penalties: the head of the descending sort. *)
Definition two_largest (ps : list Penalty.t) : list Penalty.t :=
  firstn 2 (Array_sort by_penalty_desc ps).

(** A nutrition object with the six main fields, the others absent. *)
Definition facts (calories sugar fat salt protein fiber : option Q)
    : Nutrition :=
  {| calories := calories; sugar := sugar; fat := fat; saturatedFat := None;
     salt := salt; protein := protein; fiber := fiber; carbs := None;
     caffeine := None; iron := None; calcium := None |}.

(** The sugar-specific entries are those whose type starts with [sugar_]. *)
Definition is_sugar_entry (w : Warning.t) : bool :=
  String.prefix "sugar_" (Warning.type w).

Definition has_priority (p : Z) (w : Warning.t) : bool :=
  (Warning.priority w =? p)%Z.

(** Type and severity level of each entry of a list. *)
Definition kinds (ws : list Warning.t) : list (string * string) :=
  map (fun w => (Warning.type w, Severity.level (Warning.severity w))) ws.

(** The five risk labels. *)
Definition risk_labels : list string :=
  ["critical"; "high"; "moderate"; "low"; "safe"].

(** The limit nutrients of the daily-value categorization. *)
Definition limitNutrients : list string :=
  ["sugar"; "fat"; "salt"; "calories"].

(** The denylist of a target group. *)
Definition denylist (targetGroup : string) : list string :=
  if String.eqb targetGroup "pregnant" then
    match Limits.avoidIngredients PREGNANT_LIMITS with
    | Some l => l
    | None => []
    end
  else
    match Limits.strictlyAvoided CHILD_LIMITS with
    | Some l => l
    | None => []
    end.

(** Case-insensitive occurrence of a term in a possibly absent text. *)
Definition mentions (text : option string) (term : string) : bool :=
  includes (toLowerCase (match text with Some s => s | None => "" end))
           (toLowerCase term).

(** Options of a diabetic user, of the default type and of type 1. *)
Definition diabetic : Options :=
  {| gender := None; isDiabetic := Some true; diabeticType := None;
     activityLevel := None; profile := None; servingSize := None |}.

Definition diabetic_type1 : Options :=
  {| gender := None; isDiabetic := Some true; diabeticType := Some "type1";
     activityLevel := None; profile := None; servingSize := None |}.

(** The message of a denylist match. *)
Definition avoid_message (targetGroup found : string) : text :=
  [Lit "Contains "; Lit found; Lit " - strictly not recommended for ";
   Lit (if String.eqb targetGroup "pregnant"
        then "pregnancy" else "young children")].

(* ================================================================== *)
(** ** Further functions of the engines and of their callers *)

(** [estimateGlucoseImpact] (diabetic-warnings.js). *)
Module GlucoseImpact.
Record t := {
  estimatedRise : Z;
  netCarbs : Q;
  absorptionSpeed : string;
  duration : string
}.
End GlucoseImpact.

Definition estimateGlucoseImpact (nutrition : Nutrition) : GlucoseImpact.t :=
  let sugar := js_or (sugar nutrition) 0 in
  let carbs := js_or (carbs nutrition) sugar in
  let fiber := js_or (fiber nutrition) 0 in
  let protein := js_or (protein nutrition) 0 in
  let fat := js_or (fat nutrition) 0 in
  let netCarbs := Math_max 0 (carbs - fiber) in
  let glucoseRise := netCarbs * 4 in
  let glucoseRise := if fat >? 10 then glucoseRise * 0.8 else glucoseRise in
  let glucoseRise :=
    if protein >? 20 then glucoseRise * 0.9 else glucoseRise in
  let glucoseRise := if fiber >? 5 then glucoseRise * 0.85 else glucoseRise in
  {| GlucoseImpact.estimatedRise := Math_round glucoseRise;
     GlucoseImpact.netCarbs := inject_Z (Math_round (netCarbs * 10)) / 10;
     GlucoseImpact.absorptionSpeed :=
       if fat >? 10 then "slow"
       else if sugar >? 10 then "fast" else "moderate";
     GlucoseImpact.duration :=
       if fat >? 10 then "4-6 hours"
       else if sugar >? 10 then "1-2 hours" else "2-3 hours" |}.

(** [calculateAllDailyValues] (daily-value-calculator.js). *)
Module DVSummary.
Record t := {
  averagePercentage : option Z;
  highNutrients : list string;
  lowNutrients : list string;
  profile : string;
  gender : string;
  genderSymbol : string
}.
End DVSummary.

Module AllDailyValues.
Record t := {
  dailyValues : list (string * DailyValue.t);
  summary : DVSummary.t
}.
End AllDailyValues.

(** [nutrition[nutrient]] for the names the calculator iterates over. *)
Definition nutrition_get (nutrition : Nutrition) (nutrient : string)
    : option Q :=
  if String.eqb nutrient "calories" then calories nutrition
  else if String.eqb nutrient "sugar" then sugar nutrition
  else if String.eqb nutrient "fat" then fat nutrition
  else if String.eqb nutrient "salt" then salt nutrition
  else if String.eqb nutrient "protein" then protein nutrition
  else if String.eqb nutrient "fiber" then fiber nutrition
  else None.

(** [x || d] on a possibly absent string: the empty string is falsy. *)
Definition js_or_str (x : option string) (d : string) : string :=
  match x with
  | Some s => if String.eqb s "" then d else s
  | None => d
  end.

(** Sum of percentages, [NaN] absorbing. *)
Definition pct_add (sum : option Z) (p : option Z) : option Z :=
  match sum, p with
  | Some a, Some b => Some (a + b)%Z
  | _, _ => None
  end.

Definition pct_lt (percentage : option Z) (c : Z) : bool :=
  match percentage with Some p => (p <? c)%Z | None => false end.

Definition calculateAllDailyValues (nutrition : Nutrition)
    (options : Options) : AllDailyValues.t :=
  let nutrients := ["calories"; "sugar"; "fat"; "salt"; "protein"; "fiber"] in
  let results :=
    map (fun nutrient =>
           let value := js_or (nutrition_get nutrition nutrient) 0 in
           (nutrient, calculateDailyValue value nutrient options))
        nutrients in
  let averagePercentage :=
    match fold_left (fun sum dv => pct_add sum (DailyValue.percentage (snd dv)))
                    results (Some 0%Z) with
    | Some sum =>
        Some (Math_round (inject_Z sum
                          / inject_Z (Z.of_nat (List.length nutrients))))
    | None => None
    end in
  let highNutrients :=
    map fst (filter (fun e => pct_ge (DailyValue.percentage (snd e)) 30)
                    results) in
  let lowNutrients :=
    map fst (filter (fun e => mem_string (fst e) ["protein"; "fiber"]
                              && pct_lt (DailyValue.percentage (snd e)) 10)
                    results) in
  {| AllDailyValues.dailyValues := results;
     AllDailyValues.summary :=
       {| DVSummary.averagePercentage := averagePercentage;
          DVSummary.highNutrients := highNutrients;
          DVSummary.lowNutrients := lowNutrients;
          DVSummary.profile := js_or_str (profile options) "standard";
          DVSummary.gender := js_or_str (gender options) "male";
          DVSummary.genderSymbol :=
            if String.eqb (js_or_str (gender options) "male") "male"
            then "♂" else "♀" |} |}.

(** [results[nutrient]] *)
Definition dv_lookup (a : AllDailyValues.t) (nutrient : string)
    : option DailyValue.t :=
  match find (fun e => String.eqb (fst e) nutrient)
             (AllDailyValues.dailyValues a) with
  | Some e => Some (snd e)
  | None => None
  end.

(** [enrichProduct] (health-system-orchestrator.js): the three engines
    run on the product's nutrition with one options object. The other
    keys of the product are copied unchanged and are the parameter [A]. *)
Module Enriched.
Record t (A : Type) := {
  product : A;
  healthScore : HealthScore.t;
  dailyValues : AllDailyValues.t;
  diabeticWarnings : list Warning.t
}.
Arguments product {A}.
Arguments healthScore {A}.
Arguments dailyValues {A}.
Arguments diabeticWarnings {A}.
End Enriched.

Definition enrichProduct {A : Type} (product : A)
    (nutrition : Nutrition) (options : Options) : Enriched.t A :=
  let healthScore := calculateHealthScore nutrition options in
  let dailyValues := calculateAllDailyValues nutrition options in
  let diabeticWarnings := generateDiabeticWarnings nutrition options in
  {| Enriched.product := product;
     Enriched.healthScore := healthScore;
     Enriched.dailyValues := dailyValues;
     Enriched.diabeticWarnings := diabeticWarnings |}.

(** [n2] is no healthier than [n1]: no less of what is penalized and
    no more of what is rewarded. *)
Definition no_healthier (n1 n2 : N.t) : Prop :=
  N.calories n1 <= N.calories n2 /\ N.sugar n1 <= N.sugar n2
  /\ N.fat n1 <= N.fat n2 /\ N.salt n1 <= N.salt n2
  /\ N.protein n2 <= N.protein n1 /\ N.fiber n2 <= N.fiber n1.

(** Rank of a grade letter, F lowest. *)
Definition grade_rank (grade : string) : nat :=
  if String.eqb grade "A+" then 5
  else if String.eqb grade "A" then 4
  else if String.eqb grade "B" then 3
  else if String.eqb grade "C" then 2
  else if String.eqb grade "D" then 1
  else 0.

(** The diabetic flag as the engines read it. *)
Definition flag (options : Options) : bool :=
  match isDiabetic options with Some b => b | None => false end.

(** The options with the gender key replaced. *)
Definition with_gender (options : Options) (g : option string) : Options :=
  {| gender := g; isDiabetic := isDiabetic options;
     diabeticType := diabeticType options;
     activityLevel := activityLevel options; profile := profile options;
     servingSize := servingSize options |}.


(** The steps of [evaluateAgainstLimits], one definition per numbered
    block of the source, and the verdict computed from the final state. *)
Definition stepSugar (nutrition : Nutrition) (limits : Limits.t)
    (e : Eval.t) : Eval.t :=
  assessNutrient (js_or (sugar nutrition) 0) (Limits.sugar limits)
                 "sugar" true e.

Definition stepSalt (nutrition : Nutrition) (limits : Limits.t)
    (e : Eval.t) : Eval.t :=
  assessNutrient (js_or (salt nutrition) 0) (Limits.salt limits)
                 "salt" true e.

Definition stepSaturatedFat (nutrition : Nutrition) (limits : Limits.t)
    (e : Eval.t) : Eval.t :=
  match Limits.saturatedFat limits with
  | Some l => assessNutrient (js_or (saturatedFat nutrition) 0) l
                             "saturated fat" false e
  | None => e
  end.

Definition stepFat (nutrition : Nutrition) (targetGroup : string)
    (limits : Limits.t) (e : Eval.t) : Eval.t :=
  match String.eqb targetGroup "child", Limits.fat limits with
  | true, Some l => assessNutrient (js_or (fat nutrition) 0) l "fat" false e
  | _, _ => e
  end.

Definition stepCaffeine (nutrition : Nutrition) (targetGroup : string)
    (productData : Product) (limits : Limits.t) (e : Eval.t) : Eval.t :=
  match String.eqb targetGroup "pregnant", Limits.caffeine limits with
  | true, Some l =>
      let caffeineAmount :=
        js_or (caffeine nutrition)
              (detectCaffeineFromIngredients (ingredients productData)) in
      if caffeineAmount >? Tier.moderate l
      then pushWarning
             [Lit "Contains caffeine ("; Num caffeineAmount;
              Lit "mg) - not recommended during pregnancy"] 50 e
      else e
  | _, _ => e
  end.

Definition stepRequired (nutrition : Nutrition) (targetGroup : string)
    (limits : Limits.t) (e : Eval.t) : Eval.t :=
  match String.eqb targetGroup "pregnant", Limits.requiredNutrients limits with
  | true, Some r => pushPositives (checkEssentialNutrients nutrition r) e
  | _, _ => e
  end.

Definition stepEssential (nutrition : Nutrition) (targetGroup : string)
    (limits : Limits.t) (e : Eval.t) : Eval.t :=
  match String.eqb targetGroup "child", Limits.essentialNutrients limits with
  | true, Some r => pushPositives (checkEssentialNutrients nutrition r) e
  | _, _ => e
  end.

Definition stepFiber (nutrition : Nutrition) (e : Eval.t) : Eval.t :=
  match fiber nutrition with
  | Some f =>
      if f >=? 3
      then pushPositives
             [[Lit "Good fiber content ("; Fixed f 1;
               Lit "g) - supports digestive health"]] e
      else e
  | None => e
  end.

Definition stepTriggers (nutrition : Nutrition) (productData : Product)
    (limits : Limits.t) (e : Eval.t) : Eval.t :=
  match Limits.warnings limits with
  | Some entries =>
      fold_left (fun e entry => checkTrigger nutrition productData entry e)
                entries e
  | None => e
  end.

Definition stepCaution (targetGroup : string) (productData : Product)
    (limits : Limits.t) (e : Eval.t) : Eval.t :=
  match String.eqb targetGroup "child",
        Limits.cautionIngredients limits,
        ingredients productData with
  | true, Some cautionList, Some ingredientsText =>
      if String.eqb ingredientsText "" then e
      else
        let cautionFound :=
          checkCautionIngredients ingredientsText cautionList in
        if (0 <? List.length cautionFound)%nat
        then pushWarning
               [Lit "Contains: "; Lit (join ", " cautionFound);
                Lit " - limit consumption"] 10 e
        else e
  | _, _, _ => e
  end.

Definition verdict (targetGroup : string) (e : Eval.t) : Evaluation.t :=
  let severityScore := Eval.severityScore e in
  let warnings := Eval.warnings e in
  let positives := Eval.positives e in
  let '(suitability, emoji, color, explanation) :=
    if (severityScore >=? 80)%Z then
      ("Avoid", "🚫", "#ef4444",
       generateExplanation "avoid" targetGroup warnings positives)
    else if (severityScore >=? 40)%Z then
      ("Moderate", "⚠️", "#f59e0b",
       generateExplanation "moderate" targetGroup warnings positives)
    else
      ("Good Choice", "✅", "#10b981",
       generateExplanation "good" targetGroup warnings positives) in
  let metadata := POPULATION_METADATA targetGroup in
  {| Evaluation.suitability := suitability;
     Evaluation.emoji := emoji;
     Evaluation.color := color;
     Evaluation.warnings := warnings;
     Evaluation.positives := positives;
     Evaluation.explanation := explanation;
     Evaluation.severityScore := Some severityScore;
     Evaluation.targetGroup := targetGroup;
     Evaluation.displayName :=
       Some (match metadata with
             | Some m => Metadata.displayName m
             | None => targetGroup
             end);
     Evaluation.disclaimer :=
       match metadata with
       | Some m => Metadata.disclaimer m
       | None => "This information is for awareness only, not medical advice."
       end |}.

(** The state the verdict is computed from. *)
Definition finalState (nutrition : Nutrition) (targetGroup : string)
    (productData : Product) (limits : Limits.t) : Eval.t :=
  stepCaution targetGroup productData limits
    (stepTriggers nutrition productData limits
       (stepFiber nutrition
          (stepEssential nutrition targetGroup limits
             (stepRequired nutrition targetGroup limits
                (stepCaffeine nutrition targetGroup productData limits
                   (stepFat nutrition targetGroup limits
                      (stepSaturatedFat nutrition limits
                         (stepSalt nutrition limits
                            (stepSugar nutrition limits
                               {| Eval.warnings := []; Eval.positives := [];
                                  Eval.severityScore := 0 |}))))))))).

(** The limits table of a target group. *)
Definition limits_of (targetGroup : string) : Limits.t :=
  if String.eqb targetGroup "pregnant" then PREGNANT_LIMITS else CHILD_LIMITS.

(** The ingredient words from which more than 20 mg of caffeine is
    always estimated ("energy" is not one: it is looked for after
    "chocolate" and "cocoa", which give 10 mg). *)
Definition caffeine_words : list string :=
  ["coffee"; "espresso"; "tea"].

(* ================================================================== *)
(** ** API integration helpers (api-integration.js) *)

(** The keys of [nutriments] that the helpers read; the dashes of the
    source keys are underscores here. *)
Module Nutriments.
Record t := {
  energy_kcal_100g : option Q;
  energy_kcal : option Q;
  carbohydrates_100g : option Q;
  carbohydrates : option Q;
  sugars_100g : option Q;
  sugars : option Q;
  fat_100g : option Q;
  fat : option Q;
  saturated_fat_100g : option Q;
  saturated_fat : option Q;
  proteins_100g : option Q;
  proteins : option Q;
  fiber_100g : option Q;
  fiber : option Q;
  salt_100g : option Q;
  salt : option Q;
  sodium_100g : option Q;
  sodium : option Q;
  cholesterol_100g : option Q;
  cholesterol : option Q;
  vitamin_a_100g : option Q;
  vitamin_c_100g : option Q;
  vitamin_d_100g : option Q;
  vitamin_e_100g : option Q;
  vitamin_b12_100g : option Q;
  calcium_100g : option Q;
  iron_100g : option Q;
  magnesium_100g : option Q;
  potassium_100g : option Q;
  zinc_100g : option Q
}.
(** [{}] *)
Definition empty : t :=
  {| energy_kcal_100g := None; energy_kcal := None;
     carbohydrates_100g := None; carbohydrates := None;
     sugars_100g := None; sugars := None; fat_100g := None; fat := None;
     saturated_fat_100g := None; saturated_fat := None;
     proteins_100g := None; proteins := None; fiber_100g := None;
     fiber := None; salt_100g := None; salt := None; sodium_100g := None;
     sodium := None; cholesterol_100g := None; cholesterol := None;
     vitamin_a_100g := None; vitamin_c_100g := None; vitamin_d_100g := None;
     vitamin_e_100g := None; vitamin_b12_100g := None; calcium_100g := None;
     iron_100g := None; magnesium_100g := None; potassium_100g := None;
     zinc_100g := None |}.
End Nutriments.

(** The keys of a product of the food database that the helpers read;
    [None] is a key that is missing or null. *)
Module ApiProduct.
Record t := {
  product_name : option string;
  brands : option string;
  ingredients_text : option string;
  image_url : option string;
  categories : option string;
  nutriscore_grade : option string;
  allergens_tags : option (list string);
  nutriments : option Nutriments.t
}.
End ApiProduct.

Module Vitamins.
Record t := { a : Q; c : Q; d : Q; e : Q; b12 : Q }.
End Vitamins.

Module Minerals.
Record t := {
  calcium : Q; iron : Q; magnesium : Q; potassium : Q; zinc : Q
}.
End Minerals.

(** The nutrition object [extractNutritionData] builds. *)
Module Extracted.
Record t := {
  calories : Q;
  carbs : Q;
  sugar : Q;
  fat : Q;
  saturatedFat : Q;
  protein : Q;
  fiber : Q;
  salt : Q;
  sodium : Q;
  cholesterol : Q;
  vitamins : Vitamins.t;
  minerals : Minerals.t
}.
End Extracted.

Definition extractVitamins (nutriments : Nutriments.t) : Vitamins.t :=
  {| Vitamins.a := js_or (Nutriments.vitamin_a_100g nutriments) 0;
     Vitamins.c := js_or (Nutriments.vitamin_c_100g nutriments) 0;
     Vitamins.d := js_or (Nutriments.vitamin_d_100g nutriments) 0;
     Vitamins.e := js_or (Nutriments.vitamin_e_100g nutriments) 0;
     Vitamins.b12 := js_or (Nutriments.vitamin_b12_100g nutriments) 0 |}.

Definition extractMinerals (nutriments : Nutriments.t) : Minerals.t :=
  {| Minerals.calcium := js_or (Nutriments.calcium_100g nutriments) 0;
     Minerals.iron := js_or (Nutriments.iron_100g nutriments) 0;
     Minerals.magnesium := js_or (Nutriments.magnesium_100g nutriments) 0;
     Minerals.potassium := js_or (Nutriments.potassium_100g nutriments) 0;
     Minerals.zinc := js_or (Nutriments.zinc_100g nutriments) 0 |}.

Definition extractNutritionData (apiProduct : ApiProduct.t) : Extracted.t :=
  let nutriments :=
    match ApiProduct.nutriments apiProduct with
    | Some n => n
    | None => Nutriments.empty
    end in
  {| Extracted.calories :=
       js_or (Nutriments.energy_kcal_100g nutriments)
             (js_or (Nutriments.energy_kcal nutriments) 0);
     Extracted.carbs :=
       js_or (Nutriments.carbohydrates_100g nutriments)
             (js_or (Nutriments.carbohydrates nutriments) 0);
     Extracted.sugar :=
       js_or (Nutriments.sugars_100g nutriments)
             (js_or (Nutriments.sugars nutriments) 0);
     Extracted.fat :=
       js_or (Nutriments.fat_100g nutriments)
             (js_or (Nutriments.fat nutriments) 0);
     Extracted.saturatedFat :=
       js_or (Nutriments.saturated_fat_100g nutriments)
             (js_or (Nutriments.saturated_fat nutriments) 0);
     Extracted.protein :=
       js_or (Nutriments.proteins_100g nutriments)
             (js_or (Nutriments.proteins nutriments) 0);
     Extracted.fiber :=
       js_or (Nutriments.fiber_100g nutriments)
             (js_or (Nutriments.fiber nutriments) 0);
     Extracted.salt :=
       js_or (Nutriments.salt_100g nutriments)
             (js_or (Nutriments.salt nutriments) 0);
     Extracted.sodium :=
       js_or (Nutriments.sodium_100g nutriments)
             (js_or (Nutriments.sodium nutriments) 0);
     Extracted.cholesterol :=
       js_or (Nutriments.cholesterol_100g nutriments)
             (js_or (Nutriments.cholesterol nutriments) 0);
     Extracted.vitamins := extractVitamins nutriments;
     Extracted.minerals := extractMinerals nutriments |}.

Definition allergenMap : list (string * list string) :=
  [("nuts", ["nuts"; "peanuts"; "tree-nuts"]);
   ("dairy", ["milk"; "dairy"]);
   ("gluten", ["gluten"; "wheat"]);
   ("soy", ["soy"; "soybeans"]);
   ("eggs", ["eggs"]);
   ("fish", ["fish"]);
   ("shellfish", ["crustaceans"; "shellfish"]);
   ("sesame", ["sesame"])].

Definition extractAllergens (apiProduct : ApiProduct.t) : list string :=
  let allergenTags :=
    match ApiProduct.allergens_tags apiProduct with
    | Some l => l
    | None => []
    end in
  map fst
      (filter (fun entry : string * list string =>
                 existsb (fun tag =>
                            existsb (fun t => includes tag t) (snd entry))
                         allergenTags)
              allergenMap).

(** [check !== null && check !== undefined && check !== ''] *)
Definition present_string (check : option string) : bool :=
  match check with
  | Some s => negb (String.eqb s "")
  | None => false
  end.

Definition present_number (check : option Q) : bool :=
  match check with Some _ => true | None => false end.

(** [apiProduct.nutriments?.[key]] *)
Definition nutriment (apiProduct : ApiProduct.t)
    (key : Nutriments.t -> option Q) : option Q :=
  match ApiProduct.nutriments apiProduct with
  | Some n => key n
  | None => None
  end.

Definition calculateCompleteness (apiProduct : ApiProduct.t) : Z :=
  let checks :=
    [present_string (ApiProduct.product_name apiProduct);
     present_string (ApiProduct.brands apiProduct);
     present_string (ApiProduct.ingredients_text apiProduct);
     present_string (ApiProduct.image_url apiProduct);
     present_number (nutriment apiProduct Nutriments.energy_kcal_100g);
     present_number (nutriment apiProduct Nutriments.sugars_100g);
     present_number (nutriment apiProduct Nutriments.fat_100g);
     present_number (nutriment apiProduct Nutriments.proteins_100g);
     present_string (ApiProduct.categories apiProduct);
     present_string (ApiProduct.nutriscore_grade apiProduct)] in
  let score :=
    fold_left (fun (score : Z) (check : bool) =>
                 if check then (score + 10)%Z else score)
              checks 0%Z in
  Z.min 100 score.

Module DataQuality.
Record t := {
  quality : string;
  issues : list string
}.
End DataQuality.

Definition assessDataQuality (nutrition : Extracted.t) : DataQuality.t :=
  let quality := "excellent" in
  let issues := [] in
  let '(quality, issues) :=
    if Qeq_bool (Extracted.calories nutrition) 0
    then ("poor", issues ++ ["Missing calorie information"])
    else (quality, issues) in
  let '(quality, issues) :=
    if Qeq_bool (Extracted.sugar nutrition) 0
       && Qeq_bool (Extracted.fat nutrition) 0
       && Qeq_bool (Extracted.protein nutrition) 0
    then ("poor", issues ++ ["Missing all macronutrient data"])
    else (quality, issues) in
  let '(quality, issues) :=
    if Extracted.calories nutrition >? 900
    then ((if String.eqb quality "excellent" then "good" else quality),
          issues ++ ["Unusually high calories (>900 kcal/100g)"])
    else (quality, issues) in
  let '(quality, issues) :=
    if Extracted.sugar nutrition >? 100
    then ("poor", issues ++ ["Invalid sugar value (>100g/100g)"])
    else (quality, issues) in
  if (List.length issues =? 0)%nat then
    {| DataQuality.quality := "excellent"; DataQuality.issues := [] |}
  else if (List.length issues <=? 2)%nat
          && negb (String.eqb quality "poor") then
    {| DataQuality.quality := "good"; DataQuality.issues := issues |}
  else
    {| DataQuality.quality := quality; DataQuality.issues := issues |}.

(** The cache: a [Map] from keys to stamped entries, in insertion
    order; [Date.now()] is the parameter [now]. *)
Module CacheEntry.
Record t (A : Type) := { data : A; timestamp : Z }.
Arguments data {A}.
Arguments timestamp {A}.
End CacheEntry.

Definition Cache (A : Type) : Type := list (string * CacheEntry.t A).

Fixpoint Map_get {V : Type} (key : string) (m : list (string * V))
    : option V :=
  match m with
  | [] => None
  | (k, v) :: rest => if String.eqb k key then Some v else Map_get key rest
  end.

(** [Map.prototype.set]: an existing key keeps its place. *)
Fixpoint Map_set {V : Type} (key : string) (v : V) (m : list (string * V))
    : list (string * V) :=
  match m with
  | [] => [(key, v)]
  | (k, v0) :: rest =>
      if String.eqb k key then (k, v) :: rest
      else (k, v0) :: Map_set key v rest
  end.

Definition Map_delete {V : Type} (key : string) (m : list (string * V))
    : list (string * V) :=
  filter (fun kv => negb (String.eqb (fst kv) key)) m.

Definition CACHE_DURATION : Z := 24 * 60 * 60 * 1000.

(** [getCachedData]: the value returned and the cache afterwards. *)
Definition getCachedData {A : Type} (apiCache : Cache A) (now : Z)
    (key : string) : option A * Cache A :=
  match Map_get key apiCache with
  | None => (None, apiCache)
  | Some cached =>
      let age := (now - CacheEntry.timestamp cached)%Z in
      if (age >? CACHE_DURATION)%Z
      then (None, Map_delete key apiCache)
      else (Some (CacheEntry.data cached), apiCache)
  end.

Definition setCachedData {A : Type} (apiCache : Cache A) (now : Z)
    (key : string) (data : A) : Cache A :=
  Map_set key {| CacheEntry.data := data; CacheEntry.timestamp := now |}
          apiCache.

Definition clearCache {A : Type} (apiCache : Cache A) : Cache A := [].

(** A string as its UTF-16 code units, for the one function that
    matches character classes. *)
Definition codeunits : Type := list N.

(** The class [\s] of a regular expression. *)
Definition is_whitespace (c : N) : bool :=
  existsb (N.eqb c)
          [9; 10; 11; 12; 13; 32; 160; 5760; 8192; 8193; 8194; 8195; 8196;
           8197; 8198; 8199; 8200; 8201; 8202; 8232; 8233; 8239; 8287;
           12288; 65279]%N.

(** The class [\d]. *)
Definition is_digit (c : N) : bool := (48 <=? c)%N && (c <=? 57)%N.

(** [barcode] is [None] when the argument is not a string. *)
Definition isValidBarcode (barcode : option codeunits) : bool :=
  match barcode with
  | None => false
  | Some [] => false
  | Some barcode =>
      let cleaned := filter (fun c => negb (is_whitespace c)) barcode in
      forallb is_digit cleaned
      && (8 <=? List.length cleaned)%nat
      && (List.length cleaned <=? 14)%nat
  end.

(** ** Camera scanner (camera-scanner-fix.js) *)

Module Scanner.

(** [parseInt] of one code unit of a string; [None] is [NaN], also for
    an index past the end. *)
Definition parseInt (c : option N) : option Z :=
  match c with
  | Some c => if is_digit c then Some (Z.of_N c - 48)%Z else None
  | None => None
  end.

(** [%] is the truncated remainder. *)
Definition validateEAN13 (code : codeunits) : bool :=
  if negb (List.length code =? 13)%nat then false
  else
    let sum :=
      fold_left (fun (sum : option Z) (i : nat) =>
                   pct_add sum
                     (option_map
                        (fun d => (d * (if Nat.even i then 1 else 3))%Z)
                        (parseInt (nth_error code i))))
                (seq 0 12) (Some 0%Z) in
    match sum, parseInt (nth_error code 12) with
    | Some sum, Some last =>
        let checksum := Z.rem (10 - Z.rem sum 10) 10 in
        (checksum =? last)%Z
    | _, _ => false
    end.

Definition isValidBarcode (code : option codeunits) : bool :=
  match code with
  | None => false
  | Some [] => false
  | Some code =>
      let cleaned := filter (fun c => negb (is_whitespace c)) code in
      if negb (forallb is_digit cleaned
               && (8 <=? List.length cleaned)%nat
               && (List.length cleaned <=? 14)%nat)
      then false
      else if (List.length cleaned =? 13)%nat then validateEAN13 cleaned
      else true
  end.

End Scanner.

(** ** Settings of the user (daily-value-calculator.js) *)

Module Settings.
Record t := {
  gender : option string;
  calorieGoal : option Q
}.
End Settings.

(** [if (value)] on a possibly absent string: the string when it is
    truthy. *)
Definition truthy_string (value : option string) : option string :=
  match value with
  | Some s => if String.eqb s "" then None else Some s
  | None => None
  end.

Definition autoDetectGender (settings : Settings.t) : string :=
  match truthy_string (Settings.gender settings) with
  | Some gender => gender
  | None =>
      match Settings.calorieGoal settings with
      | Some calorieGoal =>
          if negb (Qeq_bool calorieGoal 0) then
            if calorieGoal <=? 2000 then "female"
            else if calorieGoal >=? 2800
                 then js_or_str (Settings.gender settings) "male"
                 else "male"
          else "male"
      | None => "male"
      end
  end.

(** ** Healthier alternatives (api-integration.js) *)

(** The object [extractNutritionData] returns, as the score engine
    reads it: it has no top-level caffeine, iron or calcium. *)
Definition as_nutrition (e : Extracted.t) : Nutrition :=
  {| calories := Some (Extracted.calories e);
     sugar := Some (Extracted.sugar e);
     fat := Some (Extracted.fat e);
     saturatedFat := Some (Extracted.saturatedFat e);
     salt := Some (Extracted.salt e);
     protein := Some (Extracted.protein e);
     fiber := Some (Extracted.fiber e);
     carbs := Some (Extracted.carbs e);
     caffeine := None; iron := None; calcium := None |}.

Module Alternative.
Record t := {
  name : string;
  brand : string;
  score : Z;
  nutriscore : option string;
  image : string;
  improvement : Z
}.
End Alternative.

(** [fetchHealthierAlternatives] after the search: [products] is what
    [searchProducts] returned for the category. *)
Definition fetchHealthierAlternatives (category : option string)
    (products : list ApiProduct.t) (currentScore : Z)
    : list Alternative.t :=
  if String.eqb (js_or_str category "") "" then []
  else
    let alternatives :=
      flat_map
        (fun product =>
           if String.eqb (js_or_str (ApiProduct.product_name product) "") ""
           then []
           else
             let nutrition := extractNutritionData product in
             let healthScore :=
               HealthScore.score
                 (calculateHealthScore (as_nutrition nutrition) no_options) in
             if (healthScore >? currentScore)%Z then
               [{| Alternative.name :=
                     js_or_str (ApiProduct.product_name product) "";
                   Alternative.brand :=
                     js_or_str (ApiProduct.brands product) "";
                   Alternative.score := healthScore;
                   Alternative.nutriscore :=
                     ApiProduct.nutriscore_grade product;
                   Alternative.image :=
                     js_or_str (ApiProduct.image_url product)
                       "https://via.placeholder.com/60/10b981/ffffff?text=ALT";
                   Alternative.improvement :=
                     (healthScore - currentScore)%Z |}]
             else [])
        products in
    firstn 5
      (Array_sort
         (fun a b =>
            (Alternative.improvement b - Alternative.improvement a <=? 0)%Z)
         alternatives).

(* ================================================================== *)
(** * Properties *)

(** ** Rational comparisons *)

Lemma Qle_bool_false (x y : Q) : Qle_bool x y = false -> y < x.
Proof.
  intros H. apply Qnot_le_lt. intros Hle.
  apply Qle_bool_iff in Hle. congruence.
Qed.

Lemma Qgtb_true (x y : Q) : (x >? y) = true <-> y < x.
Proof.
  unfold Qgtb. destruct (Qle_bool x y) eqn:E; simpl; split; intros H;
    try discriminate; try reflexivity.
  - apply Qle_bool_iff in E. lra.
  - now apply Qle_bool_false.
Qed.

Lemma Qgtb_false (x y : Q) : (x >? y) = false <-> x <= y.
Proof.
  unfold Qgtb. destruct (Qle_bool x y) eqn:E; simpl; split; intros H;
    try discriminate; try reflexivity.
  - now apply Qle_bool_iff.
  - apply Qle_bool_false in E. lra.
Qed.

(** Case analysis on every rational test of the goal, leaving the
    outcome of each as an order fact. *)
Ltac qcases :=
  unfold Qgtb, Qltb, Qgeb, Qleb, Math_min, Math_max in *;
  repeat match goal with
  | |- context [Qle_bool ?a ?b] =>
      lazymatch a with context [Qle_bool _ _] => fail | _ => idtac end;
      lazymatch b with context [Qle_bool _ _] => fail | _ => idtac end;
      let E := fresh "E" in
      destruct (Qle_bool a b) eqn:E;
      [apply Qle_bool_iff in E | apply Qle_bool_false in E]
  end;
  cbn [negb andb orb] in *.

Lemma Math_max_0_gt (x c : Q) : 0 <= c -> (c < Math_max 0 x <-> c < x).
Proof. intros Hc. qcases; lra. Qed.

Lemma Math_round_mono (x y : Q) : x <= y -> (Math_round x <= Math_round y)%Z.
Proof. intros H. unfold Math_round. apply Qfloor_resp_le. lra. Qed.

(** A threshold test on a normalized field is the test on the field as
    supplied (absent counting as 0). *)
Lemma normalized_sugar_gt (nutrition : Nutrition) (c : Q) :
  0 <= c ->
  (c < N.sugar (normalize nutrition) <-> c < js_or (sugar nutrition) 0).
Proof. intros Hc. apply Math_max_0_gt, Hc. Qed.

(** ** The sort *)

Section ArraySortFacts.
Context {A : Type} (le0 : A -> A -> bool).
Hypothesis le0_total : forall a b, le0 a b = true \/ le0 b a = true.
Hypothesis le0_trans :
  forall a b c, le0 a b = true -> le0 b c = true -> le0 a c = true.

Let R (a b : A) : Prop := le0 a b = true.

Lemma sort_insert_perm (x : A) (l : list A) :
  Permutation (sort_insert le0 x l) (x :: l).
Proof.
  induction l as [|y l IH]; simpl.
  - apply Permutation_refl.
  - destruct (le0 x y).
    + apply Permutation_refl.
    + eapply perm_trans; [apply perm_skip, IH | apply perm_swap].
Qed.

Lemma Array_sort_perm (l : list A) : Permutation (Array_sort le0 l) l.
Proof.
  induction l as [|x l IH]; simpl.
  - apply perm_nil.
  - eapply perm_trans; [apply sort_insert_perm | now apply perm_skip].
Qed.

Lemma sort_insert_sorted (x : A) (l : list A) :
  StronglySorted R l -> StronglySorted R (sort_insert le0 x l).
Proof.
  induction 1 as [|y l Hl IH Hy]; simpl.
  - constructor; constructor.
  - destruct (le0 x y) eqn:E.
    + constructor; [constructor; assumption|].
      constructor; [exact E|].
      eapply Forall_impl; [|exact Hy].
      intros z Hz. unfold R in *. eauto.
    + constructor; [exact IH|].
      assert (Hyx : R y x)
        by (destruct (le0_total x y) as [H|H]; [congruence | exact H]).
      eapply Permutation_Forall;
        [apply Permutation_sym, sort_insert_perm|].
      constructor; assumption.
Qed.

Lemma Array_sort_sorted (l : list A) : StronglySorted R (Array_sort le0 l).
Proof.
  induction l as [|x l IH]; simpl.
  - constructor.
  - now apply sort_insert_sorted.
Qed.

(** Stability: a class of elements that the comparator does not tell
    apart comes out in the order it went in. *)
Lemma sort_insert_filter (P : A -> bool) (x : A) (l : list A) :
  (forall a b, P a = true -> P b = true -> le0 a b = true) ->
  filter P (sort_insert le0 x l) = filter P (x :: l).
Proof.
  intros HP. induction l as [|y l IH]; simpl.
  - reflexivity.
  - destruct (le0 x y) eqn:E; simpl.
    + reflexivity.
    + simpl in IH. rewrite IH.
      destruct (P x) eqn:Px, (P y) eqn:Py; try reflexivity.
      rewrite (HP x y Px Py) in E. discriminate.
Qed.

Lemma Array_sort_stable (P : A -> bool) (l : list A) :
  (forall a b, P a = true -> P b = true -> le0 a b = true) ->
  filter P (Array_sort le0 l) = filter P l.
Proof.
  intros HP. induction l as [|x l IH]; simpl.
  - reflexivity.
  - rewrite sort_insert_filter by exact HP. simpl. now rewrite IH.
Qed.

End ArraySortFacts.

Lemma StronglySorted_adjacent {A : Type} (R : A -> A -> Prop) (l : list A) :
  StronglySorted R l ->
  forall i a b, nth_error l i = Some a -> nth_error l (S i) = Some b -> R a b.
Proof.
  induction 1 as [|x l Hl IH Hx]; intros i a b Ha Hb.
  - destruct i; discriminate.
  - destruct i as [|i]; simpl in *.
    + injection Ha as <-. rewrite Forall_forall in Hx.
      apply Hx. destruct l; [discriminate|]. simpl in Hb.
      injection Hb as <-. now left.
    + eapply IH; eassumption.
Qed.

Lemma filter_Permutation {A : Type} (f : A -> bool) (l l' : list A) :
  Permutation l l' -> Permutation (filter f l) (filter f l').
Proof.
  induction 1 as [| x l l' _ IH | x y l | l l' l'' _ IH1 _ IH2]; simpl.
  - apply perm_nil.
  - destruct (f x); [now apply perm_skip | exact IH].
  - destruct (f x), (f y); try apply Permutation_refl. apply perm_swap.
  - eapply perm_trans; eassumption.
Qed.

(** ** Health score engine *)

Lemma penalties_when_subtract (b : bool) (p : Penalty.t) (a : Acc.t) :
  Acc.penalties (when b (subtract p) a)
  = Acc.penalties a ++ (if b then [p] else []).
Proof. destruct b; simpl; [reflexivity | now rewrite app_nil_r]. Qed.

Lemma penalties_when_add (b : bool) (r : Reward.t) (a : Acc.t) :
  Acc.penalties (when b (add r) a) = Acc.penalties a.
Proof. now destruct b. Qed.

Lemma rewards_when_subtract (b : bool) (p : Penalty.t) (a : Acc.t) :
  Acc.rewards (when b (subtract p) a) = Acc.rewards a.
Proof. now destruct b. Qed.

Lemma rewards_when_add (b : bool) (r : Reward.t) (a : Acc.t) :
  Acc.rewards (when b (add r) a)
  = Acc.rewards a ++ (if b then [r] else []).
Proof. destruct b; simpl; [reflexivity | now rewrite app_nil_r]. Qed.

(** The penalties of a pass, block by block. *)
Lemma scorePass_penalties (n : N.t) (d : bool) :
  Acc.penalties (scorePass n d)
  = (if N.calories n >? 200 then [caloriePenalty n] else [])
    ++ (if N.sugar n >? 5 then [sugarPenalty n d] else [])
    ++ (if N.fat n >? 10 then [fatPenalty n] else [])
    ++ (if N.salt n >? 0.3 then [saltPenalty n] else [])
    ++ (if (N.sugar n >? 10) && (N.fat n >? 20) then [comboPenalty] else [])
    ++ (if (N.calories n >? 400) && (N.sugar n >? 15)
        then [metabolicPenalty] else []).
Proof.
  unfold scorePass. cbv zeta.
  rewrite !penalties_when_add, !penalties_when_subtract. simpl.
  now rewrite <- !app_assoc.
Qed.

Lemma sum_penalty_app (l1 l2 : list Penalty.t) :
  sum_penalty (l1 ++ l2) == sum_penalty l1 + sum_penalty l2.
Proof. induction l1 as [|p l1 IH]; simpl; [lra | rewrite IH; lra]. Qed.

Lemma sum_bonus_app (l1 l2 : list Reward.t) :
  sum_bonus (l1 ++ l2) == sum_bonus l1 + sum_bonus l2.
Proof. induction l1 as [|p l1 IH]; simpl; [lra | rewrite IH; lra]. Qed.

Lemma sum_penalty_perm (l l' : list Penalty.t) :
  Permutation l l' -> sum_penalty l == sum_penalty l'.
Proof.
  induction 1 as [| x l l' _ IH | x y l | l l' l'' _ IH1 _ IH2]; simpl;
    try lra.
Qed.

Lemma balanced_subtract (b : bool) (p : Penalty.t) (a : Acc.t) :
  balanced a -> balanced (when b (subtract p) a).
Proof.
  unfold balanced. destruct b; simpl; [|tauto].
  intros H. rewrite sum_penalty_app, H. simpl. lra.
Qed.

Lemma balanced_add (b : bool) (r : Reward.t) (a : Acc.t) :
  balanced a -> balanced (when b (add r) a).
Proof.
  unfold balanced. destruct b; simpl; [|tauto].
  intros H. rewrite sum_bonus_app, H. simpl. lra.
Qed.

Lemma scorePass_balanced (n : N.t) (d : bool) : balanced (scorePass n d).
Proof.
  unfold scorePass. cbv zeta.
  repeat first [apply balanced_add | apply balanced_subtract].
  unfold balanced. simpl. lra.
Qed.

Lemma by_penalty_desc_total (a b : Penalty.t) :
  by_penalty_desc a b = true \/ by_penalty_desc b a = true.
Proof.
  unfold by_penalty_desc.
  destruct (Qle_bool (Penalty.penalty b - Penalty.penalty a) 0) eqn:E.
  - now left.
  - right. apply Qle_bool_false in E. apply Qle_bool_iff. lra.
Qed.

Lemma by_penalty_desc_trans (a b c : Penalty.t) :
  by_penalty_desc a b = true -> by_penalty_desc b c = true ->
  by_penalty_desc a c = true.
Proof.
  unfold by_penalty_desc, Qleb. rewrite !Qle_bool_iff. lra.
Qed.

Lemma generateRecommendation_perm (score : Z) (n : N.t)
    (ps : list Penalty.t) (rs : list Reward.t) (d : bool) :
  Permutation (snd (generateRecommendation score n ps rs d)) ps.
Proof.
  unfold generateRecommendation.
  destruct (score >=? 85)%Z; [apply Permutation_refl|].
  destruct (score >=? 70)%Z; [apply Permutation_refl|].
  destruct (score >=? 55)%Z; [|apply Permutation_refl].
  simpl. apply Array_sort_perm.
Qed.

(** The fields of the result, in terms of the pass and the recommendation. *)
Lemma calculateHealthScore_fields (nutrition : Nutrition) (options : Options) :
  let n := normalize nutrition in
  let d := match isDiabetic options with Some b => b | None => false end in
  let a := scorePass n d in
  let score := Z.max 0 (Z.min 100 (Math_round (Acc.score a))) in
  let rec := generateRecommendation score n (Acc.penalties a) (Acc.rewards a) d in
  let r := calculateHealthScore nutrition options in
  HealthScore.score r = score
  /\ HealthScore.recommendation r = fst rec
  /\ HealthScore.penalties r = snd rec
  /\ HealthScore.rewards r = Acc.rewards a.
Proof.
  cbv zeta. unfold calculateHealthScore.
  destruct (generateRecommendation _ _ _ _ _) as [text ps]. simpl. auto.
Qed.

(** C1. For every nutrition input and every options value the score of
    [calculateHealthScore] is an integer between 0 and 100. *)
Theorem score_bounds (nutrition : Nutrition) (options : Options) :
  (0 <= HealthScore.score (calculateHealthScore nutrition options) <= 100)%Z.
Proof.
  destruct (calculateHealthScore_fields nutrition options) as [-> _]. lia.
Qed.

(** The extreme input of the test suite scores 0. *)
Example score_extreme :
  HealthScore.score
    (calculateHealthScore
       {| calories := Some 900; sugar := Some 100; fat := Some 80;
          saturatedFat := None; salt := Some 10; protein := Some 0;
          fiber := Some 0; carbs := None; caffeine := None; iron := None;
          calcium := None |}
       no_options) = 0%Z.
Proof. vm_compute. reflexivity. Qed.

(** The code's tiers are the specification's piecewise-linear penalty. *)
Lemma sugarPenalty_spec (n : N.t) (d : bool) :
  5 < N.sugar n ->
  Penalty.penalty (sugarPenalty n d) == sugar_penalty_spec (N.sugar n) d.
Proof.
  intros H. unfold sugarPenalty, sugar_penalty_spec, sugar_tiers_spec.
  cbv zeta. cbn [Penalty.penalty].
  destruct d; qcases; lra.
Qed.

Lemma sugar_entry_of_pass (n : N.t) (d : bool) :
  filter (has_type "sugar") (Acc.penalties (scorePass n d))
  = if N.sugar n >? 5 then [sugarPenalty n d] else [].
Proof.
  rewrite scorePass_penalties, !filter_app.
  destruct (N.calories n >? 200), (N.sugar n >? 5), (N.fat n >? 10),
    (N.salt n >? 0.3), ((N.sugar n >? 10) && (N.fat n >? 20)),
    ((N.calories n >? 400) && (N.sugar n >? 15)); reflexivity.
Qed.

Lemma low_sugar_penalties (n : N.t) (d : bool) (p : Penalty.t) :
  N.sugar n <= 5 ->
  In p (Acc.penalties (scorePass n d)) ->
  Penalty.type p <> "sugar" /\ Penalty.type p <> "combination"
  /\ Penalty.type p <> "metabolic".
Proof.
  intros Hs. rewrite scorePass_penalties.
  assert (H5 : (N.sugar n >? 5) = false) by (apply Qgtb_false; lra).
  assert (H10 : (N.sugar n >? 10) = false) by (apply Qgtb_false; lra).
  assert (H15 : (N.sugar n >? 15) = false) by (apply Qgtb_false; lra).
  rewrite H5, H10, H15, andb_false_r. cbn [andb app].
  rewrite !in_app_iff.
  destruct (N.calories n >? 200), (N.fat n >? 10), (N.salt n >? 0.3);
    simpl; intros H; decompose [or] H; subst; try contradiction;
    cbn; repeat split; discriminate.
Qed.

(** C2. The sugar penalty of [calculateHealthScore]: an entry of type
    sugar is produced exactly when the (normalized) sugar value exceeds
    5 g; its magnitude is the piecewise-linear penalty of the
    specification (rates 1.5, 1.0, 0.8 on the excess; times 1.5 for a
    diabetic; capped at 30). At 5 g or less there is no sugar entry, nor
    any of the two combination entries that involve sugar; and the
    score handed to the clamp is 100 less the listed penalties plus the
    listed rewards, so nothing else is subtracted. *)
Theorem sugar_penalty_rule (nutrition : Nutrition) (options : Options) :
  let n := normalize nutrition in
  let d := match isDiabetic options with Some b => b | None => false end in
  let r := calculateHealthScore nutrition options in
  (5 < N.sugar n <->
   exists p, filter (has_type "sugar") (HealthScore.penalties r) = [p]
             /\ Penalty.value p = VNum (N.sugar n)
             /\ Penalty.penalty p == sugar_penalty_spec (N.sugar n) d)
  /\ (N.sugar n <= 5 <->
      forall p, In p (HealthScore.penalties r) ->
                Penalty.type p <> "sugar" /\ Penalty.type p <> "combination"
                /\ Penalty.type p <> "metabolic")
  /\ Acc.score (scorePass n d)
     == 100 - sum_penalty (HealthScore.penalties r)
        + sum_bonus (HealthScore.rewards r)
  /\ HealthScore.score r
     = Z.max 0 (Z.min 100 (Math_round (Acc.score (scorePass n d)))).
Proof.
  intros n d r.
  destruct (calculateHealthScore_fields nutrition options)
    as (Hscore & _ & Hpen & Hrew).
  fold n d r in Hscore, Hpen, Hrew.
  set (rec := generateRecommendation _ _ _ _ _) in Hpen.
  assert (Hperm : Permutation (HealthScore.penalties r)
                              (Acc.penalties (scorePass n d)))
    by (rewrite Hpen; apply generateRecommendation_perm).
  assert (Hfilter : filter (has_type "sugar") (HealthScore.penalties r)
                    = if N.sugar n >? 5 then [sugarPenalty n d] else []).
  { pose proof (filter_Permutation (has_type "sugar") _ _ Hperm) as Hf.
    rewrite sugar_entry_of_pass in Hf.
    destruct (N.sugar n >? 5).
    - apply Permutation_sym, Permutation_length_1_inv in Hf. exact Hf.
    - apply Permutation_sym, Permutation_nil in Hf. exact Hf. }
  split; [split | split; [split | split]].
  - intros Hs. exists (sugarPenalty n d).
    rewrite Hfilter. apply Qgtb_true in Hs. rewrite Hs.
    repeat split. now apply sugarPenalty_spec, Qgtb_true.
  - intros (p & Hp & _). rewrite Hfilter in Hp.
    destruct (N.sugar n >? 5) eqn:E; [now apply Qgtb_true | discriminate].
  - intros Hs p Hin. apply (low_sugar_penalties n d p Hs).
    eapply Permutation_in; eassumption.
  - intros Hall. apply Qgtb_false.
    destruct (N.sugar n >? 5) eqn:E; [|reflexivity].
    assert (Hin : In (sugarPenalty n d) (HealthScore.penalties r)).
    { apply (proj1 (filter_In (has_type "sugar") _ _)).
      rewrite Hfilter. now left. }
    destruct (Hall _ Hin) as [Hne _]. now elim Hne.
  - rewrite (sum_penalty_perm _ _ Hperm), Hrew.
    apply scorePass_balanced.
  - exact Hscore.
Qed.

(** ** Strings *)

Lemma append_assoc (a b c : string) : (a +++ b) +++ c = a +++ b +++ c.
Proof. induction a as [|x a IH]; simpl; [reflexivity | now rewrite IH]. Qed.

Lemma append_empty_r (a : string) : a +++ "" = a.
Proof. induction a as [|x a IH]; simpl; [reflexivity | now rewrite IH]. Qed.

Lemma prefix_iff (t s : string) :
  String.prefix t s = true <-> exists b, s = t +++ b.
Proof.
  revert t. induction s as [|c s IH]; intros [|d t]; simpl.
  - split; [now exists "" | reflexivity].
  - split; [discriminate | intros [b Hb]; discriminate].
  - split; [now exists (String c s) | reflexivity].
  - destruct (ascii_dec d c) as [->|Hne].
    + split.
      * intros H. apply IH in H. destruct H as [b ->]. now exists b.
      * intros [b Hb]. apply IH. exists b. congruence.
    + split; [discriminate | intros [b Hb]; congruence].
Qed.

Lemma includes_iff (s t : string) :
  includes s t = true <-> exists a b, s = a +++ t +++ b.
Proof.
  induction s as [|c s IH]; cbn [includes].
  - rewrite orb_false_r, prefix_iff. split.
    + intros [b Hb]. now exists "", b.
    + intros (a & b & H). destruct a; [now exists b|discriminate].
  - rewrite orb_true_iff, prefix_iff, IH. split.
    + intros [[b Hb] | (a & b & H)].
      * now exists "", b.
      * exists (String c a), b. simpl. now rewrite H.
    + intros (a & b & H). destruct a as [|x a]; simpl in H.
      * left. now exists b.
      * right. exists a, b. congruence.
Qed.

Lemma includes_self (t : string) : includes t t = true.
Proof. apply includes_iff. exists "", "". simpl. now rewrite append_empty_r. Qed.

Lemma includes_app_l (a b t : string) :
  includes a t = true -> includes (a +++ b) t = true.
Proof.
  rewrite !includes_iff. intros (x & y & ->). exists x, (y +++ b).
  now rewrite !append_assoc.
Qed.

Lemma includes_app_r (a b t : string) :
  includes b t = true -> includes (a +++ b) t = true.
Proof.
  rewrite !includes_iff. intros (x & y & ->). exists (a +++ x), y.
  now rewrite !append_assoc.
Qed.

Lemma includes_join (sep : string) (l : list string) (t : string) :
  In t l -> includes (join sep l) t = true.
Proof.
  induction l as [|x l IH]; [contradiction|].
  intros [-> | Hin].
  - destruct l; [apply includes_self | apply includes_app_l, includes_self].
  - destruct l as [|y l]; [contradiction|].
    change (join sep (x :: y :: l)) with (x +++ sep +++ join sep (y :: l)).
    now apply includes_app_r, includes_app_r, IH.
Qed.

Lemma toLowerCase_app (a b : string) :
  toLowerCase (a +++ b) = toLowerCase a +++ toLowerCase b.
Proof. induction a as [|x a IH]; simpl; [reflexivity | now rewrite IH]. Qed.

(** Case-insensitive search finds whatever a literal search finds. *)
Lemma includes_toLowerCase (s t : string) :
  includes s t = true -> includes (toLowerCase s) (toLowerCase t) = true.
Proof.
  rewrite !includes_iff. intros (a & b & ->).
  exists (toLowerCase a), (toLowerCase b). now rewrite !toLowerCase_app.
Qed.

(** ** The recommendation text *)

Lemma Array_sort_sorted_id {A : Type} (le0 : A -> A -> bool) (l : list A) :
  StronglySorted (fun a b => le0 a b = true) l -> Array_sort le0 l = l.
Proof.
  induction 1 as [|x l Hl IH Hx]; simpl; [reflexivity|].
  rewrite IH. destruct l as [|y l]; simpl; [reflexivity|].
  apply Forall_inv in Hx. now rewrite Hx.
Qed.

Lemma StronglySorted_app_inv {A : Type} (R : A -> A -> Prop) (l1 l2 : list A) :
  StronglySorted R (l1 ++ l2) ->
  forall a b, In a l1 -> In b l2 -> R a b.
Proof.
  induction l1 as [|x l1 IH]; simpl; intros H a b Ha Hb; [contradiction|].
  apply StronglySorted_inv in H. destruct H as [Hs Hx].
  destruct Ha as [<- | Ha].
  - rewrite Forall_forall in Hx. apply Hx, in_or_app. now right.
  - now apply IH.
Qed.

Lemma penalties_sorted_desc (ps : list Penalty.t) :
  StronglySorted (fun a b => by_penalty_desc a b = true)
                 (Array_sort by_penalty_desc ps).
Proof.
  apply Array_sort_sorted.
  - apply by_penalty_desc_total.
  - apply by_penalty_desc_trans.
Qed.

Lemma two_largest_dominate (ps : list Penalty.t) (p q : Penalty.t) :
  In p (two_largest ps) ->
  In q (skipn 2 (Array_sort by_penalty_desc ps)) ->
  Penalty.penalty q <= Penalty.penalty p.
Proof.
  intros Hp Hq.
  pose proof (penalties_sorted_desc ps) as Hs.
  rewrite <- (firstn_skipn 2 (Array_sort by_penalty_desc ps)) in Hs.
  pose proof (StronglySorted_app_inv _ _ _ Hs p q Hp Hq) as H.
  unfold by_penalty_desc, Qleb in H. apply Qle_bool_iff in H. lra.
Qed.

Lemma two_largest_sorted (ps : list Penalty.t) :
  two_largest (Array_sort by_penalty_desc ps) = two_largest ps.
Proof.
  unfold two_largest.
  now rewrite (Array_sort_sorted_id _ _ (penalties_sorted_desc ps)).
Qed.

Ltac zcases :=
  repeat match goal with
  | |- context [(?a >=? ?b)%Z] =>
      let E := fresh "E" in
      destruct (Z.geb_spec a b) as [E|E]
  end.

Lemma rewards_nonneg (n : N.t) (d : bool) :
  0 <= sum_bonus (Acc.rewards (scorePass n d)).
Proof.
  unfold scorePass. cbv zeta.
  rewrite !rewards_when_add, !rewards_when_subtract, !sum_bonus_app.
  repeat match goal with
  | |- context [if ?b then [?r] else []] => destruct b
  end; simpl; qcases; lra.
Qed.

(** A pass with fewer than two penalties hands at least 70 to the clamp:
    no single penalty exceeds 30. *)
Lemma few_penalties_high_score (n : N.t) (d : bool) :
  (List.length (Acc.penalties (scorePass n d)) < 2)%nat ->
  70 <= Acc.score (scorePass n d).
Proof.
  pose proof (scorePass_balanced n d) as Hb. unfold balanced in Hb.
  pose proof (rewards_nonneg n d) as Hr.
  rewrite Hb. clear Hb.
  rewrite scorePass_penalties.
  assert (Hc : Penalty.penalty (caloriePenalty n) <= 25)
    by (unfold caloriePenalty; cbn [Penalty.penalty]; qcases; lra).
  assert (Hs : Penalty.penalty (sugarPenalty n d) <= 30)
    by (unfold sugarPenalty; cbn [Penalty.penalty]; destruct d; qcases; lra).
  assert (Hf : Penalty.penalty (fatPenalty n) <= 20)
    by (unfold fatPenalty; cbn [Penalty.penalty]; qcases; lra).
  assert (Hsa : Penalty.penalty (saltPenalty n) <= 15)
    by (unfold saltPenalty; cbn [Penalty.penalty]; qcases; lra).
  destruct (N.calories n >? 200), (N.sugar n >? 5), (N.fat n >? 10),
    (N.salt n >? 0.3), ((N.sugar n >? 10) && (N.fat n >? 20)),
    ((N.calories n >? 400) && (N.sugar n >? 15));
    cbn [app List.length sum_penalty fold_right]; intros Hlen;
    try (exfalso; lia);
    cbn [Penalty.penalty comboPenalty metabolicPenalty]; lra.
Qed.

Lemma fair_band_two_penalties (n : N.t) (d : bool) :
  (Z.max 0 (Z.min 100 (Math_round (Acc.score (scorePass n d)))) <= 69)%Z ->
  (2 <= List.length (Acc.penalties (scorePass n d)))%nat.
Proof.
  intros H.
  destruct (Nat.lt_ge_cases (List.length (Acc.penalties (scorePass n d))) 2)
    as [Hlt|Hge]; [|exact Hge].
  apply few_penalties_high_score, Math_round_mono in Hlt.
  change (Math_round 70) with 70%Z in Hlt. lia.
Qed.

(** C6, as the specification states it, fails: with 15 g of sugar and
    20 g of fat the score is 83, inside 55..84, the two largest
    penalties are sugar and fat, and the text names neither. *)
Lemma recommendation_band_counterexample :
  let r := calculateHealthScore
             (facts None (Some 15) (Some 20) None None None) no_options in
  (55 <= HealthScore.score r <= 84)%Z
  /\ map Penalty.type (two_largest (HealthScore.penalties r))
     = ["sugar"; "fat"]
  /\ includes (HealthScore.recommendation r) "sugar" = false
  /\ includes (HealthScore.recommendation r) "fat" = false.
Proof. vm_compute. repeat split; discriminate. Qed.

(** C6, amended. With a score of 55 to 69 the text is the "Fair choice"
    sentence citing the two largest-magnitude penalties (there are at
    least two, and none of the others exceeds them); with a score of 70
    to 84 it is the fixed "Good choice" sentence; with a score below 55
    it cites every penalty of magnitude above 10. *)
Theorem recommendation_bands (nutrition : Nutrition) (options : Options) :
  let d := match isDiabetic options with Some b => b | None => false end in
  let r := calculateHealthScore nutrition options in
  let ps := HealthScore.penalties r in
  ((55 <= HealthScore.score r <= 69)%Z ->
     HealthScore.recommendation r
     = "Fair choice. Watch out for "
         +++ join " and " (map Penalty.type (two_largest ps))
         +++ " content. Consider healthier alternatives when possible."
     /\ List.length (two_largest ps) = 2%nat
     /\ (forall p, In p (two_largest ps) ->
                   cites (HealthScore.recommendation r) (Penalty.type p))
     /\ (forall p q, In p (two_largest ps) ->
                     In q (skipn 2 (Array_sort by_penalty_desc ps)) ->
                     Penalty.penalty q <= Penalty.penalty p))
  /\ ((70 <= HealthScore.score r <= 84)%Z ->
      HealthScore.recommendation r
      = "Good choice! A nutritious option that fits well in a balanced diet. Enjoy in moderation.")
  /\ ((HealthScore.score r < 55)%Z ->
      HealthScore.recommendation r
      = "⚠️ Not recommended for regular consumption. High in "
          +++ join ", " (map Penalty.type
                           (filter (fun p => Penalty.penalty p >? 10) ps))
          +++ ". "
          +++ (if d then "Not suitable for diabetic diet."
               else "Choose healthier alternatives.")
      /\ (forall p, In p ps -> 10 < Penalty.penalty p ->
                    cites (HealthScore.recommendation r) (Penalty.type p))).
Proof.
  intros d r ps.
  destruct (calculateHealthScore_fields nutrition options)
    as (Hscore & Hrec & Hpen & _).
  fold d r in Hscore, Hrec, Hpen. fold ps in Hpen.
  set (n := normalize nutrition) in *.
  set (a := scorePass n d) in *.
  set (score := Z.max 0 (Z.min 100 (Math_round (Acc.score a)))) in *.
  assert (Htwice : (score <= 69)%Z ->
                   (2 <= List.length (Acc.penalties a))%nat)
    by apply fair_band_two_penalties.
  rewrite Hscore, Hrec. clearbody score.
  unfold generateRecommendation in Hpen |- *.
  split; [|split]; intros Hband.
  - assert (Hlen : (2 <= List.length (Acc.penalties a))%nat)
      by (apply Htwice; lia).
    revert Hpen. zcases; try lia. cbn [fst snd]. intros Hpen.
    change (fun a0 b : Penalty.t =>
              Penalty.penalty b - Penalty.penalty a0 <=? 0)
      with by_penalty_desc in *.
    assert (Htwo : two_largest ps
                   = firstn 2 (Array_sort by_penalty_desc (Acc.penalties a)))
      by (rewrite Hpen; apply two_largest_sorted).
    rewrite Htwo.
    split; [reflexivity|]. split; [|split].
    + rewrite length_firstn.
      rewrite (Permutation_length (Array_sort_perm _ (Acc.penalties a))).
      lia.
    + intros p Hp. unfold cites.
      apply includes_app_r, includes_app_l, includes_join.
      now apply in_map.
    + intros p q Hp Hq. rewrite Hpen in Hq.
      rewrite (Array_sort_sorted_id _ _ (penalties_sorted_desc _)) in Hq.
      now apply (two_largest_dominate (Acc.penalties a)).
  - zcases; try lia. reflexivity.
  - revert Hpen. zcases; try lia. cbn [fst snd]. intros Hpen.
    rewrite <- Hpen. split; [reflexivity|].
    intros p Hp Hgt. unfold cites.
    apply includes_app_r, includes_app_l, includes_join.
    apply in_map, filter_In. split; [exact Hp | now apply Qgtb_true].
Qed.

(** The three bands are inhabited: scores 65, 83 and 20. *)
Example recommendation_fair_example :
  let r := calculateHealthScore
             (facts (Some 300) (Some 20) (Some 25) (Some 0) (Some 3) (Some 0))
             no_options in
  HealthScore.score r = 65%Z
  /\ HealthScore.recommendation r
     = "Fair choice. Watch out for sugar and fat content. Consider healthier alternatives when possible."
  /\ map Penalty.type (HealthScore.penalties r)
     = ["sugar"; "fat"; "calories"; "combination"].
Proof. vm_compute. repeat split. Qed.

Example recommendation_poor_example :
  let r := calculateHealthScore
             (facts (Some 500) (Some 30) (Some 35) (Some 2.5) (Some 3) (Some 0))
             no_options in
  HealthScore.score r = 20%Z
  /\ HealthScore.recommendation r
     = "⚠️ Not recommended for regular consumption. High in calories, sugar, fat, salt. Choose healthier alternatives.".
Proof. vm_compute. repeat split. Qed.

(** ** Diabetic warnings *)

Lemma push_when_app (b : bool) (w : Warning.t) (ws : list Warning.t) :
  push_when b w ws = ws ++ (if b then [w] else []).
Proof. destruct b; simpl; [reflexivity | now rewrite app_nil_r]. Qed.

Lemma push_sugar_band_app (n : DN.t) (ws : list Warning.t) :
  push_sugar_band n ws = ws ++ push_sugar_band n [].
Proof.
  unfold push_sugar_band.
  repeat match goal with
  | |- context [if ?b then _ else _] => destruct b
  end; simpl; try reflexivity. now rewrite app_nil_r.
Qed.

(** The collected entries, block by block. *)
Lemma collect_blocks (n : DN.t) (dt : string) :
  collectDiabeticWarnings n dt
  = push_sugar_band n []
    ++ (if DN.carbs n >? 50 then [carb_high n] else [])
    ++ (if (DN.fat n >? 20) && (DN.sugar n >? 10)
        then [combination_danger] else [])
    ++ (if DN.calories n >? 500 then [calorie_high n] else [])
    ++ (if DN.salt n >? 1.5 then [salt_high n] else [])
    ++ (if (DN.fiber n >=? 8) && (DN.sugar n <? 5)
        then [fiber_good n] else [])
    ++ (if (DN.protein n >=? 15) && (DN.sugar n <? 5)
        then [protein_good n] else [])
    ++ (if (DN.sugar n <? 3) && (DN.calories n <? 200) && (DN.fiber n >=? 5)
        then [ideal_diabetic] else [])
    ++ (if String.eqb dt "type1" && (DN.sugar n >? 10)
        then [type1_specific n] else []).
Proof.
  unfold collectDiabeticWarnings. cbv zeta.
  rewrite !push_when_app. now rewrite <- !app_assoc.
Qed.

Lemma by_priority_total (a b : Warning.t) :
  by_priority a b = true \/ by_priority b a = true.
Proof. unfold by_priority. rewrite !Z.leb_le. lia. Qed.

Lemma by_priority_trans (a b c : Warning.t) :
  by_priority a b = true -> by_priority b c = true -> by_priority a c = true.
Proof. unfold by_priority. rewrite !Z.leb_le. lia. Qed.

Lemma generateDiabeticWarnings_diabetic (nutrition : Nutrition)
    (options : Options) :
  isDiabetic options = Some true ->
  generateDiabeticWarnings nutrition options
  = Array_sort by_priority
      (collectDiabeticWarnings
         (diabeticProfile nutrition)
         (match diabeticType options with Some t => t | None => "type2" end)).
Proof. intros H. unfold generateDiabeticWarnings. now rewrite H. Qed.

Lemma filter_cond {A : Type} (f : A -> bool) (b : bool) (x : A) :
  f x = false -> filter f (if b then [x] else []) = [].
Proof. intros H. destruct b; simpl; [now rewrite H | reflexivity]. Qed.

Lemma In_cond {A : Type} (b : bool) (x y : A) :
  In y (if b then [x] else []) <-> b = true /\ y = x.
Proof.
  destruct b; simpl.
  - split.
    + intros [H | []]. split; [reflexivity | now symmetry].
    + intros [_ ->]. now left.
  - split.
    + intros [].
    + intros [H _]. discriminate.
Qed.

Lemma sugar_entries_collected (n : DN.t) (dt : string) :
  filter is_sugar_entry (collectDiabeticWarnings n dt) = push_sugar_band n [].
Proof.
  rewrite collect_blocks, !filter_app.
  rewrite !filter_cond by reflexivity. rewrite !app_nil_r.
  unfold push_sugar_band.
  repeat match goal with
  | |- context [if ?b then _ else _] => destruct b
  end; reflexivity.
Qed.

Lemma generateDiabeticWarnings_off (nutrition : Nutrition)
    (options : Options) :
  isDiabetic options <> Some true ->
  generateDiabeticWarnings nutrition options = [].
Proof.
  intros H. unfold generateDiabeticWarnings.
  destruct (isDiabetic options) as [[|]|]; [now elim H | reflexivity ..].
Qed.

(** C8. Without the diabetic flag (false, or absent) the warning list
    is empty, whatever the nutrition values. *)
Theorem nondiabetic_no_warnings (nutrition : Nutrition) (options : Options) :
  isDiabetic options = Some false \/ isDiabetic options = None ->
  generateDiabeticWarnings nutrition options = [].
Proof.
  intros [H | H]; apply generateDiabeticWarnings_off; rewrite H;
    discriminate.
Qed.

Lemma nondiabetic_no_warnings_witness :
  generateDiabeticWarnings
    (facts (Some 550) (Some 25) (Some 30) (Some 2) None None) no_options = [].
Proof. apply nondiabetic_no_warnings. right. reflexivity. Defined.

(** C3. The list returned by [generateDiabeticWarnings] is in ascending
    order of priority at every pair of neighbours, and the entries of
    each priority stand in the order in which they were pushed. *)
Theorem warnings_stably_sorted (nutrition : Nutrition) (options : Options) :
  let ws := generateDiabeticWarnings nutrition options in
  let pushed :=
    match isDiabetic options with
    | Some true =>
        collectDiabeticWarnings
          (diabeticProfile nutrition)
          (match diabeticType options with Some t => t | None => "type2" end)
    | _ => []
    end in
  (forall i a b, nth_error ws i = Some a -> nth_error ws (S i) = Some b ->
                 (Warning.priority a <= Warning.priority b)%Z)
  /\ Permutation ws pushed
  /\ (forall p, filter (has_priority p) ws = filter (has_priority p) pushed).
Proof.
  intros ws pushed. subst ws pushed.
  destruct (isDiabetic options) as [[|]|] eqn:Hd.
  - rewrite (generateDiabeticWarnings_diabetic _ _ Hd).
    split; [|split].
    + intros i a b Ha Hb.
      pose proof (Array_sort_sorted by_priority by_priority_total
                    by_priority_trans
                    (collectDiabeticWarnings (diabeticProfile nutrition)
                       (match diabeticType options with
                        | Some t => t | None => "type2" end))) as Hs.
      pose proof (StronglySorted_adjacent _ _ Hs i a b Ha Hb) as H.
      unfold by_priority in H. apply Z.leb_le in H. lia.
    + apply Array_sort_perm.
    + intros p. apply Array_sort_stable.
      intros a b Ha Hb. unfold has_priority in Ha, Hb. unfold by_priority.
      apply Z.eqb_eq in Ha, Hb. apply Z.leb_le. lia.
  - rewrite generateDiabeticWarnings_off by (rewrite Hd; discriminate).
    split; [intros [|i] a b Ha; discriminate
           | split; [constructor | reflexivity]].
  - rewrite generateDiabeticWarnings_off by (rewrite Hd; discriminate).
    split; [intros [|i] a b Ha; discriminate
           | split; [constructor | reflexivity]].
Qed.

(** The priorities of the five severities, and a list with ties: the
    two critical entries and the two moderate ones keep their push order,
    and the type 1 entry, pushed last, moves in front of the moderate ones. *)
Example severity_priorities :
  map Severity.priority [CRITICAL; HIGH; MODERATE; LOW; SAFE]
  = [1; 2; 3; 4; 5]%Z.
Proof. reflexivity. Qed.

Example warnings_sorted_example :
  let nutrition :=
    facts (Some 550) (Some 25) (Some 25) (Some 2) None None in
  map Warning.type
      (collectDiabeticWarnings (diabeticProfile nutrition) "type1")
  = ["sugar_critical"; "combination_danger"; "calorie_high"; "salt_high";
     "type1_specific"]
  /\ map Warning.type (generateDiabeticWarnings nutrition diabetic_type1)
     = ["sugar_critical"; "combination_danger"; "type1_specific";
        "calorie_high"; "salt_high"].
Proof. vm_compute. split; reflexivity. Qed.

Lemma Permutation_short {A : Type} (l l' : list A) :
  Permutation l l' -> (List.length l' <= 1)%nat -> l = l'.
Proof.
  intros H Hlen. destruct l' as [|x [|y l']]; simpl in Hlen; try lia.
  - now apply Permutation_sym, Permutation_nil in H.
  - now apply Permutation_sym, Permutation_length_1_inv in H.
Qed.

Lemma push_sugar_band_short (n : DN.t) :
  (List.length (push_sugar_band n []) <= 1)%nat.
Proof.
  unfold push_sugar_band.
  repeat match goal with
  | |- context [if ?b then _ else _] => destruct b
  end; simpl; lia.
Qed.

Lemma sugar_entries_returned (nutrition : Nutrition) (options : Options) :
  isDiabetic options = Some true ->
  filter is_sugar_entry (generateDiabeticWarnings nutrition options)
  = push_sugar_band (diabeticProfile nutrition) [].
Proof.
  intros Hd. rewrite (generateDiabeticWarnings_diabetic _ _ Hd).
  apply Permutation_short; [|apply push_sugar_band_short].
  erewrite <- sugar_entries_collected.
  apply filter_Permutation, Array_sort_perm.
Qed.

(** C5. For a diabetic user the list holds exactly one sugar-specific
    entry when sugar is above 20 (critical), in (15, 20] (high), in
    (10, 15] (moderate), in (5, 10] (low) and at 3 or below (safe); for
    sugar in (3, 5] it holds none. *)
Theorem sugar_bands (nutrition : Nutrition) (options : Options) :
  isDiabetic options = Some true ->
  let s := js_or (sugar nutrition) 0 in
  let entries :=
    filter is_sugar_entry (generateDiabeticWarnings nutrition options) in
  (20 < s -> kinds entries = [("sugar_critical", "critical")])
  /\ (15 < s <= 20 -> kinds entries = [("sugar_high", "high")])
  /\ (10 < s <= 15 -> kinds entries = [("sugar_moderate", "moderate")])
  /\ (5 < s <= 10 -> kinds entries = [("sugar_low", "low")])
  /\ (s <= 3 -> kinds entries = [("sugar_safe", "safe")])
  /\ (3 < s <= 5 -> entries = []).
Proof.
  intros Hd s entries. subst entries.
  rewrite (sugar_entries_returned _ _ Hd).
  unfold push_sugar_band. cbn [DN.sugar diabeticProfile]. fold s.
  repeat split; intros H; qcases; try lra; reflexivity.
Qed.

Lemma sugar_bands_witness :
  kinds (filter is_sugar_entry
           (generateDiabeticWarnings
              (facts None (Some 25) None None None None) diabetic))
  = [("sugar_critical", "critical")]
  /\ filter is_sugar_entry
       (generateDiabeticWarnings
          (facts None (Some 4) None None None None) diabetic) = [].
Proof.
  split.
  - apply (sugar_bands (facts None (Some 25) None None None None) diabetic
             eq_refl).
    reflexivity.
  - apply (sugar_bands (facts None (Some 4) None None None None) diabetic
             eq_refl).
    split; [reflexivity | discriminate].
Defined.

Lemma In_sugar_band (n : DN.t) (w : Warning.t) :
  In w (push_sugar_band n []) -> is_sugar_entry w = true.
Proof.
  unfold push_sugar_band.
  repeat match goal with
  | |- context [if ?b then _ else _] => destruct b
  end; simpl; intros H; try contradiction;
    destruct H as [<- | []]; reflexivity.
Qed.

(** Membership in the collected entries, block by block. *)
Lemma In_collect (n : DN.t) (dt : string) (w : Warning.t) :
  In w (collectDiabeticWarnings n dt) <->
  In w (push_sugar_band n [])
  \/ ((DN.carbs n >? 50) = true /\ w = carb_high n)
  \/ ((DN.fat n >? 20) && (DN.sugar n >? 10) = true
      /\ w = combination_danger)
  \/ ((DN.calories n >? 500) = true /\ w = calorie_high n)
  \/ ((DN.salt n >? 1.5) = true /\ w = salt_high n)
  \/ ((DN.fiber n >=? 8) && (DN.sugar n <? 5) = true /\ w = fiber_good n)
  \/ ((DN.protein n >=? 15) && (DN.sugar n <? 5) = true
      /\ w = protein_good n)
  \/ ((DN.sugar n <? 3) && (DN.calories n <? 200) && (DN.fiber n >=? 5) = true
      /\ w = ideal_diabetic)
  \/ (String.eqb dt "type1" && (DN.sugar n >? 10) = true
      /\ w = type1_specific n).
Proof. rewrite collect_blocks, !in_app_iff, !In_cond. reflexivity. Qed.

Lemma In_returned (nutrition : Nutrition) (options : Options)
    (w : Warning.t) :
  isDiabetic options = Some true ->
  In w (generateDiabeticWarnings nutrition options) <->
  In w (collectDiabeticWarnings
          (diabeticProfile nutrition)
          (match diabeticType options with Some t => t | None => "type2" end)).
Proof.
  intros Hd. rewrite (generateDiabeticWarnings_diabetic _ _ Hd).
  split; apply Permutation_in;
    [apply Array_sort_perm | apply Permutation_sym, Array_sort_perm].
Qed.

(** Which block an entry of a given type comes from. *)
Ltac by_type H :=
  rewrite In_collect in H;
  let Hs := fresh "Hs" in
  destruct H as [Hs | H];
  [ apply In_sugar_band in Hs; unfold is_sugar_entry in Hs
  | decompose [or and] H; clear H; subst ];
  try discriminate;
  try match goal with Ht : Warning.type _ = _ |- _ =>
        first [ rewrite Ht in *; discriminate | cbn in Ht; discriminate ]
      end.

Lemma js_or_falsy (x : option Q) (d : Q) :
  x = None \/ (exists c, x = Some c /\ c == 0) -> js_or x d = d.
Proof.
  intros [-> | (c & -> & Hc)]; simpl; [reflexivity|].
  apply Qeq_bool_iff in Hc. now rewrite Hc.
Qed.

(** C9. When the carbs field is absent or 0 the carbohydrate value is
    the sugar value: the high-carbohydrate entry appears exactly when
    sugar exceeds 50, and the type 1 entry (present exactly for type 1
    with sugar above 10) reports the sugar value as estimated carbs. *)
Theorem carbs_default_to_sugar (nutrition : Nutrition) (options : Options) :
  isDiabetic options = Some true ->
  carbs nutrition = None \/ (exists c, carbs nutrition = Some c /\ c == 0) ->
  let n := diabeticProfile nutrition in
  let ws := generateDiabeticWarnings nutrition options in
  DN.carbs n = js_or (sugar nutrition) 0
  /\ DN.sugar n = js_or (sugar nutrition) 0
  /\ ((exists w, In w ws /\ Warning.type w = "carb_high")
      <-> 50 < js_or (sugar nutrition) 0)
  /\ ((exists w, In w ws /\ Warning.type w = "type1_specific")
      <-> diabeticType options = Some "type1"
          /\ 10 < js_or (sugar nutrition) 0)
  /\ (forall w, In w ws -> Warning.type w = "type1_specific" ->
                Warning.detail w
                = [Lit "Estimated carbs: ";
                   Fixed (js_or (sugar nutrition) 0) 0;
                   Lit "g - Consult carb counting guide"]).
Proof.
  intros Hd Hc n ws.
  assert (Hcarbs : DN.carbs n = js_or (sugar nutrition) 0)
    by (apply js_or_falsy, Hc).
  assert (Hsugar : DN.sugar n = js_or (sugar nutrition) 0) by reflexivity.
  split; [exact Hcarbs|]. split; [exact Hsugar|].
  split; [|split].
  - split.
    + intros (w & Hin & Ht). apply (In_returned _ _ _ Hd) in Hin.
      by_type Hin.
      rewrite <- Hcarbs. now apply Qgtb_true.
    + intros H. exists (carb_high n). split; [|reflexivity].
      apply (In_returned _ _ _ Hd), In_collect. right. left.
      split; [|reflexivity]. fold n. rewrite Hcarbs. now apply Qgtb_true.
  - split.
    + intros (w & Hin & Ht). apply (In_returned _ _ _ Hd) in Hin.
      by_type Hin.
      match goal with H : _ && _ = true |- _ =>
        apply andb_true_iff in H; destruct H as [H1 H2] end.
      apply String.eqb_eq in H1. apply Qgtb_true in H2.
      rewrite <- Hsugar. split; [|exact H2].
      destruct (diabeticType options); [now subst | discriminate].
    + intros [Ht Hs]. exists (type1_specific n). split; [|reflexivity].
      apply (In_returned _ _ _ Hd), In_collect. do 8 right.
      split; [|reflexivity]. rewrite Ht. fold n. rewrite Hsugar.
      apply Qgtb_true in Hs. now rewrite Hs.
  - intros w Hin Ht. apply (In_returned _ _ _ Hd) in Hin.
    by_type Hin.
    cbn [type1_specific Warning.detail]. fold n. now rewrite Hcarbs.
Qed.

Lemma carbs_default_to_sugar_witness :
  (exists w,
      In w (generateDiabeticWarnings
              (facts None (Some 60) None None None None) diabetic_type1)
      /\ Warning.type w = "carb_high")
  /\ (exists w,
      In w (generateDiabeticWarnings
              (facts None (Some 60) None None None None) diabetic_type1)
      /\ Warning.type w = "type1_specific").
Proof.
  pose proof (carbs_default_to_sugar
                (facts None (Some 60) None None None None) diabetic_type1
                eq_refl (or_introl eq_refl)) as (_ & _ & H1 & H2 & _).
  split.
  - apply H1. reflexivity.
  - apply H2. split; reflexivity.
Defined.

(** ** Diabetic risk assessment *)

(** C10. Without the diabetic flag [assessDiabeticRisk] returns exactly
    [{ risk: 'not_applicable', score: 0 }], whatever the nutrition
    values; with it, the risk is one of the five labels, the one its
    score selects, and the recommendation and severity are filled in.
    So a risk label is produced exactly when the flag is true. *)
Theorem risk_only_when_diabetic (nutrition : Nutrition) :
  (forall flag, flag <> Some true ->
     assessDiabeticRisk nutrition flag
     = {| Risk.risk := "not_applicable"; Risk.score := 0;
          Risk.recommendation := None; Risk.severity := None |})
  /\ (let r := assessDiabeticRisk nutrition (Some true) in
      In (Risk.risk r) risk_labels
      /\ (0 <= Risk.score r <= 90)%Z
      /\ Risk.risk r
         = (if (Risk.score r >=? 70)%Z then "critical"
            else if (Risk.score r >=? 40)%Z then "high"
            else if (Risk.score r >=? 20)%Z then "moderate"
            else if (Risk.score r >=? 10)%Z then "low"
            else "safe")
      /\ Risk.recommendation r <> None
      /\ (exists s, Risk.severity r = Some s
                    /\ Severity.level s = Risk.risk r))
  /\ (forall flag,
        In (Risk.risk (assessDiabeticRisk nutrition flag)) risk_labels
        <-> flag = Some true).
Proof.
  assert (Hoff : forall flag, flag <> Some true ->
            assessDiabeticRisk nutrition flag
            = {| Risk.risk := "not_applicable"; Risk.score := 0;
                 Risk.recommendation := None; Risk.severity := None |}).
  { intros [[|]|] H; [now elim H | reflexivity ..]. }
  assert (Hon : let r := assessDiabeticRisk nutrition (Some true) in
      In (Risk.risk r) risk_labels
      /\ (0 <= Risk.score r <= 90)%Z
      /\ Risk.risk r
         = (if (Risk.score r >=? 70)%Z then "critical"
            else if (Risk.score r >=? 40)%Z then "high"
            else if (Risk.score r >=? 20)%Z then "moderate"
            else if (Risk.score r >=? 10)%Z then "low"
            else "safe")
      /\ Risk.recommendation r <> None
      /\ (exists s, Risk.severity r = Some s
                    /\ Severity.level s = Risk.risk r)).
  { unfold assessDiabeticRisk, risk_labels. cbn [negb].
    set (sugar := js_or (sugar nutrition) 0).
    set (fat := js_or (fat nutrition) 0).
    destruct (sugar >? 20), (sugar >? 15), (sugar >? 10), (sugar >? 5),
      (fat >? 30), (fat >? 20); cbn;
      (repeat split; [tauto | lia | lia | discriminate | eexists; split; reflexivity]). }
  split; [exact Hoff|]. split; [exact Hon|].
  intros flag. split.
  - intros Hin. destruct flag as [[|]|]; [reflexivity | exfalso ..];
      rewrite Hoff in Hin by discriminate; cbn in Hin;
      decompose [or] Hin; discriminate || contradiction.
  - intros ->. apply Hon.
Qed.

Example risk_example :
  let r := assessDiabeticRisk
             (facts None (Some 25) (Some 35) None None None) (Some true) in
  Risk.risk r = "critical" /\ Risk.score r = 90%Z
  /\ Risk.severity r = Some CRITICAL.
Proof. vm_compute. repeat split. Qed.

(** ** Daily values *)

Lemma mem_string_In (x : string) (l : list string) :
  mem_string x l = true <-> In x l.
Proof.
  unfold mem_string. rewrite existsb_exists. split.
  - intros (y & Hy & He). apply String.eqb_eq in He. now subst.
  - intros H. exists x. split; [exact H | apply String.eqb_refl].
Qed.

Lemma scale_mono (v1 v2 t : Q) :
  0 < t -> v1 <= v2 -> (v1 / t) * 100 <= (v2 / t) * 100.
Proof.
  intros Ht Hv. apply Qmult_le_compat_r; [|lra].
  unfold Qdiv. apply Qmult_le_compat_r; [exact Hv|].
  apply Qlt_le_weak, Qinv_lt_0_compat, Ht.
Qed.

(** The target of one of the six scored nutrients is a positive number,
    whichever table is selected. *)
Lemma target_positive (options : Options) (nutrient : string) :
  In nutrient (positiveNutrients ++ limitNutrients) ->
  exists t, 0 < t
    /\ forall v, DailyValue.target (calculateDailyValue v nutrient options)
                 = FNum t
                 /\ DailyValue.percentage
                      (calculateDailyValue v nutrient options)
                    = Some (Math_round ((v / t) * 100)).
Proof.
  intros Hn. unfold calculateDailyValue. cbv zeta.
  cbn [DailyValue.target DailyValue.percentage].
  match goal with
  | |- context [match entry_get ?r nutrient with
                | FNum q => @?f q | FObject => ?o | FUndefined => ?u end] =>
      set (target := match entry_get r nutrient with
                     | FNum q => f q | FObject => o | FUndefined => u end)
  end.
  assert (He : exists t, target = FNum t /\ 0 < t).
  { subst target. unfold DAILY_VALUES, DAILY_VALUES_athlete.
    repeat match goal with
    | |- context [if String.eqb ?a ?b then _ else _] =>
        destruct (String.eqb a b)
    end;
    cbn in Hn; decompose [or] Hn; subst; try contradiction;
    eexists; (split; [reflexivity|]); reflexivity. }
  destruct He as (t & -> & Ht).
  exists t. split; [exact Ht|]. intros v. split; reflexivity.
Qed.

Lemma pct_ge_mono (p1 p2 c : Z) :
  (p1 <= p2)%Z -> pct_ge (Some p1) c = true -> pct_ge (Some p2) c = true.
Proof. unfold pct_ge. rewrite !Z.geb_le. lia. Qed.

Lemma beneficial_rank_mono (nutrient : string) (p1 p2 : Z) :
  In nutrient positiveNutrients -> (p1 <= p2)%Z ->
  (beneficial_rank (Category.name (categorizeDailyValue (Some p1) nutrient))
   <= beneficial_rank
        (Category.name (categorizeDailyValue (Some p2) nutrient)))%nat.
Proof.
  intros Hn Hp. unfold categorizeDailyValue.
  apply mem_string_In in Hn. rewrite Hn. unfold pct_ge.
  zcases; cbn; lia.
Qed.

Lemma severity_rank_mono (nutrient : string) (p1 p2 : Z) :
  In nutrient limitNutrients -> (p1 <= p2)%Z ->
  (severity_rank (Category.name (categorizeDailyValue (Some p1) nutrient))
   <= severity_rank
        (Category.name (categorizeDailyValue (Some p2) nutrient)))%nat.
Proof.
  intros Hn Hp. unfold categorizeDailyValue.
  assert (Hneg : mem_string nutrient positiveNutrients = false)
    by (cbn in Hn; decompose [or] Hn; subst; try contradiction; reflexivity).
  rewrite Hneg. unfold pct_ge.
  zcases; cbn; lia.
Qed.

(** C7. With the options and the nutrient fixed, a larger value never
    lowers the category: on the scale Low < Moderate < High < Excellent
    for protein and fiber, and on the severity scale Very Low < Low <
    Moderate < High < Very High for sugar, fat, salt and calories. *)
Theorem category_monotone (options : Options) (nutrient : string)
    (v1 v2 : Q) :
  v1 <= v2 ->
  let c1 := DailyValue.category (calculateDailyValue v1 nutrient options) in
  let c2 := DailyValue.category (calculateDailyValue v2 nutrient options) in
  (In nutrient positiveNutrients ->
   (beneficial_rank c1 <= beneficial_rank c2)%nat)
  /\ (In nutrient limitNutrients ->
      (severity_rank c1 <= severity_rank c2)%nat).
Proof.
  intros Hv c1 c2.
  assert (Hcat : forall v,
            DailyValue.category (calculateDailyValue v nutrient options)
            = Category.name
                (categorizeDailyValue
                   (DailyValue.percentage
                      (calculateDailyValue v nutrient options)) nutrient))
    by reflexivity.
  subst c1 c2. rewrite !Hcat.
  split; intros Hn.
  - destruct (target_positive options nutrient) as (t & Ht & Hp);
      [apply in_or_app; now left|].
    rewrite (proj2 (Hp v1)), (proj2 (Hp v2)).
    apply beneficial_rank_mono; [exact Hn|].
    now apply Math_round_mono, scale_mono.
  - destruct (target_positive options nutrient) as (t & Ht & Hp);
      [apply in_or_app; now right|].
    rewrite (proj2 (Hp v1)), (proj2 (Hp v2)).
    apply severity_rank_mono; [exact Hn|].
    now apply Math_round_mono, scale_mono.
Qed.

Lemma category_monotone_witness :
  (severity_rank
     (DailyValue.category (calculateDailyValue 5 "sugar" no_options))
   <= severity_rank
        (DailyValue.category (calculateDailyValue 20 "sugar" no_options)))%nat
  /\ (beneficial_rank
        (DailyValue.category (calculateDailyValue 5 "protein" no_options))
      <= beneficial_rank
           (DailyValue.category (calculateDailyValue 30 "protein" no_options)))%nat.
Proof.
  split.
  - apply (category_monotone no_options "sugar" 5 20); [discriminate|].
    simpl. tauto.
  - apply (category_monotone no_options "protein" 5 30); [discriminate|].
    simpl. tauto.
Defined.

Example category_examples :
  map (fun v => DailyValue.category (calculateDailyValue v "sugar" no_options))
      [1; 5; 10; 15; 20]
  = ["Very Low"; "Low"; "Moderate"; "High"; "Very High"]
  /\ map (fun v =>
            DailyValue.category (calculateDailyValue v "protein" no_options))
         [2; 8; 15; 30]
     = ["Low"; "Moderate"; "High"; "Excellent"].
Proof. vm_compute. split; reflexivity. Qed.

(** ** Population evaluation *)

Lemma scanAvoided_hit (ingredients productName targetGroup : string)
    (avoidList : list string) :
  (exists term, In term avoidList
     /\ (includes ingredients (toLowerCase term) = true
         \/ includes productName (toLowerCase term) = true)) ->
  let sc := scanAvoided ingredients productName targetGroup avoidList in
  StrictCheck.isViolated sc = true
  /\ exists found, In found avoidList
       /\ (includes ingredients (toLowerCase found) = true
           \/ includes productName (toLowerCase found) = true)
       /\ StrictCheck.message sc = avoid_message targetGroup found.
Proof.
  induction avoidList as [|avoided rest IH]; intros (term & Hin & Hhit).
  - contradiction.
  - cbn [scanAvoided].
    destruct (includes ingredients (toLowerCase avoided)
              || includes productName (toLowerCase avoided)) eqn:E.
    + cbn. split; [reflexivity|]. exists avoided.
      split; [now left|]. split; [now apply orb_true_iff | reflexivity].
    + destruct Hin as [-> | Hin].
      * apply orb_true_iff in Hhit. congruence.
      * destruct IH as (Hv & found & Hf & Hh & Hm); [now exists term|].
        split; [exact Hv|]. exists found. split; [now right | now split].
Qed.

Lemma evaluate_strict (nutrition : Nutrition) (targetGroup : string)
    (productData : Product) :
  targetGroup = "pregnant" \/ targetGroup = "child" ->
  let sc :=
    scanAvoided
      (toLowerCase
         (match ingredients productData with Some s => s | None => "" end))
      (toLowerCase
         (match name productData with Some s => s | None => "" end))
      targetGroup (denylist targetGroup) in
  StrictCheck.isViolated sc = true ->
  evaluateFoodForPopulation (Some nutrition) targetGroup productData
  = createAvoidResult targetGroup [StrictCheck.message sc]
                      (StrictCheck.explanation sc).
Proof.
  intros [-> | ->] sc Hsc; unfold evaluateFoodForPopulation.
  - change (negb (mem_string "pregnant" ["pregnant"; "child"])) with false.
    change (String.eqb "pregnant" "pregnant") with true. cbv iota zeta.
    change (checkStrictlyAvoided productData "pregnant" PREGNANT_LIMITS)
      with sc.
    now rewrite Hsc.
  - change (negb (mem_string "child" ["pregnant"; "child"])) with false.
    change (String.eqb "child" "pregnant") with false. cbv iota zeta.
    change (checkStrictlyAvoided productData "child" CHILD_LIMITS) with sc.
    now rewrite Hsc.
Qed.

(** C4. When the ingredients text or the name of the product mentions a
    term of the target group's denylist, the evaluation is [Avoid] with
    severity 100 whatever the nutrient values; no positive is recorded
    and the only warning is the denylist message, for the first listed
    term that the product mentions. *)
Theorem denylist_short_circuit (nutrition : Nutrition) (targetGroup : string)
    (productData : Product) (term : string) :
  targetGroup = "pregnant" \/ targetGroup = "child" ->
  In term (denylist targetGroup) ->
  mentions (ingredients productData) term = true
  \/ mentions (name productData) term = true ->
  let r := evaluateFoodForPopulation (Some nutrition) targetGroup productData in
  Evaluation.suitability r = "Avoid"
  /\ Evaluation.severityScore r = Some 100%Z
  /\ Evaluation.positives r = []
  /\ exists found,
       In found (denylist targetGroup)
       /\ (mentions (ingredients productData) found = true
           \/ mentions (name productData) found = true)
       /\ Evaluation.warnings r = [avoid_message targetGroup found].
Proof.
  intros Htg Hin Hhit r.
  destruct (scanAvoided_hit
              (toLowerCase
                 (match ingredients productData with
                  | Some s => s | None => "" end))
              (toLowerCase
                 (match name productData with Some s => s | None => "" end))
              targetGroup (denylist targetGroup))
    as (Hv & found & Hf & Hh & Hm).
  { exists term. split; [exact Hin | exact Hhit]. }
  subst r. rewrite (evaluate_strict nutrition targetGroup productData Htg Hv).
  cbn [createAvoidResult Evaluation.suitability Evaluation.severityScore
       Evaluation.positives Evaluation.warnings].
  repeat split. exists found. rewrite Hm. now repeat split.
Qed.

Lemma denylist_short_circuit_witness :
  let r := evaluateFoodForPopulation
             (Some (facts (Some 40) (Some 1) (Some 0) (Some 0.05) (Some 5)
                          (Some 4)))
             "pregnant"
             {| ingredients := Some "Water, contains Alcohol";
                name := Some "Punch"; allergens := None; nova := None |} in
  Evaluation.suitability r = "Avoid"
  /\ Evaluation.severityScore r = Some 100%Z
  /\ Evaluation.positives r = []
  /\ exists found,
       In found (denylist "pregnant")
       /\ (mentions (Some "Water, contains Alcohol") found = true
           \/ mentions (Some "Punch") found = true)
       /\ Evaluation.warnings r = [avoid_message "pregnant" found].
Proof.
  assert (Hin : In "alcohol" (denylist "pregnant")) by (cbn; tauto).
  exact (denylist_short_circuit
           (facts (Some 40) (Some 1) (Some 0) (Some 0.05) (Some 5) (Some 4))
           "pregnant"
           {| ingredients := Some "Water, contains Alcohol";
              name := Some "Punch"; allergens := None; nova := None |}
           "alcohol" (or_introl eq_refl) Hin (or_introl eq_refl)).
Defined.

(** A literal occurrence of a term is a mention of it. *)
Lemma literal_mention (term : string) (text : option string) :
  includes (match text with Some s => s | None => "" end) term = true ->
  mentions text term = true.
Proof. intros H. unfold mentions. now apply includes_toLowerCase. Qed.

(** Without a denylist term the same product is judged on its nutrients. *)
Example no_denylist_example :
  let r := evaluateFoodForPopulation
             (Some (facts None (Some 1) None (Some 0.05) (Some 5) (Some 4)))
             "child"
             {| ingredients := Some "oat, water"; name := None;
                allergens := None; nova := None |} in
  Evaluation.suitability r = "Good Choice"
  /\ Evaluation.severityScore r = Some 0%Z.
Proof. vm_compute. split; reflexivity. Qed.

(* ================================================================== *)
(** * Further properties *)

(** ** The score: range, totals, monotonicity *)






Lemma scorePass_rewards (n : N.t) (d : bool) :
  Acc.rewards (scorePass n d)
  = (if N.protein n >=? 8 then [proteinReward n] else [])
    ++ (if N.fiber n >=? 5 then [fiberReward n] else [])
    ++ (if (N.calories n <? 100) && (N.protein n >=? 5)
        then [lowCalReward n] else [])
    ++ (if (N.sugar n <? 5) && (N.fat n <? 10) && (N.salt n <? 0.5)
           && (N.protein n >=? 10) && (N.fiber n >=? 5)
        then [perfectReward] else []).
Proof.
  unfold scorePass. cbv zeta.
  rewrite !rewards_when_add, !rewards_when_subtract. simpl.
  now rewrite <- !app_assoc.
Qed.







Ltac qblock := qcases; cbn [sum_penalty sum_bonus fold_right]; lra.

Lemma calorie_block_mono (n1 n2 : N.t) :
  N.calories n1 <= N.calories n2 ->
  sum_penalty (if N.calories n1 >? 200 then [caloriePenalty n1] else [])
  <= sum_penalty (if N.calories n2 >? 200 then [caloriePenalty n2] else []).
Proof.
  intros H. unfold caloriePenalty. cbv zeta. qcases;
    cbn [sum_penalty fold_right Penalty.penalty]; lra.
Qed.

Lemma sugar_block_mono (n1 n2 : N.t) (d1 d2 : bool) :
  N.sugar n1 <= N.sugar n2 -> (d1 = true -> d2 = true) ->
  sum_penalty (if N.sugar n1 >? 5 then [sugarPenalty n1 d1] else [])
  <= sum_penalty (if N.sugar n2 >? 5 then [sugarPenalty n2 d2] else []).
Proof.
  intros H Hd. unfold sugarPenalty. cbv zeta.
  destruct d1, d2; try (specialize (Hd eq_refl); discriminate);
    qcases; cbn [sum_penalty fold_right Penalty.penalty]; lra.
Qed.

Lemma fat_block_mono (n1 n2 : N.t) :
  N.fat n1 <= N.fat n2 ->
  sum_penalty (if N.fat n1 >? 10 then [fatPenalty n1] else [])
  <= sum_penalty (if N.fat n2 >? 10 then [fatPenalty n2] else []).
Proof.
  intros H. unfold fatPenalty. cbv zeta. qcases;
    cbn [sum_penalty fold_right Penalty.penalty]; lra.
Qed.

Lemma salt_block_mono (n1 n2 : N.t) :
  N.salt n1 <= N.salt n2 ->
  sum_penalty (if N.salt n1 >? 0.3 then [saltPenalty n1] else [])
  <= sum_penalty (if N.salt n2 >? 0.3 then [saltPenalty n2] else []).
Proof.
  intros H. unfold saltPenalty. cbv zeta. qcases;
    cbn [sum_penalty fold_right Penalty.penalty]; lra.
Qed.

Lemma combo_block_mono (n1 n2 : N.t) :
  N.sugar n1 <= N.sugar n2 -> N.fat n1 <= N.fat n2 ->
  sum_penalty (if (N.sugar n1 >? 10) && (N.fat n1 >? 20)
               then [comboPenalty] else [])
  <= sum_penalty (if (N.sugar n2 >? 10) && (N.fat n2 >? 20)
                  then [comboPenalty] else []).
Proof.
  intros Hs Hf. qcases;
    cbn [sum_penalty fold_right Penalty.penalty comboPenalty]; lra.
Qed.

Lemma metabolic_block_mono (n1 n2 : N.t) :
  N.calories n1 <= N.calories n2 -> N.sugar n1 <= N.sugar n2 ->
  sum_penalty (if (N.calories n1 >? 400) && (N.sugar n1 >? 15)
               then [metabolicPenalty] else [])
  <= sum_penalty (if (N.calories n2 >? 400) && (N.sugar n2 >? 15)
                  then [metabolicPenalty] else []).
Proof.
  intros Hs Hf. qcases;
    cbn [sum_penalty fold_right Penalty.penalty metabolicPenalty]; lra.
Qed.

Lemma protein_block_mono (n1 n2 : N.t) :
  N.protein n2 <= N.protein n1 ->
  sum_bonus (if N.protein n2 >=? 8 then [proteinReward n2] else [])
  <= sum_bonus (if N.protein n1 >=? 8 then [proteinReward n1] else []).
Proof.
  intros H. unfold proteinReward. cbv zeta. qcases;
    cbn [sum_bonus fold_right Reward.bonus]; lra.
Qed.

Lemma fiber_block_mono (n1 n2 : N.t) :
  N.fiber n2 <= N.fiber n1 ->
  sum_bonus (if N.fiber n2 >=? 5 then [fiberReward n2] else [])
  <= sum_bonus (if N.fiber n1 >=? 5 then [fiberReward n1] else []).
Proof.
  intros H. unfold fiberReward. cbv zeta. qcases;
    cbn [sum_bonus fold_right Reward.bonus]; lra.
Qed.

Lemma lowcal_block_mono (n1 n2 : N.t) :
  N.calories n1 <= N.calories n2 -> N.protein n2 <= N.protein n1 ->
  sum_bonus (if (N.calories n2 <? 100) && (N.protein n2 >=? 5)
             then [lowCalReward n2] else [])
  <= sum_bonus (if (N.calories n1 <? 100) && (N.protein n1 >=? 5)
                then [lowCalReward n1] else []).
Proof.
  intros Hc Hp. qcases;
    cbn [sum_bonus fold_right Reward.bonus lowCalReward]; lra.
Qed.

Lemma optimal_block_mono (n1 n2 : N.t) :
  no_healthier n1 n2 ->
  sum_bonus (if (N.sugar n2 <? 5) && (N.fat n2 <? 10) && (N.salt n2 <? 0.5)
                && (N.protein n2 >=? 10) && (N.fiber n2 >=? 5)
             then [perfectReward] else [])
  <= sum_bonus (if (N.sugar n1 <? 5) && (N.fat n1 <? 10) && (N.salt n1 <? 0.5)
                   && (N.protein n1 >=? 10) && (N.fiber n1 >=? 5)
                then [perfectReward] else []).
Proof.
  intros (Hc & Hs & Hf & Ha & Hp & Hb). qcases;
    cbn [sum_bonus fold_right Reward.bonus perfectReward]; lra.
Qed.

(** The value handed to the clamp never rises when the food gets no
    healthier or the diabetic flag is switched on. *)
Lemma pass_score_mono (n1 n2 : N.t) (d1 d2 : bool) :
  no_healthier n1 n2 -> (d1 = true -> d2 = true) ->
  Acc.score (scorePass n2 d2) <= Acc.score (scorePass n1 d1).
Proof.
  intros Hn Hd.
  pose proof (scorePass_balanced n1 d1) as H1.
  pose proof (scorePass_balanced n2 d2) as H2.
  unfold balanced in H1, H2. rewrite H1, H2.
  rewrite !scorePass_penalties, !scorePass_rewards.
  rewrite !sum_penalty_app, !sum_bonus_app.
  pose proof (optimal_block_mono n1 n2 Hn).
  destruct Hn as (Hc & Hs & Hf & Ha & Hp & Hb).
  pose proof (calorie_block_mono n1 n2 Hc).
  pose proof (sugar_block_mono n1 n2 d1 d2 Hs Hd).
  pose proof (fat_block_mono n1 n2 Hf).
  pose proof (salt_block_mono n1 n2 Ha).
  pose proof (combo_block_mono n1 n2 Hs Hf).
  pose proof (metabolic_block_mono n1 n2 Hc Hs).
  pose proof (protein_block_mono n1 n2 Hp).
  pose proof (fiber_block_mono n1 n2 Hb).
  pose proof (lowcal_block_mono n1 n2 Hc Hp).
  lra.
Qed.

Lemma clamp_mono (x y : Q) :
  x <= y ->
  (Z.max 0 (Z.min 100 (Math_round x)) <= Z.max 0 (Z.min 100 (Math_round y)))%Z.
Proof. intros H. apply Math_round_mono in H. lia. Qed.

(** X2. A food that is no healthier (no less calories, sugar, fat and
    salt, no more protein and fiber, after normalization) never gets a
    higher score, under the same options. *)
Theorem score_monotone (nutrition1 nutrition2 : Nutrition)
    (options : Options) :
  no_healthier (normalize nutrition1) (normalize nutrition2) ->
  (HealthScore.score (calculateHealthScore nutrition2 options)
   <= HealthScore.score (calculateHealthScore nutrition1 options))%Z.
Proof.
  intros H.
  destruct (calculateHealthScore_fields nutrition1 options) as [-> _].
  destruct (calculateHealthScore_fields nutrition2 options) as [-> _].
  apply clamp_mono, pass_score_mono; [exact H | auto].
Qed.

Lemma score_monotone_witness :
  Z.le
    (HealthScore.score
       (calculateHealthScore
          (facts (Some 320) (Some 18) (Some 12) (Some 1) (Some 4) (Some 1))
          no_options))
    (HealthScore.score
       (calculateHealthScore
          (facts (Some 250) (Some 9) (Some 12) (Some 0.4) (Some 9) (Some 6))
          no_options)).
Proof.
  apply score_monotone. unfold no_healthier. cbn.
  repeat split; discriminate.
Defined.

(** X3. Of the options only the diabetic flag matters to the score
    engine, and switching it on never raises the score. *)
Theorem diabetic_flag_only (nutrition : Nutrition)
    (options1 options2 : Options) :
  (flag options1 = flag options2 ->
   calculateHealthScore nutrition options1
   = calculateHealthScore nutrition options2)
  /\ (flag options2 = true ->
      (HealthScore.score (calculateHealthScore nutrition options2)
       <= HealthScore.score (calculateHealthScore nutrition options1))%Z).
Proof.
  split.
  - unfold flag, calculateHealthScore. intros ->. reflexivity.
  - intros Hf.
    destruct (calculateHealthScore_fields nutrition options1) as [-> _].
    destruct (calculateHealthScore_fields nutrition options2) as [-> _].
    fold (flag options1) (flag options2).
    apply clamp_mono, pass_score_mono; [|auto].
    unfold no_healthier. repeat split; lra.
Qed.

Example diabetic_flag_example :
  let nutrition := facts (Some 150) (Some 20) None None None None in
  HealthScore.score (calculateHealthScore nutrition no_options) = 83%Z
  /\ HealthScore.score (calculateHealthScore nutrition diabetic) = 74%Z.
Proof. vm_compute. split; reflexivity. Qed.

(** X4. No penalty is listed exactly when calories, sugar, fat and salt
    are all at or under their thresholds (200, 5, 10, 0.3), and then
    the score is 100 with grade A+, whatever the rewards. *)
Theorem no_penalty_perfect_score (nutrition : Nutrition) (options : Options) :
  let n := normalize nutrition in
  let r := calculateHealthScore nutrition options in
  (HealthScore.penalties r = [] <->
   N.calories n <= 200 /\ N.sugar n <= 5 /\ N.fat n <= 10 /\ N.salt n <= 0.3)
  /\ (HealthScore.penalties r = [] ->
      HealthScore.score r = 100%Z
      /\ Grade.grade (HealthScore.grade r) = "A+").
Proof.
  intros n r.
  destruct (calculateHealthScore_fields nutrition options)
    as (Hs & _ & Hp & _).
  fold n r (flag options) in Hs, Hp.
  set (a := scorePass n (flag options)) in *.
  assert (Hperm : Permutation (HealthScore.penalties r) (Acc.penalties a))
    by (rewrite Hp; apply generateRecommendation_perm).
  assert (Hnil : HealthScore.penalties r = [] <-> Acc.penalties a = []).
  { split; intros H; rewrite H in Hperm.
    - now apply Permutation_nil in Hperm.
    - now apply Permutation_sym, Permutation_nil in Hperm. }
  assert (Hthr : Acc.penalties a = [] <->
            N.calories n <= 200 /\ N.sugar n <= 5 /\ N.fat n <= 10
            /\ N.salt n <= 0.3).
  { subst a. rewrite scorePass_penalties. split.
    - intros H.
      destruct (N.calories n >? 200) eqn:Ec; [discriminate|].
      destruct (N.sugar n >? 5) eqn:Es; [discriminate|].
      destruct (N.fat n >? 10) eqn:Ef; [discriminate|].
      destruct (N.salt n >? 0.3) eqn:Ea; [discriminate|].
      now rewrite Qgtb_false in Ec, Es, Ef, Ea.
    - intros (Hc & Hsu & Hf & Ha).
      assert (E10 : (N.sugar n >? 10) = false) by (apply Qgtb_false; lra).
      assert (E15 : (N.sugar n >? 15) = false) by (apply Qgtb_false; lra).
      apply Qgtb_false in Hc, Hsu, Hf, Ha.
      now rewrite Hc, Hsu, Hf, Ha, E10, E15, andb_false_r. }
  split; [now rewrite Hnil|].
  intros Hnone. apply Hnil in Hnone.
  assert (Hscore : HealthScore.score r = 100%Z).
  { rewrite Hs.
    pose proof (scorePass_balanced n (flag options)) as Hb.
    unfold balanced in Hb. fold a in Hb. rewrite Hnone in Hb.
    pose proof (rewards_nonneg n (flag options)) as Hr. fold a in Hr.
    assert (H100 : (100 <= Math_round (Acc.score a))%Z).
    { change 100%Z with (Math_round 100). apply Math_round_mono.
      rewrite Hb. cbn [sum_penalty fold_right]. lra. }
    lia. }
  split; [exact Hscore|].
  unfold r, calculateHealthScore in *.
  destruct (generateRecommendation _ _ _ _ _) as [text ps].
  cbn [HealthScore.grade HealthScore.score] in *. now rewrite Hscore.
Qed.

(** X5. The grade follows the score: of two results, the one with the
    higher score never has the lower grade (F < D < C < B < A < A+). *)
Theorem grade_follows_score (nutrition1 nutrition2 : Nutrition)
    (options1 options2 : Options) :
  let r1 := calculateHealthScore nutrition1 options1 in
  let r2 := calculateHealthScore nutrition2 options2 in
  (HealthScore.score r1 <= HealthScore.score r2)%Z ->
  (grade_rank (Grade.grade (HealthScore.grade r1))
   <= grade_rank (Grade.grade (HealthScore.grade r2)))%nat.
Proof.
  intros r1 r2.
  assert (Hg : forall nutrition options,
            HealthScore.grade (calculateHealthScore nutrition options)
            = gradeOf (HealthScore.score
                         (calculateHealthScore nutrition options))).
  { intros nutrition options. unfold calculateHealthScore.
    destruct (generateRecommendation _ _ _ _ _) as [text ps]. reflexivity. }
  subst r1 r2. rewrite !Hg.
  generalize (HealthScore.score (calculateHealthScore nutrition1 options1)),
             (HealthScore.score (calculateHealthScore nutrition2 options2)).
  intros s1 s2 Hle. unfold gradeOf. zcases; cbn; lia.
Qed.

Lemma grade_follows_score_witness :
  Nat.le
    (grade_rank
       (Grade.grade
          (HealthScore.grade
             (calculateHealthScore
                (facts (Some 500) (Some 30) (Some 35) (Some 2.5) (Some 3)
                       (Some 0)) no_options))))
    (grade_rank
       (Grade.grade
          (HealthScore.grade
             (calculateHealthScore
                (facts (Some 150) (Some 2) (Some 3) (Some 0.1) (Some 20)
                       (Some 10)) no_options)))).
Proof.
  apply (grade_follows_score
           (facts (Some 500) (Some 30) (Some 35) (Some 2.5) (Some 3) (Some 0))
           (facts (Some 150) (Some 2) (Some 3) (Some 0.1) (Some 20) (Some 10))
           no_options no_options).
  vm_compute. discriminate.
Defined.

(** ** The one-line diabetic warning and the warning list *)

Lemma calculateHealthScore_warning (nutrition : Nutrition)
    (options : Options) :
  HealthScore.diabeticWarning (calculateHealthScore nutrition options)
  = generateDiabeticWarning (normalize nutrition) (flag options).
Proof.
  unfold calculateHealthScore, flag.
  destruct (generateRecommendation _ _ _ _ _) as [text ps]. reflexivity.
Qed.

(** X6. The one-line diabetic warning of the score is absent exactly
    when the user is not diabetic, or sugar is at most 5 g and either
    sugar is at least 3 g or calories are at least 200. *)
Theorem one_line_warning_absent (nutrition : Nutrition) (options : Options) :
  let n := normalize nutrition in
  HealthScore.diabeticWarning (calculateHealthScore nutrition options) = None
  <-> flag options = false
      \/ (N.sugar n <= 5 /\ (3 <= N.sugar n \/ 200 <= N.calories n)).
Proof.
  intros n. rewrite calculateHealthScore_warning. fold n.
  unfold generateDiabeticWarning.
  destruct (flag options); cbn [negb].
  - split.
    + intros H. right. revert H. qcases; try discriminate; intros _; lra.
    + intros [H | H]; [discriminate|]. qcases; try reflexivity; lra.
  - split; [now left | reflexivity].
Qed.

Lemma flag_true (options : Options) :
  flag options = true <-> isDiabetic options = Some true.
Proof.
  unfold flag. destruct (isDiabetic options) as [[|]|];
    split; intros H; try reflexivity; discriminate.
Qed.

Lemma sugar_band_entry (n : DN.t) :
  5 < DN.sugar n \/ DN.sugar n <= 3 ->
  exists w, push_sugar_band n [] = [w]
            /\ (15 < DN.sugar n -> (Warning.priority w <= 2)%Z).
Proof.
  intros H. unfold push_sugar_band. qcases; try lra;
    eexists; (split; [reflexivity|]); intros H15;
    try lra; cbn; lia.
Qed.

Lemma sorted_head_least (w x : Warning.t) (ws : list Warning.t) :
  StronglySorted (fun a b => by_priority a b = true) (w :: ws) ->
  In x (w :: ws) -> (Warning.priority w <= Warning.priority x)%Z.
Proof.
  intros Hs [<- | Hin]; [lia|].
  apply StronglySorted_inv in Hs. destruct Hs as [_ Hall].
  rewrite Forall_forall in Hall. specialize (Hall x Hin).
  unfold by_priority in Hall. apply Z.leb_le in Hall. lia.
Qed.

(** X7. In an enriched product the two diabetic outputs hang together:
    when the score carries a one-line warning the warning list is not
    empty, and when that line is the CRITICAL one the list starts with
    an entry of critical or high severity. *)
Theorem one_line_warning_backed {A : Type} (product : A)
    (nutrition : Nutrition) (options : Options) :
  let e := enrichProduct product nutrition options in
  (HealthScore.diabeticWarning (Enriched.healthScore e) <> None ->
   Enriched.diabeticWarnings e <> [])
  /\ (forall line,
        HealthScore.diabeticWarning (Enriched.healthScore e) = Some line ->
        String.prefix "🚫 CRITICAL" line = true ->
        exists w ws, Enriched.diabeticWarnings e = w :: ws
                     /\ (Warning.priority w <= 2)%Z).
Proof.
  intros e. subst e. unfold enrichProduct.
  cbn [Enriched.healthScore Enriched.diabeticWarnings].
  rewrite calculateHealthScore_warning.
  set (n := normalize nutrition).
  set (dn := diabeticProfile nutrition).
  assert (Hsug : forall c, 0 <= c -> (c < N.sugar n <-> c < DN.sugar dn))
    by (intros c Hc; apply normalized_sugar_gt, Hc).
  assert (Hlow : N.sugar n < 3 -> DN.sugar dn <= 3).
  { intros H. destruct (Qlt_le_dec 3 (DN.sugar dn)) as [Hgt|Hle];
      [|exact Hle]. apply Hsug in Hgt; lra. }
  assert (Hin : flag options = true ->
            5 < DN.sugar dn \/ DN.sugar dn <= 3 ->
            exists w, In w (generateDiabeticWarnings nutrition options)
                      /\ (15 < DN.sugar dn -> (Warning.priority w <= 2)%Z)).
  { intros Hf Hband. apply flag_true in Hf.
    destruct (sugar_band_entry dn Hband) as (w & Hw & Hp).
    exists w. split; [|exact Hp].
    apply (In_returned _ _ _ Hf), In_collect. left. fold dn.
    rewrite Hw. now left. }
  unfold generateDiabeticWarning.
  destruct (flag options) eqn:Hf; cbn [negb].
  - split.
    + intros Hsome Hnil.
      destruct Hin as (w & Hw & _); [reflexivity | | now rewrite Hnil in Hw].
      revert Hsome. qcases; intros Hsome; try (now elim Hsome);
        first [left; apply Hsug; lra | right; apply Hlow; lra].
    + intros line Hline Hcrit.
      assert (H15 : 15 < DN.sugar dn).
      { revert Hline. qcases; intros Hline; try discriminate;
          injection Hline as <-; try discriminate Hcrit;
          apply Hsug; lra. }
      destruct Hin as (w & Hw & Hp); [reflexivity | left; lra |].
      specialize (Hp H15).
      pose proof (Array_sort_sorted by_priority by_priority_total
                    by_priority_trans
                    (collectDiabeticWarnings dn
                       (match diabeticType options with
                        | Some t => t | None => "type2" end))) as Hs.
      apply flag_true in Hf.
      rewrite (generateDiabeticWarnings_diabetic _ _ Hf) in Hw |- *.
      fold dn in Hw |- *.
      destruct (Array_sort by_priority _) as [|w0 ws]; [contradiction|].
      exists w0, ws. split; [reflexivity|].
      pose proof (sorted_head_least _ _ _ Hs Hw). lia.
  - split; [intros H; now elim H | intros line H; discriminate].
Qed.

Example one_line_warning_example :
  let e := enrichProduct tt
             (facts (Some 450) (Some 18) (Some 25) None None None) diabetic in
  HealthScore.diabeticWarning (Enriched.healthScore e)
  = Some "🚫 CRITICAL: Very high sugar content. May cause severe blood glucose spike. Avoid completely."
  /\ kinds (Enriched.diabeticWarnings e)
     = [("combination_danger", "critical"); ("sugar_high", "high")].
Proof. vm_compute. split; reflexivity. Qed.

(** ** Risk assessment, warning list and glucose estimate *)

(** The risk score in closed form. *)
Lemma risk_score_formula (nutrition : Nutrition) :
  let sugar := js_or (sugar nutrition) 0 in
  let fat := js_or (fat nutrition) 0 in
  Risk.score (assessDiabeticRisk nutrition (Some true))
  = Z.add
      (Z.add
         (if sugar >? 20 then 50%Z else if sugar >? 15 then 35%Z
          else if sugar >? 10 then 20%Z else if sugar >? 5 then 10%Z
          else 0%Z)
         (if fat >? 30 then 20%Z else if fat >? 20 then 10%Z else 0%Z))
      (if (sugar >? 10) && (fat >? 20) then 20%Z else 0%Z).
Proof.
  cbv zeta. unfold assessDiabeticRisk. cbn [negb].
  set (sugar := js_or (sugar nutrition) 0).
  set (fat := js_or (fat nutrition) 0).
  destruct (sugar >? 20), (sugar >? 15), (sugar >? 10), (sugar >? 5),
    (fat >? 30), (fat >? 20); reflexivity.
Qed.

(** X8. For a diabetic user the risk score never falls when sugar and
    fat do not fall. *)
Theorem risk_score_monotone (nutrition1 nutrition2 : Nutrition) :
  js_or (sugar nutrition1) 0 <= js_or (sugar nutrition2) 0 ->
  js_or (fat nutrition1) 0 <= js_or (fat nutrition2) 0 ->
  (Risk.score (assessDiabeticRisk nutrition1 (Some true))
   <= Risk.score (assessDiabeticRisk nutrition2 (Some true)))%Z.
Proof.
  intros Hs Hf. rewrite !risk_score_formula. cbv zeta.
  qcases; try lra; lia.
Qed.

Lemma risk_score_monotone_witness :
  Z.le
    (Risk.score
       (assessDiabeticRisk (facts None (Some 12) (Some 15) None None None)
                           (Some true)))
    (Risk.score
       (assessDiabeticRisk (facts None (Some 18) (Some 25) None None None)
                           (Some true))).
Proof. apply risk_score_monotone; cbn; discriminate. Defined.

Lemma In_sugar_band_cases (n : DN.t) (w : Warning.t) :
  In w (push_sugar_band n []) ->
  (20 < DN.sugar n /\ w = sugar_critical n)
  \/ (10 < DN.sugar n /\ (w = sugar_high n \/ w = sugar_moderate n))
  \/ (5 < DN.sugar n /\ w = sugar_low n)
  \/ (DN.sugar n <= 3 /\ w = sugar_safe n).
Proof.
  unfold push_sugar_band. qcases; cbn [In app]; intros H;
    try contradiction; destruct H as [<- | []];
    first [ left; split; [lra | reflexivity]
          | right; left; split; [lra | now left]
          | right; left; split; [lra | now right]
          | right; right; left; split; [lra | reflexivity]
          | right; right; right; split; [lra | reflexivity] ].
Qed.

(** What each returned entry is, with the sugar range that allows it. *)
Lemma returned_cases (nutrition : Nutrition) (options : Options)
    (w : Warning.t) :
  isDiabetic options = Some true ->
  In w (generateDiabeticWarnings nutrition options) ->
  let n := diabeticProfile nutrition in
  (10 < DN.sugar n /\ Warning.severity w = CRITICAL)
  \/ (Warning.severity w = HIGH) \/ (Warning.severity w = MODERATE)
  \/ (5 < DN.sugar n /\ Warning.severity w = LOW)
  \/ (DN.sugar n < 5 /\ Warning.severity w = SAFE).
Proof.
  intros Hd Hin n. apply (In_returned _ _ _ Hd) in Hin. fold n in Hin.
  rewrite In_collect in Hin.
  destruct Hin as [Hb | Hin].
  - apply In_sugar_band_cases in Hb.
    destruct Hb as [[H ->] | [[H [-> | ->]] | [[H ->] | [H ->]]]].
    + left. split; [lra | reflexivity].
    + right. left. reflexivity.
    + right. right. left. reflexivity.
    + right. right. right. left. split; [exact H | reflexivity].
    + right. right. right. right. split; [lra | reflexivity].
  - decompose [or and] Hin; clear Hin; subst;
      repeat match goal with
      | H : _ && _ = true |- _ =>
          apply andb_true_iff in H; destruct H
      end;
      repeat match goal with
      | H : (_ >? _) = true |- _ => apply Qgtb_true in H
      | H : (_ <? _) = true |- _ =>
          unfold Qltb in H; apply negb_true_iff, Qle_bool_false in H
      end.
    + right. left. reflexivity.
    + left. split; [assumption | reflexivity].
    + right. right. left. reflexivity.
    + right. right. left. reflexivity.
    + right. right. right. right. split; [assumption | reflexivity].
    + right. right. right. right. split; [assumption | reflexivity].
    + right. right. right. right. split; [lra | reflexivity].
    + right. left. reflexivity.
Qed.

(** X9. A warning list never holds both a critical entry and a safe
    one: when one entry is critical, every entry is critical, high,
    moderate or low (the critical entries need more than 10 g of sugar,
    the safe ones less than 5 g). *)
Theorem critical_excludes_safe (nutrition : Nutrition) (options : Options)
    (w1 w2 : Warning.t) :
  let ws := generateDiabeticWarnings nutrition options in
  In w1 ws -> In w2 ws ->
  Severity.level (Warning.severity w1) = "critical" ->
  In (Severity.level (Warning.severity w2))
     ["critical"; "high"; "moderate"; "low"].
Proof.
  intros ws H1 H2 Hc. subst ws.
  destruct (isDiabetic options) as [[|]|] eqn:Hd;
    try (rewrite generateDiabeticWarnings_off in H1
           by (rewrite Hd; discriminate); contradiction).
  pose proof (returned_cases _ _ _ Hd H1) as C1.
  pose proof (returned_cases _ _ _ Hd H2) as C2.
  cbv zeta in C1, C2.
  destruct C1 as [[S1 E1] | [E1 | [E1 | [[S1 E1] | [S1 E1]]]]];
    rewrite E1 in Hc; try discriminate.
  destruct C2 as [[S2 E2] | [E2 | [E2 | [[S2 E2] | [S2 E2]]]]];
    rewrite E2; cbn; try tauto.
  lra.
Qed.

Lemma critical_excludes_safe_witness :
  In (Severity.level
        (Warning.severity
           (calorie_high
              (diabeticProfile
                 (facts (Some 550) (Some 25) (Some 25) None None
                        (Some 9))))))
     ["critical"; "high"; "moderate"; "low"].
Proof.
  apply (critical_excludes_safe
           (facts (Some 550) (Some 25) (Some 25) None None (Some 9))
           diabetic combination_danger).
  - vm_compute. tauto.
  - vm_compute. tauto.
  - reflexivity.
Defined.


Lemma critical_risk_needs (nutrition : Nutrition) :
  Risk.risk (assessDiabeticRisk nutrition (Some true)) = "critical" ->
  10 < js_or (sugar nutrition) 0 /\ 20 < js_or (fat nutrition) 0.
Proof.
  unfold assessDiabeticRisk. cbn [negb].
  set (sugar := js_or (sugar nutrition) 0).
  set (fat := js_or (fat nutrition) 0).
  destruct (sugar >? 20) eqn:E20, (sugar >? 15) eqn:E15,
    (sugar >? 10) eqn:E10, (sugar >? 5) eqn:E5,
    (fat >? 30) eqn:F30, (fat >? 20) eqn:F20; cbn; intros H;
    try discriminate;
    rewrite ?Qgtb_true, ?Qgtb_false in *; split; lra.
Qed.

(** X10. The two diabetic paths agree at the top: when the risk
    assessment says critical, the warning list starts with a critical
    entry. *)
Theorem critical_risk_first_warning (nutrition : Nutrition)
    (options : Options) :
  isDiabetic options = Some true ->
  Risk.risk (assessDiabeticRisk nutrition (isDiabetic options)) = "critical" ->
  exists w ws, generateDiabeticWarnings nutrition options = w :: ws
               /\ Warning.severity w = CRITICAL.
Proof.
  intros Hd Hrisk. rewrite Hd in Hrisk.
  apply critical_risk_needs in Hrisk. destruct Hrisk as [Hs Hf].
  assert (Hin : In combination_danger
                   (generateDiabeticWarnings nutrition options)).
  { apply (In_returned _ _ _ Hd), In_collect. right. right. left.
    split; [|reflexivity]. apply andb_true_iff.
    split; apply Qgtb_true; assumption. }
  pose proof (Array_sort_sorted by_priority by_priority_total
                by_priority_trans
                (collectDiabeticWarnings (diabeticProfile nutrition)
                   (match diabeticType options with
                    | Some t => t | None => "type2" end))) as Hsorted.
  rewrite <- (generateDiabeticWarnings_diabetic _ _ Hd) in Hsorted.
  destruct (generateDiabeticWarnings nutrition options) as [|w ws] eqn:E;
    [contradiction|].
  exists w, ws. split; [reflexivity|].
  pose proof (sorted_head_least _ _ _ Hsorted Hin) as Hle.
  assert (Hw : In w (generateDiabeticWarnings nutrition options))
    by (rewrite E; now left).
  pose proof (returned_cases _ _ _ Hd Hw) as C. cbv zeta in C.
  unfold Warning.priority in Hle.
  destruct C as [[_ Ec] | [Ec | [Ec | [[_ Ec] | [_ Ec]]]]];
    rewrite Ec in Hle |- *; cbn in Hle; try lia; reflexivity.
Qed.

Lemma critical_risk_first_warning_witness :
  exists w ws,
    generateDiabeticWarnings
      (facts None (Some 18) (Some 35) None None None) diabetic = w :: ws
    /\ Warning.severity w = CRITICAL.
Proof.
  apply critical_risk_first_warning; reflexivity.
Defined.


Example glucose_impact_example :
  let g := estimateGlucoseImpact
             {| calories := None; sugar := Some 12; fat := Some 15;
                saturatedFat := None; salt := None; protein := Some 4;
                fiber := Some 6; carbs := Some 40.26; caffeine := None;
                iron := None; calcium := None |} in
  GlucoseImpact.estimatedRise g = 93%Z
  /\ GlucoseImpact.netCarbs g == 34.3
  /\ GlucoseImpact.absorptionSpeed g = "slow".
Proof. vm_compute. repeat split. Qed.

(** ** Population evaluation: the pipeline and its verdict *)

(** [evaluateAgainstLimits] is its blocks in sequence, then the verdict. *)
Lemma evaluateAgainstLimits_steps (nutrition : Nutrition)
    (targetGroup : string) (productData : Product) (limits : Limits.t) :
  evaluateAgainstLimits nutrition targetGroup productData limits
  = verdict targetGroup (finalState nutrition targetGroup productData limits).
Proof. reflexivity. Qed.

Lemma evaluateNutrient_severity (value : Q) (limits : Tier.t)
    (nutrientName : string) :
  NutrientResult.severity (evaluateNutrient value limits nutrientName)
  = if value <=? Tier.safe limits then 0%Z
    else if value <=? Tier.moderate limits then 20%Z else 40%Z.
Proof.
  unfold evaluateNutrient.
  destruct (value <=? Tier.safe limits), (value <=? Tier.moderate limits);
    reflexivity.
Qed.

(** X12. One nutrient against its three-tier limits: the severity is 0,
    20 or 40 and never falls when the value rises; a note of one kind is
    always produced, a positive one exactly at severity 0 and a warning
    otherwise. *)
Theorem evaluateNutrient_tiers (limits : Tier.t) (nutrientName : string)
    (v1 v2 : Q) :
  v1 <= v2 ->
  let r1 := evaluateNutrient v1 limits nutrientName in
  let r2 := evaluateNutrient v2 limits nutrientName in
  In (NutrientResult.severity r1) [0; 20; 40]%Z
  /\ (NutrientResult.severity r1 <= NutrientResult.severity r2)%Z
  /\ (NutrientResult.positive r1 <> None
      <-> NutrientResult.severity r1 = 0%Z)
  /\ (NutrientResult.warning r1 <> None
      <-> NutrientResult.severity r1 <> 0%Z)
  /\ (NutrientResult.severity r1 = 40%Z
      <-> Tier.safe limits < v1 /\ Tier.moderate limits < v1).
Proof.
  intros Hv r1 r2. subst r1 r2. unfold evaluateNutrient.
  qcases; cbn; repeat split; intros; try tauto; try lia; try lra;
    try discriminate; try (intros ?; discriminate).
Qed.

Lemma evaluateNutrient_tiers_witness :
  In (NutrientResult.severity
        (evaluateNutrient 4 (Limits.sugar PREGNANT_LIMITS) "sugar"))
     [0; 20; 40]%Z.
Proof.
  apply (evaluateNutrient_tiers (Limits.sugar PREGNANT_LIMITS) "sugar" 4 12).
  discriminate.
Defined.

Lemma assessNutrient_severity (value : Q) (limits : Tier.t)
    (nutrientName : string) (b : bool) (e : Eval.t) :
  Eval.severityScore (assessNutrient value limits nutrientName b e)
  = (Eval.severityScore e
     + NutrientResult.severity (evaluateNutrient value limits nutrientName))%Z.
Proof. reflexivity. Qed.

Lemma assessNutrient_grows (value : Q) (limits : Tier.t)
    (nutrientName : string) (b : bool) (e : Eval.t) :
  (Eval.severityScore e
   <= Eval.severityScore (assessNutrient value limits nutrientName b e))%Z.
Proof.
  rewrite assessNutrient_severity, evaluateNutrient_severity.
  destruct (value <=? Tier.safe limits), (value <=? Tier.moderate limits);
    lia.
Qed.

Lemma checkTrigger_grows (nutrition : Nutrition) (productData : Product)
    (entry : string * WarningConfig.t) (e : Eval.t) :
  (Eval.severityScore e
   <= Eval.severityScore (checkTrigger nutrition productData entry e))%Z.
Proof.
  unfold checkTrigger. destruct entry as [key config].
  match goal with
  | |- context [if ?b then _ else _] => destruct b
  end; cbn; lia.
Qed.

Lemma fold_triggers_grows (nutrition : Nutrition) (productData : Product)
    (entries : list (string * WarningConfig.t)) (e : Eval.t) :
  (Eval.severityScore e
   <= Eval.severityScore
        (fold_left (fun e entry => checkTrigger nutrition productData entry e)
                   entries e))%Z.
Proof.
  revert e. induction entries as [|entry entries IH]; intros e; simpl.
  - lia.
  - eapply Z.le_trans; [apply (checkTrigger_grows nutrition productData entry)
                       | apply IH].
Qed.

(** No block lowers the severity score. *)
Lemma steps_grow (nutrition : Nutrition) (targetGroup : string)
    (productData : Product) (limits : Limits.t) (e : Eval.t) :
  (Eval.severityScore e <= Eval.severityScore (stepSugar nutrition limits e)
   /\ Eval.severityScore e <= Eval.severityScore (stepSalt nutrition limits e)
   /\ Eval.severityScore e
      <= Eval.severityScore (stepSaturatedFat nutrition limits e)
   /\ Eval.severityScore e
      <= Eval.severityScore (stepFat nutrition targetGroup limits e)
   /\ Eval.severityScore e
      <= Eval.severityScore
           (stepCaffeine nutrition targetGroup productData limits e)
   /\ Eval.severityScore e
      <= Eval.severityScore (stepRequired nutrition targetGroup limits e)
   /\ Eval.severityScore e
      <= Eval.severityScore (stepEssential nutrition targetGroup limits e)
   /\ Eval.severityScore e <= Eval.severityScore (stepFiber nutrition e)
   /\ Eval.severityScore e
      <= Eval.severityScore (stepTriggers nutrition productData limits e)
   /\ Eval.severityScore e
      <= Eval.severityScore (stepCaution targetGroup productData limits e))%Z.
Proof.
  repeat split.
  - apply assessNutrient_grows.
  - apply assessNutrient_grows.
  - unfold stepSaturatedFat. destruct (Limits.saturatedFat limits);
      [apply assessNutrient_grows | lia].
  - unfold stepFat.
    destruct (String.eqb targetGroup "child"), (Limits.fat limits);
      try lia. apply assessNutrient_grows.
  - unfold stepCaffeine.
    destruct (String.eqb targetGroup "pregnant"), (Limits.caffeine limits);
      try lia.
    cbv zeta. match goal with
    | |- context [if ?b then _ else _] => destruct b
    end; cbn; lia.
  - unfold stepRequired.
    destruct (String.eqb targetGroup "pregnant"),
      (Limits.requiredNutrients limits); cbn; lia.
  - unfold stepEssential.
    destruct (String.eqb targetGroup "child"),
      (Limits.essentialNutrients limits); cbn; lia.
  - unfold stepFiber. destruct (fiber nutrition) as [f|]; [|lia].
    destruct (f >=? 3); cbn; lia.
  - unfold stepTriggers. destruct (Limits.warnings limits);
      [apply fold_triggers_grows | lia].
  - unfold stepCaution.
    destruct (String.eqb targetGroup "child"),
      (Limits.cautionIngredients limits), (ingredients productData);
      try lia.
    destruct (String.eqb s ""); [lia|]. cbv zeta.
    match goal with
    | |- context [if ?b then _ else _] => destruct b
    end; cbn; lia.
Qed.

Lemma finalState_bounds (nutrition : Nutrition) (targetGroup : string)
    (productData : Product) (limits : Limits.t) :
  let e0 := {| Eval.warnings := []; Eval.positives := [];
               Eval.severityScore := 0 |} in
  let e2 := stepSalt nutrition limits (stepSugar nutrition limits e0) in
  let e4 := stepFat nutrition targetGroup limits
              (stepSaturatedFat nutrition limits e2) in
  let e5 := stepCaffeine nutrition targetGroup productData limits e4 in
  let s := Eval.severityScore
             (finalState nutrition targetGroup productData limits) in
  (0 <= Eval.severityScore e2 <= Eval.severityScore e4)%Z
  /\ (Eval.severityScore e4 <= Eval.severityScore e5 <= s)%Z.
Proof.
  intros e0 e2 e4 e5 s. subst s. unfold finalState. fold e0 e2 e4 e5.
  pose proof (steps_grow nutrition targetGroup productData limits) as G.
  pose proof (proj1 (G e0)) as G1.
  pose proof (proj1 (proj2 (G (stepSugar nutrition limits e0)))) as G2.
  fold e2 in G2.
  pose proof (proj1 (proj2 (proj2 (G e2)))) as G3.
  pose proof (proj1 (proj2 (proj2 (proj2
                (G (stepSaturatedFat nutrition limits e2)))))) as G4.
  fold e4 in G4.
  pose proof (proj1 (proj2 (proj2 (proj2 (proj2 (G e4)))))) as G5.
  fold e5 in G5.
  set (e6 := stepRequired nutrition targetGroup limits e5).
  set (e7 := stepEssential nutrition targetGroup limits e6).
  set (e8 := stepFiber nutrition e7).
  set (e9 := stepTriggers nutrition productData limits e8).
  destruct (G e5) as (_ & _ & _ & _ & _ & G6 & _). fold e6 in G6.
  destruct (G e6) as (_ & _ & _ & _ & _ & _ & G7 & _). fold e7 in G7.
  destruct (G e7) as (_ & _ & _ & _ & _ & _ & _ & G8 & _). fold e8 in G8.
  destruct (G e8) as (_ & _ & _ & _ & _ & _ & _ & _ & G9 & _).
  fold e9 in G9.
  destruct (G e9) as (_ & _ & _ & _ & _ & _ & _ & _ & _ & G10).
  cbn [Eval.severityScore e0] in G1. lia.
Qed.

Lemma mem_group (targetGroup : string) :
  mem_string targetGroup ["pregnant"; "child"] = true
  <-> targetGroup = "pregnant" \/ targetGroup = "child".
Proof. rewrite mem_string_In. cbn. intuition congruence. Qed.

Lemma evaluate_valid (nutrition : Nutrition) (targetGroup : string)
    (productData : Product) :
  targetGroup = "pregnant" \/ targetGroup = "child" ->
  evaluateFoodForPopulation (Some nutrition) targetGroup productData
  = if StrictCheck.isViolated
         (checkStrictlyAvoided productData targetGroup (limits_of targetGroup))
    then createAvoidResult targetGroup
           [StrictCheck.message
              (checkStrictlyAvoided productData targetGroup
                                    (limits_of targetGroup))]
           (StrictCheck.explanation
              (checkStrictlyAvoided productData targetGroup
                                    (limits_of targetGroup)))
    else verdict targetGroup
           (finalState nutrition targetGroup productData
                       (limits_of targetGroup)).
Proof.
  intros Hg. rewrite <- evaluateAgainstLimits_steps.
  unfold evaluateFoodForPopulation, limits_of.
  apply mem_group in Hg. rewrite Hg. reflexivity.
Qed.

Lemma verdict_fields (targetGroup : string) (e : Eval.t) :
  Evaluation.severityScore (verdict targetGroup e)
  = Some (Eval.severityScore e)
  /\ Evaluation.suitability (verdict targetGroup e)
     = (if (Eval.severityScore e >=? 80)%Z then "Avoid"
        else if (Eval.severityScore e >=? 40)%Z then "Moderate"
        else "Good Choice")
  /\ Evaluation.warnings (verdict targetGroup e) = Eval.warnings e
  /\ Evaluation.positives (verdict targetGroup e) = Eval.positives e.
Proof.
  unfold verdict. cbv zeta.
  destruct (Eval.severityScore e >=? 80)%Z;
    [|destruct (Eval.severityScore e >=? 40)%Z]; repeat split.
Qed.

(** X13. The evaluation reports "Insufficient Data", with a null
    severity score, exactly when no nutrition object is passed or the
    target group is neither pregnant nor child; nothing else is looked
    at then. *)
Theorem insufficient_data_cases (nutrition : option Nutrition)
    (targetGroup : string) (productData : Product) :
  let r := evaluateFoodForPopulation nutrition targetGroup productData in
  let invalid :=
    nutrition = None
    \/ (targetGroup <> "pregnant" /\ targetGroup <> "child") in
  (invalid -> r = createInsufficientDataResult targetGroup)
  /\ (Evaluation.severityScore r = None -> invalid)
  /\ (Evaluation.suitability r = "Insufficient Data" -> invalid).
Proof.
  intros r invalid. subst r invalid.
  destruct nutrition as [nutrition|].
  2:{ split; [reflexivity|]. split; intros _; now left. }
  destruct (mem_string targetGroup ["pregnant"; "child"]) eqn:Hm.
  - apply mem_group in Hm.
    rewrite (evaluate_valid nutrition targetGroup productData Hm).
    destruct (verdict_fields targetGroup
                (finalState nutrition targetGroup productData
                            (limits_of targetGroup))) as (Vs & Vv & _).
    split; [|split].
    + intros [H | [H1 H2]]; [discriminate|]. destruct Hm; contradiction.
    + destruct (StrictCheck.isViolated _);
        [cbn; discriminate | rewrite Vs; discriminate].
    + destruct (StrictCheck.isViolated _); [cbn; discriminate|].
      rewrite Vv.
      destruct (Eval.severityScore _ >=? 80)%Z; [discriminate|].
      destruct (Eval.severityScore _ >=? 40)%Z; discriminate.
  - assert (Hinv : targetGroup <> "pregnant" /\ targetGroup <> "child").
    { split; intros ->; vm_compute in Hm; discriminate. }
    unfold evaluateFoodForPopulation. rewrite Hm. cbn [negb].
    split; [reflexivity|]. split; intros _; now right.
Qed.

(** X14. For a nutrition object and a known target group the severity
    score is a number, never negative, and it decides the verdict:
    Avoid from 80, Moderate from 40 to 79, Good Choice below 40. *)
Theorem verdict_thresholds (nutrition : Nutrition) (targetGroup : string)
    (productData : Product) :
  targetGroup = "pregnant" \/ targetGroup = "child" ->
  let r := evaluateFoodForPopulation (Some nutrition) targetGroup
                                     productData in
  exists s, Evaluation.severityScore r = Some s
    /\ (0 <= s)%Z
    /\ (Evaluation.suitability r = "Avoid" <-> (80 <= s)%Z)
    /\ (Evaluation.suitability r = "Moderate" <-> (40 <= s < 80)%Z)
    /\ (Evaluation.suitability r = "Good Choice" <-> (s < 40)%Z).
Proof.
  intros Hg r. subst r. rewrite (evaluate_valid _ _ _ Hg).
  destruct (StrictCheck.isViolated _).
  - exists 100%Z. cbn. repeat split; intros; try lia; try reflexivity;
      discriminate.
  - pose proof (finalState_bounds nutrition targetGroup productData
                  (limits_of targetGroup)) as Hb. cbv zeta in Hb.
    set (e := finalState nutrition targetGroup productData
                         (limits_of targetGroup)) in *.
    destruct (verdict_fields targetGroup e) as (Vs & Vv & _).
    exists (Eval.severityScore e). rewrite Vs, Vv.
    destruct (Z.geb_spec (Eval.severityScore e) 80);
      [|destruct (Z.geb_spec (Eval.severityScore e) 40)];
      repeat split; intros; try lia; try reflexivity; discriminate.
Qed.

Lemma verdict_thresholds_witness :
  exists s,
    Evaluation.severityScore
      (evaluateFoodForPopulation
         (Some (facts None (Some 4) None (Some 0.25) (Some 6) (Some 1)))
         "pregnant"
         {| ingredients := Some "wheat flour, sugar"; name := Some "Biscuit";
            allergens := None; nova := None |}) = Some s
    /\ (0 <= s)%Z.
Proof.
  destruct (verdict_thresholds
              (facts None (Some 4) None (Some 0.25) (Some 6) (Some 1))
              "pregnant"
              {| ingredients := Some "wheat flour, sugar";
                 name := Some "Biscuit"; allergens := None; nova := None |}
              (or_introl eq_refl)) as (s & Hs & H0 & _).
  exists s. split; assumption.
Defined.

Example verdict_example :
  let r := evaluateFoodForPopulation
             (Some (facts None (Some 4) None (Some 0.25) (Some 6) (Some 1)))
             "pregnant"
             {| ingredients := Some "wheat flour, sugar";
                name := Some "Biscuit"; allergens := None; nova := None |} in
  Evaluation.severityScore r = Some 40%Z
  /\ Evaluation.suitability r = "Moderate".
Proof. vm_compute. split; reflexivity. Qed.

(** X15. Whatever else the product has, sugar and salt both above the
    group's moderate limit (5 g and 0.3 g for pregnancy, 3 g and 0.2 g
    for children) make the verdict Avoid. *)
Theorem high_sugar_and_salt_avoid (nutrition : Nutrition)
    (targetGroup : string) (productData : Product) :
  targetGroup = "pregnant" \/ targetGroup = "child" ->
  Tier.moderate (Limits.sugar (limits_of targetGroup))
    < js_or (sugar nutrition) 0 ->
  Tier.moderate (Limits.salt (limits_of targetGroup))
    < js_or (salt nutrition) 0 ->
  Evaluation.suitability
    (evaluateFoodForPopulation (Some nutrition) targetGroup productData)
  = "Avoid".
Proof.
  intros Hg Hsugar Hsalt. rewrite (evaluate_valid _ _ _ Hg).
  destruct (StrictCheck.isViolated _); [reflexivity|].
  pose proof (finalState_bounds nutrition targetGroup productData
                (limits_of targetGroup)) as Hb. cbv zeta in Hb.
  destruct (verdict_fields targetGroup
              (finalState nutrition targetGroup productData
                          (limits_of targetGroup))) as (_ & -> & _).
  assert (H80 : Eval.severityScore
                  (stepSalt nutrition (limits_of targetGroup)
                     (stepSugar nutrition (limits_of targetGroup)
                        {| Eval.warnings := []; Eval.positives := [];
                           Eval.severityScore := 0 |})) = 80%Z).
  { unfold stepSalt, stepSugar.
    rewrite !assessNutrient_severity, !evaluateNutrient_severity.
    cbn [Eval.severityScore].
    destruct Hg as [-> | ->]; cbn in Hsugar, Hsalt |- *;
      unfold Qleb;
      repeat match goal with
      | |- context [Qle_bool ?a ?b] =>
          let E := fresh "E" in
          destruct (Qle_bool a b) eqn:E;
          [apply Qle_bool_iff in E; lra | clear E]
      end; reflexivity. }
  rewrite H80 in Hb.
  destruct (Z.geb_spec
              (Eval.severityScore
                 (finalState nutrition targetGroup productData
                             (limits_of targetGroup))) 80);
    [reflexivity | lia].
Qed.

Lemma high_sugar_and_salt_avoid_witness :
  Evaluation.suitability
    (evaluateFoodForPopulation
       (Some (facts None (Some 6) None (Some 0.4) (Some 12) (Some 8)))
       "child"
       {| ingredients := Some "oats"; name := None; allergens := None;
          nova := None |})
  = "Avoid".
Proof.
  apply high_sugar_and_salt_avoid;
    [right; reflexivity | reflexivity | reflexivity].
Defined.

Lemma detect_caffeine_words (s : string) :
  (exists word, In word caffeine_words
                /\ includes (toLowerCase s) word = true) ->
  30 <= detectCaffeineFromIngredients (Some s).
Proof.
  intros (word & Hin & Hw). unfold detectCaffeineFromIngredients.
  destruct (String.eqb_spec s "") as [-> | _].
  - cbn in Hin. decompose [or] Hin; subst; try contradiction;
      vm_compute in Hw; discriminate.
  - cbv zeta.
    destruct (includes (toLowerCase s) "coffee") eqn:E1; [lra|].
    destruct (includes (toLowerCase s) "espresso") eqn:E2; [lra|].
    destruct (includes (toLowerCase s) "tea") eqn:E3; [cbn; lra|].
    cbn [orb].
    cbn in Hin. decompose [or] Hin; subst; try contradiction; congruence.
Qed.

(** An energy drink with cocoa is estimated at 10 mg only. *)
Example detect_caffeine_energy_cocoa :
  detectCaffeineFromIngredients (Some "Energy drink with cocoa") == 10.
Proof. vm_compute. reflexivity. Qed.

(** X16. For the pregnant group a product is never a "Good Choice"
    when more than 20 mg of caffeine is declared, or when none is
    declared and the ingredients mention coffee, espresso or tea: the
    severity score is then at least 50. *)
Theorem caffeine_never_good (nutrition : Nutrition) (productData : Product) :
  (exists c, caffeine nutrition = Some c /\ 20 < c)
  \/ (js_or (caffeine nutrition) 0 == 0
      /\ exists s word, ingredients productData = Some s
           /\ In word caffeine_words
           /\ includes (toLowerCase s) word = true) ->
  let r := evaluateFoodForPopulation (Some nutrition) "pregnant"
                                     productData in
  In (Evaluation.suitability r) ["Avoid"; "Moderate"]
  /\ exists s, Evaluation.severityScore r = Some s /\ (50 <= s)%Z.
Proof.
  intros Hc r. subst r.
  rewrite (evaluate_valid _ _ _ (or_introl eq_refl)).
  destruct (StrictCheck.isViolated _).
  { split; [now left | exists 100%Z; split; [reflexivity | lia]]. }
  pose proof (finalState_bounds nutrition "pregnant" productData
                (limits_of "pregnant")) as Hb. cbv zeta in Hb.
  destruct (verdict_fields "pregnant"
              (finalState nutrition "pregnant" productData
                          (limits_of "pregnant"))) as (-> & -> & _).
  set (e4 := stepFat nutrition "pregnant" (limits_of "pregnant") _) in Hb.
  assert (H50 : Eval.severityScore
                  (stepCaffeine nutrition "pregnant" productData
                                (limits_of "pregnant") e4)
                = (Eval.severityScore e4 + 50)%Z).
  { unfold stepCaffeine.
    change (String.eqb "pregnant" "pregnant") with true.
    change (Limits.caffeine (limits_of "pregnant"))
      with (Limits.caffeine PREGNANT_LIMITS).
    cbn [Limits.caffeine PREGNANT_LIMITS]. cbv zeta. cbn [Tier.moderate].
    assert (Hamount : 20 < js_or (caffeine nutrition)
              (detectCaffeineFromIngredients (ingredients productData))).
    { destruct Hc as [(c & Hc & Hgt) | (H0 & s & word & Hs & Hin & Hw)].
      - rewrite Hc. cbn [js_or].
        destruct (Qeq_bool c 0) eqn:E; [|exact Hgt].
        apply Qeq_bool_iff in E. lra.
      - rewrite Hs.
        pose proof (detect_caffeine_words s
                      (ex_intro _ word (conj Hin Hw))) as Hd.
        unfold js_or in H0 |- *.
        destruct (caffeine nutrition) as [c|]; [|lra].
        destruct (Qeq_bool c 0) eqn:E; [lra|].
        apply Qeq_bool_neq in E. contradiction. }
    apply Qgtb_true in Hamount. rewrite Hamount. reflexivity. }
  rewrite H50 in Hb.
  set (s := Eval.severityScore (finalState _ _ _ _)) in *.
  split.
  - destruct (Z.geb_spec s 80); [now left|].
    destruct (Z.geb_spec s 40); [right; now left | lia].
  - exists s. split; [reflexivity | lia].
Qed.

Lemma caffeine_never_good_witness :
  In (Evaluation.suitability
        (evaluateFoodForPopulation
           (Some (facts (Some 40) (Some 1) None (Some 0.1) (Some 6) (Some 4)))
           "pregnant"
           {| ingredients := Some "Water, Green Tea extract";
              name := Some "Iced drink"; allergens := None;
              nova := None |}))
     ["Avoid"; "Moderate"].
Proof.
  apply (caffeine_never_good
           (facts (Some 40) (Some 1) None (Some 0.1) (Some 6) (Some 4))
           {| ingredients := Some "Water, Green Tea extract";
              name := Some "Iced drink"; allergens := None; nova := None |}).
  right. split; [reflexivity|].
  exists "Water, Green Tea extract", "tea".
  split; [reflexivity|]. split; [cbn; tauto | reflexivity].
Defined.

(** ** Daily values: the summary and the gender key *)

Lemma In_map_fst_filter {B : Type} (f : string * B -> bool)
    (g : string -> B) (l : list string) (x : string) :
  In x (map fst (filter f (map (fun n => (n, g n)) l)))
  <-> In x l /\ f (x, g x) = true.
Proof.
  rewrite in_map_iff. split.
  - intros ([n b] & Hfst & Hin). cbn in Hfst. subst n.
    apply filter_In in Hin. destruct Hin as [Hin Hf].
    apply in_map_iff in Hin. destruct Hin as (n & Hn & Hl).
    injection Hn as -> <-. now split.
  - intros [Hin Hf]. exists (x, g x). split; [reflexivity|].
    apply filter_In. split; [|exact Hf].
    apply in_map_iff. now exists x.
Qed.

Lemma limit_category_high (nutrient : string) (p : Z) :
  In nutrient limitNutrients ->
  In (Category.name (categorizeDailyValue (Some p) nutrient))
     ["High"; "Very High"]
  <-> pct_ge (Some p) 30 = true.
Proof.
  intros Hn. unfold categorizeDailyValue.
  assert (Hneg : mem_string nutrient positiveNutrients = false)
    by (cbn in Hn; decompose [or] Hn; subst; try contradiction; reflexivity).
  rewrite Hneg. unfold pct_ge. rewrite Z.geb_le.
  zcases; cbn; intuition (try discriminate; try lia).
Qed.

Lemma positive_category (nutrient : string) (p : Z) :
  In nutrient positiveNutrients ->
  (Category.name (categorizeDailyValue (Some p) nutrient) = "Low"
   <-> pct_lt (Some p) 10 = true)
  /\ (pct_ge (Some p) 30 = true ->
      In (Category.name (categorizeDailyValue (Some p) nutrient))
         ["High"; "Excellent"]).
Proof.
  intros Hn. unfold categorizeDailyValue.
  apply mem_string_In in Hn. rewrite Hn. unfold pct_ge, pct_lt.
  rewrite Z.ltb_lt, Z.geb_le.
  zcases; cbn; intuition (try discriminate; try lia).
Qed.

(** X17. The summary agrees with the categories: a limit nutrient
    (sugar, fat, salt, calories) is listed as high exactly when its
    category is High or Very High, protein or fiber is listed as low
    exactly when its category is Low, no limit nutrient is ever listed
    as low, and protein or fiber listed as high is High or Excellent. *)
Theorem summary_matches_categories (nutrition : Nutrition)
    (options : Options) (nutrient : string) :
  In nutrient (positiveNutrients ++ limitNutrients) ->
  let a := calculateAllDailyValues nutrition options in
  let dv := calculateDailyValue (js_or (nutrition_get nutrition nutrient) 0)
                                nutrient options in
  let high := DVSummary.highNutrients (AllDailyValues.summary a) in
  let low := DVSummary.lowNutrients (AllDailyValues.summary a) in
  dv_lookup a nutrient = Some dv
  /\ (In nutrient limitNutrients ->
      (In nutrient high
       <-> In (DailyValue.category dv) ["High"; "Very High"])
      /\ (In nutrient low -> False))
  /\ (In nutrient positiveNutrients ->
      (In nutrient low <-> DailyValue.category dv = "Low")
      /\ (In nutrient high ->
          In (DailyValue.category dv) ["High"; "Excellent"])).
Proof.
  intros Hn a dv high low.
  destruct (target_positive options nutrient Hn) as (t & Ht & Hp).
  specialize (Hp (js_or (nutrition_get nutrition nutrient) 0)).
  destruct Hp as [_ Hp]. fold dv in Hp.
  assert (Hcat : DailyValue.category dv
                 = Category.name
                     (categorizeDailyValue (DailyValue.percentage dv)
                                           nutrient)) by reflexivity.
  assert (Hsix : In nutrient
                   ["calories"; "sugar"; "fat"; "salt"; "protein"; "fiber"]).
  { cbn in Hn |- *. tauto. }
  assert (Hhigh : In nutrient high
                  <-> pct_ge (DailyValue.percentage dv) 30 = true).
  { subst high a. unfold calculateAllDailyValues. cbv zeta.
    cbn [AllDailyValues.summary DVSummary.highNutrients].
    rewrite (In_map_fst_filter
               (fun e => pct_ge (DailyValue.percentage (snd e)) 30)
               (fun n => calculateDailyValue
                           (js_or (nutrition_get nutrition n) 0) n options)).
    cbn [snd]. fold dv. tauto. }
  assert (Hlow : In nutrient low
                 <-> mem_string nutrient ["protein"; "fiber"] = true
                     /\ pct_lt (DailyValue.percentage dv) 10 = true).
  { subst low a. unfold calculateAllDailyValues. cbv zeta.
    cbn [AllDailyValues.summary DVSummary.lowNutrients].
    rewrite (In_map_fst_filter
               (fun e => mem_string (fst e) ["protein"; "fiber"]
                         && pct_lt (DailyValue.percentage (snd e)) 10)
               (fun n => calculateDailyValue
                           (js_or (nutrition_get nutrition n) 0) n options)).
    cbn [fst snd]. fold dv. rewrite andb_true_iff. tauto. }
  split; [|split].
  - subst a dv. cbn in Hsix. decompose [or] Hsix; subst;
      try contradiction; reflexivity.
  - intros Hl. split.
    + rewrite Hhigh, Hcat, Hp. symmetry. now apply limit_category_high.
    + intros H. apply Hlow in H. destruct H as [H _].
      cbn in Hl. decompose [or] Hl; subst; try contradiction;
        discriminate.
  - intros Hpos. rewrite Hhigh, Hlow, Hcat, Hp.
    destruct (positive_category nutrient
                (Math_round
                   (js_or (nutrition_get nutrition nutrient) 0 / t * 100))
                Hpos) as [P1 P2].
    split; [|exact P2].
    rewrite P1. apply mem_string_In in Hpos.
    change (mem_string nutrient ["protein"; "fiber"])
      with (mem_string nutrient positiveNutrients).
    rewrite Hpos. tauto.
Qed.

Lemma summary_matches_categories_witness :
  dv_lookup
    (calculateAllDailyValues
       (facts (Some 350) (Some 15) (Some 20) (Some 0.8) (Some 10) (Some 5))
       no_options) "sugar"
  = Some (calculateDailyValue
            (js_or (nutrition_get
                      (facts (Some 350) (Some 15) (Some 20) (Some 0.8)
                             (Some 10) (Some 5)) "sugar") 0)
            "sugar" no_options).
Proof.
  exact (proj1 (summary_matches_categories
                  (facts (Some 350) (Some 15) (Some 20) (Some 0.8) (Some 10)
                         (Some 5)) no_options "sugar"
                  (or_intror (or_intror (or_introl eq_refl))))).
Defined.

Example summary_example :
  let a := calculateAllDailyValues
             (facts (Some 350) (Some 15) (Some 20) (Some 0.8) (Some 10)
                    (Some 5)) no_options in
  DVSummary.highNutrients (AllDailyValues.summary a) = ["sugar"]
  /\ DVSummary.lowNutrients (AllDailyValues.summary a) = []
  /\ DVSummary.averagePercentage (AllDailyValues.summary a) = Some 21%Z
  /\ DVSummary.genderSymbol (AllDailyValues.summary a) = "♂".
Proof. vm_compute. repeat split. Qed.


Example gender_key_example :
  DailyValue.percentage
    (calculateDailyValue 25 "sugar" (with_gender no_options (Some "female")))
  = Some 100%Z
  /\ DailyValue.percentage
       (calculateDailyValue 25 "sugar" (with_gender no_options (Some "other")))
     = Some 69%Z
  /\ DailyValue.percentage
       (calculateDailyValue 25 "sugar"
                            (with_gender no_options (Some "athlete")))
     = Some 25%Z.
Proof. vm_compute. repeat split. Qed.

(** ** API integration helpers *)

(** X19. Data quality is excellent exactly when no issue is found,
    poor exactly when calories are 0, or sugar, fat and protein are all
    0, or sugar exceeds 100 g, and good exactly when the only issue is
    calories above 900; at most three issues are ever listed. *)
Theorem data_quality_cases (nutrition : Extracted.t) :
  let q := assessDataQuality nutrition in
  let poor :=
    Extracted.calories nutrition == 0
    \/ (Extracted.sugar nutrition == 0 /\ Extracted.fat nutrition == 0
        /\ Extracted.protein nutrition == 0)
    \/ 100 < Extracted.sugar nutrition in
  (DataQuality.quality q = "excellent" <-> DataQuality.issues q = [])
  /\ (DataQuality.quality q = "poor" <-> poor)
  /\ (DataQuality.quality q = "good"
      <-> (poor -> False) /\ 900 < Extracted.calories nutrition)
  /\ (DataQuality.quality q = "excellent"
      <-> (poor -> False) /\ Extracted.calories nutrition <= 900)
  /\ (List.length (DataQuality.issues q) <= 3)%nat.
Proof.
  intros q poor. subst q poor. unfold assessDataQuality.
  destruct (Qeq_bool (Extracted.calories nutrition) 0) eqn:Ec;
    [apply Qeq_bool_iff in Ec | apply Qeq_bool_neq in Ec];
  (destruct (Qeq_bool (Extracted.sugar nutrition) 0) eqn:Es;
    [apply Qeq_bool_iff in Es | apply Qeq_bool_neq in Es]);
  (destruct (Qeq_bool (Extracted.fat nutrition) 0) eqn:Ef;
    [apply Qeq_bool_iff in Ef | apply Qeq_bool_neq in Ef]);
  (destruct (Qeq_bool (Extracted.protein nutrition) 0) eqn:Ep;
    [apply Qeq_bool_iff in Ep | apply Qeq_bool_neq in Ep]);
  (destruct (Extracted.calories nutrition >? 900) eqn:E9;
    [apply Qgtb_true in E9 | apply Qgtb_false in E9]);
  (destruct (Extracted.sugar nutrition >? 100) eqn:E1;
    [apply Qgtb_true in E1 | apply Qgtb_false in E1]);
  try (exfalso; lra);
  cbn;
  (split; [|split; [|split; [|split]]]);
  try lia;
  (split; intros H; try reflexivity; try discriminate;
   first
     [ tauto
     | exfalso; destruct H as [H1 | [(H1 & H2 & H3) | H1]];
       first [contradiction | lra]
     | exfalso;
       match type of H with
       | _ /\ _ => destruct H as [H0 H9]; first [lra | apply H0; tauto]
       end
     | split; [|lra];
       intros [H1 | [(H1 & H2 & H3) | H1]]; first [contradiction | lra] ]).
Qed.

Example data_quality_example :
  DataQuality.quality
    (assessDataQuality
       (extractNutritionData
          {| ApiProduct.product_name := Some "Mystery bar";
             ApiProduct.brands := None; ApiProduct.ingredients_text := None;
             ApiProduct.image_url := None; ApiProduct.categories := None;
             ApiProduct.nutriscore_grade := None;
             ApiProduct.allergens_tags := None;
             ApiProduct.nutriments := None |})) = "poor".
Proof. reflexivity. Qed.

Lemma fold_checks (checks : list bool) (score : Z) :
  fold_left (fun (score : Z) (check : bool) =>
               if check then (score + 10)%Z else score) checks score
  = (score + 10 * Z.of_nat (List.length (filter (fun b => b) checks)))%Z.
Proof.
  revert score. induction checks as [|b l IH]; intros score; cbn [fold_left].
  - cbn. lia.
  - rewrite IH. destruct b; cbn [filter List.length]; lia.
Qed.

Lemma filter_length_all (l : list bool) :
  List.length (filter (fun b => b) l) = List.length l <-> forallb (fun b => b) l = true.
Proof.
  induction l as [|b l IH]; cbn [filter forallb List.length].
  - tauto.
  - pose proof (filter_length_le (fun b => b) l) as Hle.
    destruct b; cbn [List.length andb].
    + rewrite <- IH. lia.
    + split; [lia | discriminate].
Qed.

(** X20. The completeness score is a multiple of 10 between 0 and 100;
    a product without nutriments scores at most 60; and the score is 100
    exactly when all ten checked fields are present (a number counts as
    present even when it is 0, a string only when it is not empty). *)
Theorem completeness_range (apiProduct : ApiProduct.t) :
  let c := calculateCompleteness apiProduct in
  (0 <= c <= 100)%Z
  /\ (c mod 10 = 0)%Z
  /\ (ApiProduct.nutriments apiProduct = None -> (c <= 60)%Z)
  /\ (c = 100%Z <->
      present_string (ApiProduct.product_name apiProduct) = true
      /\ present_string (ApiProduct.brands apiProduct) = true
      /\ present_string (ApiProduct.ingredients_text apiProduct) = true
      /\ present_string (ApiProduct.image_url apiProduct) = true
      /\ present_number (nutriment apiProduct Nutriments.energy_kcal_100g) = true
      /\ present_number (nutriment apiProduct Nutriments.sugars_100g) = true
      /\ present_number (nutriment apiProduct Nutriments.fat_100g) = true
      /\ present_number (nutriment apiProduct Nutriments.proteins_100g) = true
      /\ present_string (ApiProduct.categories apiProduct) = true
      /\ present_string (ApiProduct.nutriscore_grade apiProduct) = true).
Proof.
  intros c. subst c. unfold calculateCompleteness.
  cbv zeta. rewrite fold_checks.
  set (checks := [_; _; _; _; _; _; _; _; _; _]).
  pose proof (filter_length_le (fun b => b) checks) as Hle.
  pose proof (filter_length_all checks) as Hall.
  change (List.length checks) with 10%nat in Hle, Hall.
  set (k := List.length (filter (fun b => b) checks)) in *.
  split; [lia|]. split.
  { assert (Hk : (k <= 10)%nat) by exact Hle.
    replace (Z.min 100 (0 + 10 * Z.of_nat k))%Z with (Z.of_nat k * 10)%Z by lia.
    apply Z.mod_mul. lia. }
  split.
  { intros Hn. subst k checks. unfold nutriment. rewrite Hn. cbn [present_number].
    destruct (present_string (ApiProduct.product_name apiProduct)),
             (present_string (ApiProduct.brands apiProduct)),
             (present_string (ApiProduct.ingredients_text apiProduct)),
             (present_string (ApiProduct.image_url apiProduct)),
             (present_string (ApiProduct.categories apiProduct)),
             (present_string (ApiProduct.nutriscore_grade apiProduct));
      cbn; lia. }
  transitivity (k = 10%nat); [lia|]. rewrite Hall. subst checks.
  cbn [forallb]. rewrite !andb_true_iff. tauto.
Qed.

Lemma isValidBarcode_eq (s : codeunits) :
  isValidBarcode (Some s)
  = let cleaned := filter (fun c => negb (is_whitespace c)) s in
    forallb is_digit cleaned
    && (8 <=? List.length cleaned)%nat
    && (List.length cleaned <=? 14)%nat.
Proof. destruct s; reflexivity. Qed.

(** X21. White space anywhere in a barcode does not change whether it
    is valid. *)
Theorem barcode_spaces_ignored (a b : codeunits) (w : N) :
  is_whitespace w = true ->
  isValidBarcode (Some (a ++ w :: b)) = isValidBarcode (Some (a ++ b)).
Proof.
  intros Hw. rewrite !isValidBarcode_eq. cbv zeta.
  rewrite !filter_app. cbn [filter]. rewrite Hw. reflexivity.
Qed.

Lemma barcode_spaces_ignored_witness :
  isValidBarcode (Some [49; 50; 51; 52; 32; 53; 54; 55; 56]%N)
  = isValidBarcode (Some [49; 50; 51; 52; 53; 54; 55; 56]%N).
Proof.
  exact (barcode_spaces_ignored [49; 50; 51; 52]%N [53; 54; 55; 56]%N 32%N
           eq_refl).
Defined.

Lemma digit_not_whitespace (c : N) :
  is_digit c = true -> is_whitespace c = false.
Proof.
  unfold is_digit, is_whitespace. rewrite andb_true_iff, !N.leb_le.
  intros [H1 H2]. cbn [existsb].
  repeat (match goal with
          | |- context [N.eqb c ?n] =>
              destruct (N.eqb_spec c n) as [Heq | _]; [lia|]
          end).
  reflexivity.
Qed.

Lemma cleaned_digits (s : codeunits) :
  Forall (fun c => is_whitespace c = true \/ is_digit c = true) s ->
  filter (fun c => negb (is_whitespace c)) s = filter is_digit s.
Proof.
  induction 1 as [|c s Hc _ IH]; [reflexivity|].
  cbn [filter]. rewrite IH.
  destruct Hc as [Hw | Hd].
  - rewrite Hw. cbn [negb].
    destruct (is_digit c) eqn:Hd; [|reflexivity].
    apply digit_not_whitespace in Hd. congruence.
  - rewrite Hd, (digit_not_whitespace c Hd). reflexivity.
Qed.

Lemma valid_barcode_chars (s : codeunits) :
  isValidBarcode (Some s) = true ->
  Forall (fun c => is_whitespace c = true \/ is_digit c = true) s.
Proof.
  rewrite isValidBarcode_eq. cbv zeta.
  rewrite !andb_true_iff, forallb_forall. intros [[Hall _] _].
  apply Forall_forall. intros c Hc.
  destruct (is_whitespace c) eqn:Hw; [now left|right].
  apply Hall, filter_In. rewrite Hw. now split.
Qed.

(** X22. A string is a valid barcode exactly when each of its
    characters is white space or a digit and it has between 8 and 14
    digits. *)
Theorem barcode_valid_shape (s : codeunits) :
  isValidBarcode (Some s) = true
  <-> Forall (fun c => is_whitespace c = true \/ is_digit c = true) s
      /\ (8 <= List.length (filter is_digit s) <= 14)%nat.
Proof.
  split.
  - intros Hv. pose proof (valid_barcode_chars s Hv) as HF.
    split; [exact HF|]. rewrite <- (cleaned_digits s HF).
    rewrite isValidBarcode_eq in Hv. cbv zeta in Hv.
    rewrite !andb_true_iff, !Nat.leb_le in Hv. lia.
  - intros [HF Hlen]. rewrite isValidBarcode_eq. cbv zeta.
    rewrite (cleaned_digits s HF), !andb_true_iff, !Nat.leb_le, forallb_forall.
    repeat split; try lia.
    intros c Hc. now apply filter_In in Hc.
Qed.

Lemma Map_get_set_same {V : Type} (key : string) (v : V) (m : list (string * V)) :
  Map_get key (Map_set key v m) = Some v.
Proof.
  induction m as [|[k v0] m IH]; cbn [Map_set Map_get].
  - now rewrite String.eqb_refl.
  - destruct (String.eqb k key) eqn:E; cbn [Map_get]; now rewrite E.
Qed.

Lemma Map_get_set_other {V : Type} (key key' : string) (v : V)
    (m : list (string * V)) :
  key' <> key -> Map_get key' (Map_set key v m) = Map_get key' m.
Proof.
  intros Hne. induction m as [|[k v0] m IH]; cbn [Map_set Map_get].
  - destruct (String.eqb_spec key key'); [congruence|reflexivity].
  - destruct (String.eqb_spec k key) as [->|Hk]; cbn [Map_get].
    + destruct (String.eqb_spec key key'); [congruence|reflexivity].
    + now rewrite IH.
Qed.

Lemma Map_get_delete_same {V : Type} (key : string) (m : list (string * V)) :
  Map_get key (Map_delete key m) = None.
Proof.
  unfold Map_delete. induction m as [|[k v0] m IH]; cbn [filter Map_get fst].
  - reflexivity.
  - destruct (String.eqb k key) eqn:E; cbn [negb Map_get]; [exact IH|].
    now rewrite E.
Qed.

Lemma Map_get_delete_other {V : Type} (key key' : string)
    (m : list (string * V)) :
  key' <> key -> Map_get key' (Map_delete key m) = Map_get key' m.
Proof.
  intros Hne. unfold Map_delete.
  induction m as [|[k v0] m IH]; cbn [filter Map_get fst]; [reflexivity|].
  destruct (String.eqb_spec k key) as [->|Hk]; cbn [negb Map_get].
  - destruct (String.eqb_spec key key'); [congruence|exact IH].
  - now rewrite IH.
Qed.

(** X23. Data stored in the cache is returned by a read of the same
    key no later than [CACHE_DURATION] after it was stored, and that read
    leaves the cache as it is; storing under one key does not change what
    a read of another key returns. *)
Theorem cache_round_trip {A : Type} (apiCache : Cache A) (stored now : Z)
    (key : string) (data : A) :
  (now - stored <= CACHE_DURATION)%Z ->
  let apiCache' := setCachedData apiCache stored key data in
  getCachedData apiCache' now key = (Some data, apiCache')
  /\ (forall key', key' <> key ->
        fst (getCachedData apiCache' now key')
        = fst (getCachedData apiCache now key')).
Proof.
  intros Hage apiCache'. subst apiCache'. unfold getCachedData, setCachedData.
  split.
  - rewrite Map_get_set_same. cbn [CacheEntry.timestamp CacheEntry.data].
    destruct (Z.gtb_spec (now - stored) CACHE_DURATION); [lia|reflexivity].
  - intros key' Hne. rewrite (Map_get_set_other key key' _ apiCache Hne).
    destruct (Map_get key' apiCache) as [cached|]; [|reflexivity].
    destruct (_ >? _)%Z; reflexivity.
Qed.

Lemma cache_round_trip_witness :
  (1000 - 0 <= CACHE_DURATION)%Z
  /\ getCachedData (setCachedData [] 0 "product_123" 7%Z) 1000 "product_123"
     = (Some 7%Z, setCachedData [] 0 "product_123" 7%Z).
Proof.
  split; [vm_compute; discriminate|].
  refine (proj1 (cache_round_trip [] 0 1000 "product_123" 7%Z _)).
  vm_compute; discriminate.
Defined.

(** X24. A read later than [CACHE_DURATION] after the data was stored
    returns nothing and removes the entry, so every later read of the key
    returns nothing as well and changes nothing more; reads of the other
    keys return what they returned before the data was stored. *)
Theorem cache_expiry {A : Type} (apiCache : Cache A) (stored now : Z)
    (key : string) (data : A) :
  (CACHE_DURATION < now - stored)%Z ->
  let apiCache' := setCachedData apiCache stored key data in
  let apiCache'' := snd (getCachedData apiCache' now key) in
  fst (getCachedData apiCache' now key) = None
  /\ (forall later, getCachedData apiCache'' later key = (None, apiCache''))
  /\ (forall later key', key' <> key ->
        fst (getCachedData apiCache'' later key')
        = fst (getCachedData apiCache later key')).
Proof.
  intros Hage apiCache' apiCache''. subst apiCache'' apiCache'.
  unfold setCachedData.
  assert (Hget : forall c : Cache A,
             getCachedData
               (Map_set key {| CacheEntry.data := data;
                               CacheEntry.timestamp := stored |} c) now key
             = (None, Map_delete key
                        (Map_set key {| CacheEntry.data := data;
                                        CacheEntry.timestamp := stored |} c))).
  { intros c. unfold getCachedData. rewrite Map_get_set_same.
    cbn [CacheEntry.timestamp CacheEntry.data].
    destruct (Z.gtb_spec (now - stored) CACHE_DURATION); [reflexivity|lia]. }
  rewrite Hget. cbn [fst snd]. split; [reflexivity|]. split.
  - intros later. unfold getCachedData.
    now rewrite Map_get_delete_same.
  - intros later key' Hne. unfold getCachedData.
    rewrite (Map_get_delete_other key key' _ Hne).
    rewrite (Map_get_set_other key key' _ apiCache Hne).
    destruct (Map_get key' apiCache) as [cached|]; [|reflexivity].
    destruct (_ >? _)%Z; reflexivity.
Qed.

Lemma cache_expiry_witness :
  (CACHE_DURATION < 86400001 - 0)%Z
  /\ fst (getCachedData (setCachedData [] 0 "product_123" 7%Z) 86400001
            "product_123") = None.
Proof.
  split; [vm_compute; reflexivity|].
  refine (proj1 (cache_expiry [] 0 86400001 "product_123" 7%Z _)).
  vm_compute; reflexivity.
Defined.

Lemma includes_trans (s t u : string) :
  includes s t = true -> includes t u = true -> includes s u = true.
Proof.
  rewrite !includes_iff. intros (a & b & ->) (a' & b' & ->).
  exists (a +++ a'), (b' +++ b).
  induction a as [|c a IH]; cbn [String.append].
  - induction a' as [|c a' IH']; cbn [String.append].
    + induction u as [|c u IHu]; cbn [String.append]; [reflexivity|].
      now rewrite IHu.
    + now rewrite IH'.
  - now rewrite IH.
Qed.

Lemma In_extractAllergens (apiProduct : ApiProduct.t) (tags : list string)
    (allergen tag t : string) (ts : list string) :
  ApiProduct.allergens_tags apiProduct = Some tags ->
  In (allergen, ts) allergenMap -> In t ts -> In tag tags ->
  includes tag t = true ->
  In allergen (extractAllergens apiProduct).
Proof.
  intros Htags Hmap Ht Htag Hinc. unfold extractAllergens. rewrite Htags.
  apply in_map_iff. exists (allergen, ts). split; [reflexivity|].
  apply filter_In. split; [exact Hmap|]. cbn [snd].
  apply existsb_exists. exists tag. split; [exact Htag|].
  apply existsb_exists. exists t. now split.
Qed.

(** X25. A product with an allergen tag that contains the word
    shellfish is reported with the allergen fish as well as shellfish,
    because the tag also contains the word fish. *)
Theorem shellfish_tag_reports_fish (apiProduct : ApiProduct.t)
    (tags : list string) (tag : string) :
  ApiProduct.allergens_tags apiProduct = Some tags ->
  In tag tags ->
  includes tag "shellfish" = true ->
  In "fish" (extractAllergens apiProduct)
  /\ In "shellfish" (extractAllergens apiProduct).
Proof.
  intros Htags Htag Hinc. split.
  - apply (In_extractAllergens apiProduct tags "fish" tag "fish" ["fish"]);
      try assumption; [cbn; tauto | cbn; tauto |].
    apply (includes_trans tag "shellfish" "fish" Hinc). reflexivity.
  - apply (In_extractAllergens apiProduct tags "shellfish" tag "shellfish"
             ["crustaceans"; "shellfish"]);
      try assumption; cbn; tauto.
Qed.

Lemma shellfish_tag_reports_fish_witness :
  In "fish"
     (extractAllergens
        {| ApiProduct.product_name := None; ApiProduct.brands := None;
          ApiProduct.ingredients_text := None; ApiProduct.image_url := None;
          ApiProduct.categories := None; ApiProduct.nutriscore_grade := None;
          ApiProduct.allergens_tags := Some ["en:shellfish"];
          ApiProduct.nutriments := None |})
  /\ In "shellfish"
        (extractAllergens
           {| ApiProduct.product_name := None; ApiProduct.brands := None;
             ApiProduct.ingredients_text := None; ApiProduct.image_url := None;
             ApiProduct.categories := None; ApiProduct.nutriscore_grade := None;
             ApiProduct.allergens_tags := Some ["en:shellfish"];
             ApiProduct.nutriments := None |}).
Proof.
  exact (shellfish_tag_reports_fish
           {| ApiProduct.product_name := None; ApiProduct.brands := None;
            ApiProduct.ingredients_text := None; ApiProduct.image_url := None;
            ApiProduct.categories := None; ApiProduct.nutriscore_grade := None;
            ApiProduct.allergens_tags := Some ["en:shellfish"];
            ApiProduct.nutriments := None |}
           ["en:shellfish"] "en:shellfish"
           eq_refl (or_introl eq_refl) eq_refl).
Defined.

(** ** Camera scanner *)

Lemma validateEAN13_13 (c0 c1 c2 c3 c4 c5 c6 c7 c8 c9 c10 c11 c12 : N) :
  let d := fun c : N => (Z.of_N c - 48)%Z in
  Scanner.validateEAN13 [c0; c1; c2; c3; c4; c5; c6; c7; c8; c9; c10; c11; c12]
  = forallb is_digit [c0; c1; c2; c3; c4; c5; c6; c7; c8; c9; c10; c11; c12]
    && (((d c0 + 3 * d c1 + d c2 + 3 * d c3 + d c4 + 3 * d c5 + d c6
          + 3 * d c7 + d c8 + 3 * d c9 + d c10 + 3 * d c11 + d c12)
         mod 10) =? 0)%Z.
Proof.
  intros d. subst d. unfold Scanner.validateEAN13.
  cbn [List.length Nat.eqb negb seq fold_left nth_error Scanner.parseInt
       forallb Nat.even].
  destruct (is_digit c0) eqn:H0; [|reflexivity].
  destruct (is_digit c1) eqn:H1; [|reflexivity].
  destruct (is_digit c2) eqn:H2; [|reflexivity].
  destruct (is_digit c3) eqn:H3; [|reflexivity].
  destruct (is_digit c4) eqn:H4; [|reflexivity].
  destruct (is_digit c5) eqn:H5; [|reflexivity].
  destruct (is_digit c6) eqn:H6; [|reflexivity].
  destruct (is_digit c7) eqn:H7; [|reflexivity].
  destruct (is_digit c8) eqn:H8; [|reflexivity].
  destruct (is_digit c9) eqn:H9; [|reflexivity].
  destruct (is_digit c10) eqn:H10; [|reflexivity].
  destruct (is_digit c11) eqn:H11; [|reflexivity].
  destruct (is_digit c12) eqn:H12; [|reflexivity].
  cbn [option_map pct_add andb].
  unfold is_digit in *.
  repeat match goal with
         | H : (_ && _)%bool = true |- _ =>
             apply andb_true_iff in H; destruct H as [? ?]
         | H : (_ <=? _)%N = true |- _ => apply N.leb_le in H
         end.
  apply eq_true_iff_eq. rewrite !Z.eqb_eq.
  match goal with
  | |- context [Z.rem ?s 10] =>
      match s with
      | context [Z.rem] => fail 1
      | _ => set (sum := s)
      end
  end.
  assert (Hsum : (0 <= sum)%Z) by (subst sum; lia).
  rewrite (Z.rem_mod_nonneg sum 10) by lia.
  pose proof (Z.mod_pos_bound sum 10 eq_refl) as Hb.
  rewrite (Z.rem_mod_nonneg _ 10) by lia.
  assert (Hrhs : forall x : Z, x = (sum + (Z.of_N c12 - 48))%Z -> ((10 - sum mod 10) mod 10 = Z.of_N c12 - 48 <-> x mod 10 = 0)%Z).
  { intros x ->. clearbody sum. Z.div_mod_to_equations. lia. }
  apply Hrhs. subst sum. ring.
Qed.

Lemma length_13 (l : codeunits) :
  List.length l = 13%nat ->
  exists c0 c1 c2 c3 c4 c5 c6 c7 c8 c9 c10 c11 c12,
    l = [c0; c1; c2; c3; c4; c5; c6; c7; c8; c9; c10; c11; c12].
Proof.
  intros H.
  do 13 (destruct l as [|? l]; [discriminate H|]).
  destruct l; [|discriminate H]. repeat eexists.
Qed.

Lemma validateEAN13_length (code : codeunits) :
  Scanner.validateEAN13 code = true -> List.length code = 13%nat.
Proof.
  unfold Scanner.validateEAN13.
  destruct (Nat.eqb_spec (List.length code) 13); [auto|discriminate].
Qed.

Lemma is_digit_range (c : N) :
  is_digit c = true <-> (48 <= Z.of_N c <= 57)%Z.
Proof.
  unfold is_digit. rewrite andb_true_iff, !N.leb_le. lia.
Qed.

(** X26. The EAN-13 check detects every single-character error: a
    code that differs from a valid code in exactly one position is not
    valid (whether the character there is another digit, not a digit, or
    missing). *)
Theorem ean13_detects_single_error (code code' : codeunits) (i : nat) :
  Scanner.validateEAN13 code = true ->
  (forall j, j <> i -> nth_error code' j = nth_error code j) ->
  nth_error code' i <> nth_error code i ->
  Scanner.validateEAN13 code' = false.
Proof.
  intros Hv Hsame Hdiff.
  destruct (Scanner.validateEAN13 code') eqn:Hv'; [exfalso|reflexivity].
  destruct (length_13 code (validateEAN13_length code Hv))
    as (c0 & c1 & c2 & c3 & c4 & c5 & c6 & c7 & c8 & c9 & c10 & c11 & c12
        & ->).
  destruct (length_13 code' (validateEAN13_length code' Hv'))
    as (e0 & e1 & e2 & e3 & e4 & e5 & e6 & e7 & e8 & e9 & e10 & e11 & e12
        & ->).
  rewrite validateEAN13_13 in Hv, Hv'. cbv zeta in Hv, Hv'.
  apply andb_true_iff in Hv, Hv'. destruct Hv as [Hd Hs], Hv' as [Hd' Hs'].
  cbn [forallb] in Hd, Hd'. rewrite !andb_true_iff, !is_digit_range in Hd, Hd'.
  apply Z.eqb_eq in Hs, Hs'.
  assert (Hpos : forall j c e,
             nth_error [e0; e1; e2; e3; e4; e5; e6; e7; e8; e9; e10; e11; e12] j
             = Some e ->
             nth_error [c0; c1; c2; c3; c4; c5; c6; c7; c8; c9; c10; c11; c12] j
             = Some c ->
             i = j /\ e <> c \/ i <> j /\ e = c).
  { intros j c e He Hc. destruct (Nat.eq_dec i j) as [->|Hne].
    - left. split; [reflexivity|]. intros ->. apply Hdiff. congruence.
    - right. split; [exact Hne|].
      specialize (Hsame j (fun H => Hne (eq_sym H))). congruence. }
  pose proof (Hpos 0%nat _ _ eq_refl eq_refl) as P0.
  pose proof (Hpos 1%nat _ _ eq_refl eq_refl) as P1.
  pose proof (Hpos 2%nat _ _ eq_refl eq_refl) as P2.
  pose proof (Hpos 3%nat _ _ eq_refl eq_refl) as P3.
  pose proof (Hpos 4%nat _ _ eq_refl eq_refl) as P4.
  pose proof (Hpos 5%nat _ _ eq_refl eq_refl) as P5.
  pose proof (Hpos 6%nat _ _ eq_refl eq_refl) as P6.
  pose proof (Hpos 7%nat _ _ eq_refl eq_refl) as P7.
  pose proof (Hpos 8%nat _ _ eq_refl eq_refl) as P8.
  pose proof (Hpos 9%nat _ _ eq_refl eq_refl) as P9.
  pose proof (Hpos 10%nat _ _ eq_refl eq_refl) as P10.
  pose proof (Hpos 11%nat _ _ eq_refl eq_refl) as P11.
  pose proof (Hpos 12%nat _ _ eq_refl eq_refl) as P12.
  assert (Hi : (i < 13)%nat).
  { destruct (Nat.lt_ge_cases i 13) as [|Hge]; [assumption|exfalso].
    apply Hdiff.
    transitivity (@None N); [|symmetry]; apply nth_error_None; cbn; lia. }
  clear Hpos Hsame Hdiff.
  match type of Hs with
  | (?a mod 10 = 0)%Z =>
      match type of Hs' with
      | (?b mod 10 = 0)%Z =>
          assert (Hm : ((b - a) mod 10 = 0)%Z)
            by (rewrite (Zminus_mod b a 10), Hs, Hs'; reflexivity)
      end
  end.
  clear Hs Hs'.
  do 13 (destruct i as [|i];
         [repeat match goal with
                 | P : _ /\ _ \/ _ /\ _ |- _ =>
                     destruct P as [[? ?]|[? ?]]; try (exfalso; lia)
                 end;
          subst; ring_simplify in Hm; Z.div_mod_to_equations; lia|]).
  exfalso. clear - Hi. lia.
Qed.

Lemma ean13_detects_single_error_witness :
  Scanner.validateEAN13
    [52; 48; 48; 54; 51; 56; 49; 51; 51; 51; 57; 51; 49]%N = true
  /\ Scanner.validateEAN13
       [52; 48; 48; 54; 51; 56; 49; 51; 51; 51; 57; 51; 50]%N = false.
Proof.
  split; [reflexivity|].
  apply (ean13_detects_single_error
           [52; 48; 48; 54; 51; 56; 49; 51; 51; 51; 57; 51; 49]%N
           [52; 48; 48; 54; 51; 56; 49; 51; 51; 51; 57; 51; 50]%N 12).
  - reflexivity.
  - intros j Hj.
    do 12 (destruct j as [|j]; [reflexivity|]).
    destruct j as [|j]; [now elim Hj|]. now destruct j.
  - discriminate.
Defined.

(** X27. For twelve digits there is exactly one last character that
    makes a valid EAN-13 code. *)
Theorem ean13_check_digit (body : codeunits) :
  List.length body = 12%nat ->
  forallb is_digit body = true ->
  exists last,
    Scanner.validateEAN13 (body ++ [last]) = true
    /\ forall c, Scanner.validateEAN13 (body ++ [c]) = true -> c = last.
Proof.
  intros Hlen Hdig.
  do 12 (destruct body as [|? body]; [discriminate Hlen|]).
  destruct body; [|discriminate Hlen]. clear Hlen.
  cbn [forallb] in Hdig. rewrite !andb_true_iff, !is_digit_range in Hdig.
  cbn [app].
  match goal with
  | |- exists last, Scanner.validateEAN13
                      [?c0; ?c1; ?c2; ?c3; ?c4; ?c5; ?c6; ?c7; ?c8; ?c9;
                       ?c10; ?c11; last] = true /\ _ =>
      set (sum := (Z.of_N c0 - 48 + 3 * (Z.of_N c1 - 48) + (Z.of_N c2 - 48)
                   + 3 * (Z.of_N c3 - 48) + (Z.of_N c4 - 48)
                   + 3 * (Z.of_N c5 - 48) + (Z.of_N c6 - 48)
                   + 3 * (Z.of_N c7 - 48) + (Z.of_N c8 - 48)
                   + 3 * (Z.of_N c9 - 48) + (Z.of_N c10 - 48)
                   + 3 * (Z.of_N c11 - 48))%Z)
  end.
  exists (Z.to_N (48 + (10 - sum mod 10) mod 10)).
  pose proof (Z.mod_pos_bound sum 10 eq_refl) as Hb.
  pose proof (Z.mod_pos_bound (10 - sum mod 10) 10 eq_refl) as Hb'.
  assert (Hiff : forall c,
             Scanner.validateEAN13 [n; n0; n1; n2; n3; n4; n5; n6; n7; n8; n9; n10; c]
             = true
             <-> (48 <= Z.of_N c <= 57)%Z
                 /\ ((sum + (Z.of_N c - 48)) mod 10 = 0)%Z).
  { intros c. rewrite validateEAN13_13. cbv zeta.
    rewrite andb_true_iff, Z.eqb_eq. fold sum. cbn [forallb].
    rewrite !andb_true_iff, !is_digit_range. tauto. }
  clearbody sum. split.
  - apply Hiff. rewrite Z2N.id by lia. split; [lia|].
    Z.div_mod_to_equations. lia.
  - intros c Hc. apply Hiff in Hc. destruct Hc as [Hr Hm].
    apply N2Z.inj. rewrite Z2N.id by lia.
    Z.div_mod_to_equations. lia.
Qed.

Lemma ean13_check_digit_witness :
  exists last,
    Scanner.validateEAN13
      ([52; 48; 48; 54; 51; 56; 49; 51; 51; 51; 57; 51]%N ++ [last]) = true
    /\ forall c,
         Scanner.validateEAN13
           ([52; 48; 48; 54; 51; 56; 49; 51; 51; 51; 57; 51]%N ++ [c]) = true ->
         c = last.
Proof.
  exact (ean13_check_digit
           [52; 48; 48; 54; 51; 56; 49; 51; 51; 51; 57; 51]%N eq_refl eq_refl).
Defined.

Lemma scanner_isValidBarcode_eq (s : codeunits) :
  Scanner.isValidBarcode (Some s)
  = let cleaned := filter (fun c => negb (is_whitespace c)) s in
    isValidBarcode (Some s)
    && (if (List.length cleaned =? 13)%nat
        then Scanner.validateEAN13 cleaned else true).
Proof.
  rewrite isValidBarcode_eq. cbv zeta.
  destruct s as [|c s]; [reflexivity|].
  unfold Scanner.isValidBarcode.
  set (cleaned := filter _ (c :: s)).
  cbv zeta. fold cleaned.
  destruct (forallb is_digit cleaned && (8 <=? List.length cleaned)%nat
            && (List.length cleaned <=? 14)%nat); reflexivity.
Qed.

(** X28. The scanner accepts only barcodes that the API helper
    accepts; the two agree on every code that does not have 13 digits, and
    on a code of 13 digits the scanner's answer is that of the EAN-13
    check on the digits. *)
Theorem scanner_barcode_stricter (code : option codeunits) :
  (Scanner.isValidBarcode code = true -> isValidBarcode code = true)
  /\ (forall s, code = Some s ->
        isValidBarcode code = true ->
        List.length (filter is_digit s) <> 13%nat ->
        Scanner.isValidBarcode code = true)
  /\ (forall s, code = Some s ->
        isValidBarcode code = true ->
        List.length (filter is_digit s) = 13%nat ->
        Scanner.isValidBarcode code = Scanner.validateEAN13 (filter is_digit s)).
Proof.
  destruct code as [s|]; [|cbn; repeat split; try discriminate; auto].
  rewrite scanner_isValidBarcode_eq. cbv zeta. split; [|split].
  - intros H. now apply andb_true_iff in H.
  - intros s' [= <-] Hv Hlen. rewrite Hv.
    pose proof (valid_barcode_chars s Hv) as HF.
    rewrite (cleaned_digits s HF).
    destruct (Nat.eqb_spec (List.length (filter is_digit s)) 13);
      [contradiction|reflexivity].
  - intros s' [= <-] Hv Hlen. rewrite Hv.
    pose proof (valid_barcode_chars s Hv) as HF.
    rewrite (cleaned_digits s HF), Hlen. reflexivity.
Qed.

(** ** Gender detection *)

(** X29. An explicit gender is returned as it is.  Without one, the
    detected gender is female exactly when the calorie goal is present,
    not 0 and at most 2000, and male otherwise: a goal of 2800 or more
    gives male as well. *)
Theorem auto_gender_without_setting (settings : Settings.t) :
  let g := autoDetectGender settings in
  (forall s, Settings.gender settings = Some s -> s <> "" -> g = s)
  /\ (js_or_str (Settings.gender settings) "" = "" ->
      (g = "female"
       <-> exists goal, Settings.calorieGoal settings = Some goal
                        /\ ~ goal == 0 /\ goal <= 2000)
      /\ (g = "female" \/ g = "male")).
Proof.
  intros g. subst g. unfold autoDetectGender, truthy_string. split.
  - intros s -> Hs.
    destruct (String.eqb_spec s ""); [contradiction|reflexivity].
  - intros Hg.
    assert (Hm : js_or_str (Settings.gender settings) "male" = "male"
                 /\ match Settings.gender settings with
                    | Some s => if String.eqb s "" then None else Some s
                    | None => None
                    end = None).
    { destruct (Settings.gender settings) as [s|]; [|now split].
      cbn in Hg |- *. destruct (String.eqb_spec s "");
        [now split|contradiction]. }
    destruct Hm as [Hm ->]. rewrite Hm.
    destruct (Settings.calorieGoal settings) as [goal|].
    + destruct (Qeq_bool goal 0) eqn:E0; cbn [negb];
        [apply Qeq_bool_iff in E0 | apply Qeq_bool_neq in E0].
      * split; [|now right]. split; [discriminate|].
        intros (q & [= <-] & Hq & _). contradiction.
      * unfold Qleb. destruct (Qle_bool goal 2000) eqn:E2;
          [apply Qle_bool_iff in E2 | apply Qle_bool_false in E2].
        -- split; [|now left]. split; [|reflexivity].
           intros _. exists goal. now repeat split.
        -- split.
           ++ split.
              ** destruct (goal >=? 2800); discriminate.
              ** intros (q & [= <-] & _ & Hq). lra.
           ++ right. now destruct (goal >=? 2800).
    + split; [|now right]. split; [discriminate|].
      intros (q & Hq & _). discriminate.
Qed.

(** ** Healthier alternatives *)

Lemma sorted_app_le {A : Type} (R : A -> A -> Prop) (l1 l2 : list A) :
  StronglySorted R (l1 ++ l2) ->
  forall a b, In a l1 -> In b l2 -> R a b.
Proof.
  induction l1 as [|x l1 IH]; cbn [app]; intros Hs a b Ha Hb; [easy|].
  apply StronglySorted_inv in Hs. destruct Hs as [Hs Hall].
  destruct Ha as [<- | Ha].
  - rewrite Forall_forall in Hall. apply Hall, in_or_app. now right.
  - now apply IH.
Qed.

Lemma In_firstn {A : Type} (n : nat) (l : list A) (a : A) :
  In a (firstn n l) -> In a l.
Proof.
  intros H. rewrite <- (firstn_skipn n l). apply in_or_app. now left.
Qed.

Lemma sorted_firstn {A : Type} (R : A -> A -> Prop) (n : nat) (l : list A) :
  StronglySorted R l -> StronglySorted R (firstn n l).
Proof.
  intros Hs. revert n. induction Hs as [|x l Hl IH Hx]; intros [|n];
    cbn [firstn]; try constructor.
  - apply IH.
  - rewrite Forall_forall in *. intros y Hy. apply Hx.
    revert Hy. apply In_firstn.
Qed.

Lemma alternatives_generic (score_of : ApiProduct.t -> Z)
    (products : list ApiProduct.t) (currentScore : Z) :
  let alts :=
    firstn 5
      (Array_sort
         (fun a b =>
            (Alternative.improvement b - Alternative.improvement a <=? 0)%Z)
         (flat_map
            (fun product =>
               if String.eqb
                    (js_or_str (ApiProduct.product_name product) "") ""
               then []
               else
                 if (score_of product >? currentScore)%Z then
                   [{| Alternative.name :=
                         js_or_str (ApiProduct.product_name product) "";
                       Alternative.brand :=
                         js_or_str (ApiProduct.brands product) "";
                       Alternative.score := score_of product;
                       Alternative.nutriscore :=
                         ApiProduct.nutriscore_grade product;
                       Alternative.image :=
                         js_or_str (ApiProduct.image_url product)
                           "https://via.placeholder.com/60/10b981/ffffff?text=ALT";
                       Alternative.improvement :=
                         (score_of product - currentScore)%Z |}]
                 else [])
            products)) in
  (List.length alts <= 5)%nat
  /\ (forall a, In a alts ->
        (currentScore < Alternative.score a)%Z
        /\ Alternative.improvement a
           = (Alternative.score a - currentScore)%Z
        /\ exists product,
             In product products
             /\ ApiProduct.product_name product = Some (Alternative.name a)
             /\ Alternative.score a = score_of product)
  /\ StronglySorted
       (fun a b => (Alternative.score b <= Alternative.score a)%Z) alts
  /\ (forall product name,
        In product products ->
        ApiProduct.product_name product = Some name -> name <> "" ->
        (currentScore < score_of product)%Z ->
        (exists a, In a alts /\ Alternative.name a = name
                   /\ Alternative.score a = score_of product)
        \/ (List.length alts = 5%nat
            /\ forall a, In a alts ->
                 (score_of product <= Alternative.score a)%Z)).
Proof.
  intros alts. subst alts.
  set (le0 := fun a b : Alternative.t =>
                (Alternative.improvement b - Alternative.improvement a <=? 0)%Z).
  set (alternatives := flat_map _ products).
  assert (Htot : forall a b, le0 a b = true \/ le0 b a = true)
    by (intros a b; unfold le0; rewrite !Z.leb_le; lia).
  assert (Htrans : forall a b c, le0 a b = true -> le0 b c = true ->
                                 le0 a c = true)
    by (intros a b c; unfold le0; rewrite !Z.leb_le; lia).
  pose proof (Array_sort_perm le0 alternatives) as Hperm.
  pose proof (Array_sort_sorted le0 Htot Htrans alternatives) as Hsorted.
  assert (Hin : forall a, In a alternatives <->
            exists product, In product products
              /\ js_or_str (ApiProduct.product_name product) "" <> ""
              /\ (currentScore < score_of product)%Z
              /\ a = {| Alternative.name :=
                          js_or_str (ApiProduct.product_name product) "";
                        Alternative.brand :=
                          js_or_str (ApiProduct.brands product) "";
                        Alternative.score := score_of product;
                        Alternative.nutriscore :=
                          ApiProduct.nutriscore_grade product;
                        Alternative.image :=
                          js_or_str (ApiProduct.image_url product)
                            "https://via.placeholder.com/60/10b981/ffffff?text=ALT";
                        Alternative.improvement :=
                          (score_of product - currentScore)%Z |}).
  { intros a. subst alternatives. rewrite in_flat_map. split.
    - intros (p & Hp & Ha). exists p. split; [exact Hp|].
      destruct (String.eqb_spec (js_or_str (ApiProduct.product_name p) "") "")
        as [|Hn]; [destruct Ha|].
      destruct (Z.gtb_spec (score_of p) currentScore); [|destruct Ha].
      destruct Ha as [<- | []]. repeat split; [exact Hn|lia].
    - intros (p & Hp & Hn & Hs & ->). exists p. split; [exact Hp|].
      destruct (String.eqb_spec (js_or_str (ApiProduct.product_name p) "") "")
        as [|_]; [contradiction|].
      destruct (Z.gtb_spec (score_of p) currentScore); [|lia]. now left. }
  assert (Himp : forall a, In a alternatives ->
            Alternative.improvement a
            = (Alternative.score a - currentScore)%Z).
  { intros a Ha. apply Hin in Ha. destruct Ha as (p & _ & _ & _ & ->).
    reflexivity. }
  assert (Hsub : forall a, In a (firstn 5 (Array_sort le0 alternatives)) ->
                           In a alternatives).
  { intros a Ha. apply In_firstn in Ha.
    now apply (Permutation_in _ Hperm). }
  split; [apply firstn_le_length|]. split; [|split].
  - intros a Ha. apply Hsub in Ha. pose proof (Himp a Ha) as Hi.
    apply Hin in Ha. destruct Ha as (p & Hp & Hn & Hs & ->).
    cbn [Alternative.score Alternative.improvement Alternative.name].
    split; [exact Hs|]. split; [reflexivity|].
    exists p. split; [exact Hp|]. split; [|reflexivity].
    destruct (ApiProduct.product_name p) as [n|]; cbn in Hn |- *;
      [|contradiction].
    destruct (String.eqb_spec n ""); [contradiction|reflexivity].
  - apply sorted_firstn with (n := 5%nat) in Hsorted.
    assert (Hmono : forall l,
               (forall a, In a l -> In a alternatives) ->
               StronglySorted (fun a b => le0 a b = true) l ->
               StronglySorted
                 (fun a b => (Alternative.score b <= Alternative.score a)%Z) l).
    { induction l as [|x l IH]; intros Hl Hs; constructor.
      - apply IH; [intros a Ha; apply Hl; now right|].
        now apply StronglySorted_inv in Hs.
      - apply StronglySorted_inv in Hs. destruct Hs as [_ Hall].
        rewrite Forall_forall in *. intros y Hy.
        specialize (Hall y Hy). unfold le0 in Hall. apply Z.leb_le in Hall.
        rewrite (Himp x), (Himp y) in Hall; [lia| |];
          apply Hl; [now right|now left]. }
    apply Hmono; [exact Hsub|exact Hsorted].
  - intros p name Hp Hname Hne Hscore.
    set (a := {| Alternative.name := name;
                 Alternative.brand := js_or_str (ApiProduct.brands p) "";
                 Alternative.score := score_of p;
                 Alternative.nutriscore := ApiProduct.nutriscore_grade p;
                 Alternative.image :=
                   js_or_str (ApiProduct.image_url p)
                     "https://via.placeholder.com/60/10b981/ffffff?text=ALT";
                 Alternative.improvement := (score_of p - currentScore)%Z |}).
    assert (Hjs : js_or_str (ApiProduct.product_name p) "" = name).
    { rewrite Hname. cbn. destruct (String.eqb_spec name "");
        [contradiction|reflexivity]. }
    assert (Ha : In a alternatives).
    { apply Hin. exists p. rewrite Hjs. repeat split; assumption. }
    apply (Permutation_in _ (Permutation_sym Hperm)) in Ha.
    rewrite <- (firstn_skipn 5 (Array_sort le0 alternatives)) in Ha, Hsorted.
    apply in_app_or in Ha. destruct Ha as [Ha | Ha].
    + left. exists a. now repeat split.
    + right. split.
      * pose proof (length_firstn 5 (Array_sort le0 alternatives)) as Hl.
        destruct (Nat.le_gt_cases 5 (List.length (Array_sort le0 alternatives)))
          as [Hge | Hlt]; [lia|].
        rewrite skipn_all2 in Ha by lia. destruct Ha.
      * intros b Hb.
        pose proof (sorted_app_le _ _ _ Hsorted b a Hb Ha) as Hle.
        unfold le0 in Hle. apply Z.leb_le in Hle.
        assert (Hb' : In b alternatives) by now apply Hsub.
        rewrite (Himp b Hb') in Hle. cbn in Hle. lia.
Qed.

(** X30. The healthier alternatives are at most five; each is built
    from a named product of the search result whose health score is
    strictly above the current score, and its improvement is the
    difference of the two; they are listed by decreasing score; and a
    named product with a higher score than the current one is left out
    only when five alternatives with scores at least as high are
    listed. *)
Theorem alternatives_healthier (category : option string)
    (products : list ApiProduct.t) (currentScore : Z) :
  let score_of := fun product =>
    HealthScore.score
      (calculateHealthScore (as_nutrition (extractNutritionData product))
                            no_options) in
  let alts := fetchHealthierAlternatives category products currentScore in
  (List.length alts <= 5)%nat
  /\ (forall a, In a alts ->
        (currentScore < Alternative.score a)%Z
        /\ Alternative.improvement a
           = (Alternative.score a - currentScore)%Z
        /\ exists product,
             In product products
             /\ ApiProduct.product_name product = Some (Alternative.name a)
             /\ Alternative.score a = score_of product)
  /\ StronglySorted
       (fun a b => (Alternative.score b <= Alternative.score a)%Z) alts
  /\ (forall product name,
        js_or_str category "" <> "" ->
        In product products ->
        ApiProduct.product_name product = Some name -> name <> "" ->
        (currentScore < score_of product)%Z ->
        (exists a, In a alts /\ Alternative.name a = name
                   /\ Alternative.score a = score_of product)
        \/ (List.length alts = 5%nat
            /\ forall a, In a alts ->
                 (score_of product <= Alternative.score a)%Z)).
Proof.
  intros score_of alts. subst alts. unfold fetchHealthierAlternatives.
  destruct (String.eqb_spec (js_or_str category "") "") as [Hc | Hc].
  { cbn [List.length In]. repeat split; try lia; try easy. constructor. }
  destruct (alternatives_generic score_of products currentScore)
    as (H5 & Hin & Hsorted & Htop).
  split; [exact H5|]. split; [exact Hin|]. split; [exact Hsorted|].
  intros product name _. apply Htop.
Qed.
